(** * nautilus_mt5: the MT5 bridge protocol and the streaming receiver

    A shallow embedding of

    - [MQL5/Include/MT5Ext/utils.mqh]         ([StringJoin], [MakeMessage]),
    - [MQL5/Include/MT5Ext/MT5Ext.mqh]        ([ParseRequest], [ProcessClient],
      [AcceptClients], [BroadcastStreamData]),
    - [MQL5/Include/MT5Ext/rest-handlers.mqh] and [stream-handlers.mqh]
      (the handlers),
    - [MQL5/Experts/MT5Ext.mq5]               ([OnInit], [OnTimer], [OnTick]),
    - [nautilus_mt5/client/ea/data_stream.pyx] ([MetaTrader5Streamer]),

    followed by the properties of the bridge specification that were checked
    against it.  Parts I and II hold the definitions, Parts III and IV the
    theorems. *)

From Stdlib Require Import String Ascii List ZArith Bool Lia.
From stdpp Require Import base gmap sets list strings pretty.

Local Open Scope string_scope.
Local Open Scope list_scope.

(* ===================================================================== *)
(** * Part I: the terminal side (MQL5)                                    *)
(* ===================================================================== *)

Module Mql.

(** ** Run-time outcomes

    MQL5 has no exceptions.  An array declared without a size
    ([string a[]]) has size 0 until [ArrayResize] is called, and an access
    beyond the current size of an array is a critical run-time error ("array
    out of range"): the executing subsystem stops the program.  Every
    operation of the model that indexes an array therefore returns an
    [outcome]. *)

Inductive critical_error : Type :=
| ArrayOutOfRange.

Inductive outcome (A : Type) : Type :=
| Done (a : A)
| Critical (e : critical_error).

Arguments Done {A} a.
Arguments Critical {A} e.

#[global] Instance outcome_ret : MRet outcome := fun _ a => Done a.

#[global] Instance outcome_bind : MBind outcome := fun _ _ k o =>
  match o with
  | Done a => k a
  | Critical e => Critical e
  end.

(** ** Arrays

    A dynamic array ([string a[]]) is a list; its size only changes through
    [ArrayResize] and [ArrayCopy]. *)

(** [a[i]] as an r-value. *)
Definition array_get {A : Type} (a : list A) (i : nat) : outcome A :=
  match a !! i with
  | Some x => Done x
  | None => Critical ArrayOutOfRange
  end.

(** [a[i] = x]. *)
Definition array_set {A : Type} (a : list A) (i : nat) (x : A) : outcome (list A) :=
  if (i <? length a)%nat then Done (<[i := x]> a) else Critical ArrayOutOfRange.

(** [ArrayResize(a, n)]: the first [n] elements are kept, new string elements
    are empty. *)
Definition ArrayResize (a : list string) (n : nat) : list string :=
  take n a ++ replicate (n - length a) EmptyString.

(** [ArrayCopy(dst, src, dst_start, src_start)] with the default count
    (the whole rest of [src]); a dynamic destination grows when needed. *)
Definition ArrayCopy (dst src : list string) (dst_start src_start : nat) : list string :=
  let chunk := drop src_start src in
  take dst_start dst ++ chunk ++ drop (dst_start + length chunk) dst.

(** ** Strings *)

(** Does character [c] occur in [s]? *)
Fixpoint occurs (c : ascii) (s : string) : bool :=
  match s with
  | EmptyString => false
  | String d s' => Ascii.eqb d c || occurs c s'
  end.

(** The fields of [s] between occurrences of [sep]: the first field and the
    list of the following ones.  Adjacent separators delimit empty fields. *)
Fixpoint split_fields (sep : ascii) (s : string) : string * list string :=
  match s with
  | EmptyString => (EmptyString, [])
  | String c s' =>
      let '(f, fs) := split_fields sep s' in
      if Ascii.eqb c sep then (EmptyString, f :: fs) else (String c f, fs)
  end.

Definition fields (sep : ascii) (s : string) : list string :=
  let '(f, fs) := split_fields sep s in f :: fs.

(** The built-in [StringSplit(s, sep, result)]: an empty string yields no
    substring at all, a string without separator yields itself. *)
Definition StringSplit (s : string) (sep : ascii) : list string :=
  match s with
  | EmptyString => []
  | String _ _ => fields sep s
  end.

(** A value that can travel as one field: it holds neither the caret that
    separates fields nor the dollar sign used inside compound values. *)
Definition delimiter_free (v : string) : bool :=
  negb (occurs "^" v) && negb (occurs "$" v).

(** ** utils.mqh *)

(** The loop of [StringJoin]: [result] is the accumulator, the delimiter is
    appended after every element but the last ([i < size - 1]). *)
Fixpoint StringJoin_loop (arr : list string) (delimiter result : string) : string :=
  match arr with
  | [] => result
  | x :: rest =>
      let result := result +:+ x in
      let result := match rest with
                    | [] => result
                    | _ :: _ => result +:+ delimiter
                    end in
      StringJoin_loop rest delimiter result
  end.

Definition StringJoin (arr : list string) (delimiter : string) : string :=
  StringJoin_loop arr delimiter "".

Definition MakeMessage (command subCommand : string) (parameters : list string) : string :=
  let params_str := StringJoin parameters "^" in
  (((command +:+ "^") +:+ subCommand) +:+ "^") +:+ params_str.

Definition BoolToString (value : bool) : string :=
  if value then "true" else "false".

(** ** MT5Ext.mqh: the request decoder *)

(** The three out-parameters of [ParseRequest]. *)
Record Request : Type := mkRequest {
  command : string;
  subCommand : string;
  parameters : list string
}.

(** [ParseRequest(request, command, subCommand, parameters)].  [parameters0]
    is the array the caller passes by reference.  The branch for fewer than
    two parts writes [parameters[0]] without resizing the array.  (The
    [debug] flag only guards calls of [Print].) *)
Definition ParseRequest (request : string) (parameters0 : list string) : outcome Request :=
  let parts := StringSplit request "^" in
  if (length parts <? 2)%nat then
    parameters1 ← array_set parameters0 0 "INVALID_REQUEST";
    Done (mkRequest "F999" "1" parameters1)
  else
    command ← array_get parts 0;
    subCommand ← array_get parts 1;
    let parameters1 := ArrayResize parameters0 (length parts - 2) in
    let parameters2 := ArrayCopy parameters1 parts 0 2 in
    Done (mkRequest command subCommand parameters2).

(** ** The terminal's native API

    The handlers query the trading terminal.  Its state [T] and its
    floating-point type [double] are left open; [DoubleToString] and the
    queries are the interface the handlers are written against. *)

Inductive account_string : Type := ACCOUNT_NAME | ACCOUNT_CURRENCY | ACCOUNT_COMPANY.
Inductive account_integer : Type :=
  ACCOUNT_LOGIN | ACCOUNT_TRADE_MODE | ACCOUNT_LEVERAGE | ACCOUNT_TRADE_ALLOWED
| ACCOUNT_LIMIT_ORDERS.
Inductive account_double : Type :=
  ACCOUNT_MARGIN_SO_CALL | ACCOUNT_MARGIN_SO_SO | ACCOUNT_BALANCE | ACCOUNT_EQUITY
| ACCOUNT_PROFIT | ACCOUNT_MARGIN | ACCOUNT_MARGIN_LEVEL | ACCOUNT_MARGIN_FREE.
Inductive symbol_integer : Type :=
  SYMBOL_DIGITS | SYMBOL_TRADE_STOPS_LEVEL | SYMBOL_TRADE_MODE | SYMBOL_SPREAD.
Inductive symbol_double : Type :=
  SYMBOL_VOLUME_MAX | SYMBOL_VOLUME_MIN | SYMBOL_VOLUME_STEP | SYMBOL_POINT
| SYMBOL_TRADE_TICK_SIZE | SYMBOL_TRADE_TICK_VALUE | SYMBOL_SWAP_LONG
| SYMBOL_SWAP_SHORT | SYMBOL_TRADE_CONTRACT_SIZE.
Inductive terminal_string : Type := TERMINAL_NAME.
Inductive terminal_integer : Type := TERMINAL_CONNECTED.
Inductive position_string : Type := POSITION_SYMBOL | POSITION_COMMENT.
Inductive position_integer : Type := POSITION_TYPE | POSITION_MAGIC | POSITION_TIME.
Inductive position_double : Type :=
  POSITION_VOLUME | POSITION_PRICE_OPEN | POSITION_SL | POSITION_TP | POSITION_PROFIT
| POSITION_SWAP | POSITION_COMMISSION.
Inductive deal_string : Type := DEAL_SYMBOL | DEAL_COMMENT.
Inductive deal_integer : Type := DEAL_TYPE | DEAL_MAGIC | DEAL_TIME.
Inductive deal_double : Type :=
  DEAL_VOLUME | DEAL_PRICE | DEAL_SL | DEAL_TP | DEAL_PROFIT | DEAL_SWAP
| DEAL_COMMISSION.
Inductive order_string : Type := ORDER_SYMBOL | ORDER_COMMENT.
Inductive order_integer : Type :=
  ORDER_TYPE | ORDER_MAGIC | ORDER_TIME_SETUP | ORDER_TIME_DONE.
Inductive order_double : Type :=
  ORDER_VOLUME_INITIAL | ORDER_VOLUME_CURRENT | ORDER_PRICE_OPEN | ORDER_SL | ORDER_TP
| ORDER_PRICE_CURRENT.

(** [ENUM_SYMBOL_TRADE_MODE]: trading is disabled for the symbol. *)
Definition SYMBOL_TRADE_MODE_DISABLED : Z := 0.

Record MqlTick (double : Type) : Type := mkTick {
  time : Z;
  bid : double;
  ask : double;
  last : double;
  volume : Z;
  time_msc : Z
}.

Arguments mkTick {double}.
Arguments time {double}.
Arguments bid {double}.
Arguments ask {double}.
Arguments last {double}.
Arguments volume {double}.
Arguments time_msc {double}.

(** The fields of [MqlRates] that the handlers read. *)
Module Rates.
Record MqlRates (double : Type) : Type := mkRates {
  time : Z;
  open : double;
  high : double;
  low : double;
  close : double;
  tick_volume : Z
}.
Arguments mkRates {double}.
Arguments time {double}.
Arguments open {double}.
Arguments high {double}.
Arguments low {double}.
Arguments close {double}.
Arguments tick_volume {double}.
End Rates.

Class Terminal (T double : Type) : Type := {
  DoubleToString : double -> nat -> string;
  (** [StringToUpper] works in place and reports success; [None] is failure *)
  StringToUpper : string -> option string;
  TimeCurrent : T -> Z;
  AccountInfoString : T -> account_string -> string;
  AccountInfoInteger : T -> account_integer -> Z;
  AccountInfoDouble : T -> account_double -> double;
  SymbolInfoInteger : T -> string -> symbol_integer -> Z;
  SymbolInfoDouble : T -> string -> symbol_double -> double;
  TerminalInfoString : T -> terminal_string -> string;
  TerminalInfoInteger : T -> terminal_integer -> Z;
  (** [SymbolSelect] changes the market watch of the terminal *)
  SymbolSelect : T -> string -> bool -> T * bool;
  SymbolInfoTick : T -> string -> option (MqlTick double);
  iTime : T -> string -> Z;
  iOpen : T -> string -> double;
  iHigh : T -> string -> double;
  iLow : T -> string -> double;
  iClose : T -> string -> double;
  iVolume : T -> string -> Z;
  (** [CopyTicks(symbol, ticks, COPY_TICKS_ALL, 0, count)] and
      [CopyRates(symbol, timeframe, start, count, rates)]: the value returned
      and the array filled *)
  CopyTicks : T -> string -> Z -> Z * list (MqlTick double);
  CopyRates : T -> string -> Z -> Z -> Z -> Z * list (Rates.MqlRates double);
  (** [PositionGetTicket] and [OrderGetTicket] select the item that the
      following queries read *)
  PositionsTotal : T -> Z;
  PositionGetTicket : T -> Z -> T * Z;
  PositionGetString : T -> position_string -> string;
  PositionGetInteger : T -> position_integer -> Z;
  PositionGetDouble : T -> position_double -> double;
  HistorySelect : T -> Z -> Z -> T * bool;
  HistoryDealsTotal : T -> Z;
  HistoryDealGetTicket : T -> Z -> Z;
  HistoryDealGetString : T -> Z -> deal_string -> string;
  HistoryDealGetInteger : T -> Z -> deal_integer -> Z;
  HistoryDealGetDouble : T -> Z -> deal_double -> double;
  HistoryOrdersTotal : T -> Z;
  OrdersTotal : T -> Z;
  OrderGetTicket : T -> Z -> T * Z;
  OrderGetString : T -> order_string -> string;
  OrderGetInteger : T -> order_integer -> Z;
  OrderGetDouble : T -> order_double -> double
}.

(** [for (int i = 0; i < n; i++) body]: the state after the loop, or the
    critical error that ended it. *)
Fixpoint for_loop {St : Type} (n i : nat) (body : nat -> St -> outcome St) (s : St)
    : outcome St :=
  match n with
  | O => Done s
  | S n' => s1 ← body i s; for_loop n' (S i) body s1
  end.

(** [IntegerToString]: the decimal text of an integer. *)
Definition IntegerToString (n : Z) : string := pretty n.

(** A C-style conversion of an integer to [bool]. *)
Definition to_bool (n : Z) : bool := negb (n =? 0)%Z.

(** ** rest-handlers.mqh *)

Section Handlers.

Context {T double : Type} `{!Terminal T double}.

Definition GetBrokerServerTime (t : T) : string :=
  let parameters := [IntegerToString (TimeCurrent t)] in
  MakeMessage "F005" "1" parameters.

Definition GetCheckConnection : string :=
  let parameters := ["OK"] in
  MakeMessage "F000" "1" parameters.

Definition GetStaticAccountInfo (t : T) : string :=
  let parameters := [
    AccountInfoString t ACCOUNT_NAME;
    IntegerToString (AccountInfoInteger t ACCOUNT_LOGIN);
    AccountInfoString t ACCOUNT_CURRENCY;
    IntegerToString (AccountInfoInteger t ACCOUNT_TRADE_MODE);
    IntegerToString (AccountInfoInteger t ACCOUNT_LEVERAGE);
    BoolToString (to_bool (AccountInfoInteger t ACCOUNT_TRADE_ALLOWED));
    IntegerToString (AccountInfoInteger t ACCOUNT_LIMIT_ORDERS);
    DoubleToString (AccountInfoDouble t ACCOUNT_MARGIN_SO_CALL) 8;
    DoubleToString (AccountInfoDouble t ACCOUNT_MARGIN_SO_SO) 8;
    AccountInfoString t ACCOUNT_COMPANY] in
  MakeMessage "F001" "10" parameters.

Definition GetDynamicAccountInfo (t : T) : string :=
  let parameters := [
    DoubleToString (AccountInfoDouble t ACCOUNT_BALANCE) 2;
    DoubleToString (AccountInfoDouble t ACCOUNT_EQUITY) 2;
    DoubleToString (AccountInfoDouble t ACCOUNT_PROFIT) 2;
    DoubleToString (AccountInfoDouble t ACCOUNT_MARGIN) 2;
    DoubleToString (AccountInfoDouble t ACCOUNT_MARGIN_LEVEL) 2;
    DoubleToString (AccountInfoDouble t ACCOUNT_MARGIN_FREE) 2] in
  MakeMessage "F002" "6" parameters.

(** The array [parameters] of [GetInstrumentInfo]. *)
Definition GetInstrumentInfo_parameters (t : T) (symbol : string) : list string := [
    IntegerToString (SymbolInfoInteger t symbol SYMBOL_DIGITS);
    DoubleToString (SymbolInfoDouble t symbol SYMBOL_VOLUME_MAX) 2;
    DoubleToString (SymbolInfoDouble t symbol SYMBOL_VOLUME_MIN) 2;
    DoubleToString (SymbolInfoDouble t symbol SYMBOL_VOLUME_STEP) 2;
    DoubleToString (SymbolInfoDouble t symbol SYMBOL_POINT) 5;
    DoubleToString (SymbolInfoDouble t symbol SYMBOL_TRADE_TICK_SIZE) 5;
    DoubleToString (SymbolInfoDouble t symbol SYMBOL_TRADE_TICK_VALUE) 2;
    DoubleToString (SymbolInfoDouble t symbol SYMBOL_SWAP_LONG) 2;
    DoubleToString (SymbolInfoDouble t symbol SYMBOL_SWAP_SHORT) 2;
    IntegerToString (SymbolInfoInteger t symbol SYMBOL_TRADE_STOPS_LEVEL);
    DoubleToString (SymbolInfoDouble t symbol SYMBOL_TRADE_CONTRACT_SIZE) 2].

Definition GetInstrumentInfo (t : T) (symbol : string) : string :=
  let parameters := GetInstrumentInfo_parameters t symbol in
  MakeMessage "F003" "3" parameters.

Definition GetBrokerInstrumentNames (t : T) : string :=
  let parameters := [TerminalInfoString t TERMINAL_NAME] in
  MakeMessage "F007" "1" parameters.

Definition CheckMarketWatch (t : T) (symbol : string) : T * string :=
  let '(t1, isWatched) := SymbolSelect t symbol true in
  let parameters := [if isWatched then "YES" else "NO"] in
  (t1, MakeMessage "F004" "1" parameters).

Definition CheckTradingAllowed (t : T) (symbol : string) : string :=
  let tradingAllowed :=
    negb (SymbolInfoInteger t symbol SYMBOL_TRADE_MODE =? SYMBOL_TRADE_MODE_DISABLED)%Z in
  let parameters := [if tradingAllowed then "YES" else "NO"] in
  MakeMessage "F008" "1" parameters.

Definition CheckTerminalServerConnection (t : T) : string :=
  let parameters :=
    [if to_bool (TerminalInfoInteger t TERMINAL_CONNECTED)
     then "CONNECTED" else "DISCONNECTED"] in
  MakeMessage "F011" "1" parameters.

Definition CheckTerminalType (t : T) : string :=
  let parameters := [TerminalInfoString t TERMINAL_NAME] in
  MakeMessage "F012" "1" parameters.

(** The array [parameters] of the success branch of [GetLastTickInfo]. *)
Definition GetLastTickInfo_parameters (t : T) (symbol : string)
    (lastTick : MqlTick double) : list string := [
    IntegerToString (time lastTick);
    DoubleToString (bid lastTick) 5;
    DoubleToString (ask lastTick) 5;
    DoubleToString (last lastTick) 5;
    IntegerToString (volume lastTick);
    IntegerToString (SymbolInfoInteger t symbol SYMBOL_SPREAD);
    IntegerToString (time_msc lastTick)].

Definition GetLastTickInfo (t : T) (symbol : string) : T * string :=
  let errorParameters := ["ERROR"] in
  match StringToUpper symbol with
  | None => (t, MakeMessage "F020" "1" errorParameters)
  | Some symbol =>
      let '(t1, _) := SymbolSelect t symbol true in
      match SymbolInfoTick t1 symbol with
      | Some lastTick =>
          let parameters := GetLastTickInfo_parameters t1 symbol lastTick in
          (t1, MakeMessage "F020" "6" parameters)
      | None => (t1, MakeMessage "F020" "1" errorParameters)
      end
  end.

Definition GetLastXTickFromNow (t : T) (symbol : string) (nbrofticks : Z)
    : outcome (T * string) :=
  let errorParameters := ["ERROR"] in
  match StringToUpper symbol with
  | None => Done (t, MakeMessage "F021" "1" errorParameters)
  | Some symbol =>
      let '(t1, _) := SymbolSelect t symbol true in
      let '(copied, ticks) := CopyTicks t1 symbol nbrofticks in
      if (0 <? copied)%Z then
        let parameters : list string := [] in
        parameters ←
          for_loop (length ticks) 0
            (fun i parameters =>
               tick ← array_get ticks i;
               array_set parameters i
                 (IntegerToString (time tick) +:+ "$" +:+
                  DoubleToString (ask tick) 5 +:+ "$" +:+
                  DoubleToString (bid tick) 5 +:+ "$" +:+
                  DoubleToString (last tick) 5 +:+ "$" +:+
                  IntegerToString (volume tick)))
            parameters;
        Done (t1, MakeMessage "F021" (IntegerToString (Z.of_nat (length parameters))) parameters)
      else Done (t1, MakeMessage "F021" "1" errorParameters)
  end.

Definition GetActualBarInfo (t : T) (symbol : string) (timeframe : Z)
    : outcome (T * string) :=
  let errorParameters := ["ERROR"] in
  match StringToUpper symbol with
  | None => Done (t, MakeMessage "F041" "1" errorParameters)
  | Some symbol =>
      let '(t1, _) := SymbolSelect t symbol true in
      let '(copied, rates) := CopyRates t1 symbol timeframe 0 1 in
      if (0 <? copied)%Z then
        bar ← array_get rates 0;
        let parameters := [
          IntegerToString (Rates.time bar);
          DoubleToString (Rates.open bar) 5;
          DoubleToString (Rates.high bar) 5;
          DoubleToString (Rates.low bar) 5;
          DoubleToString (Rates.close bar) 5;
          IntegerToString (Rates.tick_volume bar)] in
        Done (t1, MakeMessage "F041" "6" parameters)
      else Done (t1, MakeMessage "F041" "1" errorParameters)
  end.

Definition GetSpecificBar (t : T) (symbol : string) (specific_bar_index timeframe : Z)
    : outcome (T * string) :=
  let errorParameters := ["ERROR"] in
  match StringToUpper symbol with
  | None => Done (t, MakeMessage "F045" "1" errorParameters)
  | Some symbol =>
      let '(t1, _) := SymbolSelect t symbol true in
      let '(copied, rates) := CopyRates t1 symbol timeframe specific_bar_index 1 in
      if (0 <? copied)%Z then
        bar ← array_get rates 0;
        let parameters := [
          symbol;
          IntegerToString (Rates.time bar);
          DoubleToString (Rates.open bar) 5;
          DoubleToString (Rates.high bar) 5;
          DoubleToString (Rates.low bar) 5;
          DoubleToString (Rates.close bar) 5;
          IntegerToString (Rates.tick_volume bar)] in
        Done (t1, MakeMessage "F045" "7" parameters)
      else Done (t1, MakeMessage "F045" "1" errorParameters)
  end.

Definition GetLastXBarsFromNow (t : T) (symbol : string) (timeframe nbrofbars : Z)
    : outcome (T * string) :=
  let errorParameters := ["ERROR"] in
  match StringToUpper symbol with
  | None => Done (t, MakeMessage "F042" "1" errorParameters)
  | Some symbol =>
      let '(t1, _) := SymbolSelect t symbol true in
      let '(copied, rates) := CopyRates t1 symbol timeframe 0 nbrofbars in
      if (0 <? copied)%Z then
        let parameters : list string := [] in
        parameters ←
          for_loop (length rates) 0
            (fun i parameters =>
               bar ← array_get rates i;
               array_set parameters i
                 (IntegerToString (Rates.time bar) +:+ "$" +:+
                  DoubleToString (Rates.open bar) 5 +:+ "$" +:+
                  DoubleToString (Rates.high bar) 5 +:+ "$" +:+
                  DoubleToString (Rates.low bar) 5 +:+ "$" +:+
                  DoubleToString (Rates.close bar) 5 +:+ "$" +:+
                  IntegerToString (Rates.tick_volume bar)))
            parameters;
        Done (t1, MakeMessage "F042" (IntegerToString (Z.of_nat (length parameters))) parameters)
      else Done (t1, MakeMessage "F042" "1" errorParameters)
  end.

(** The text of one position, read from the position that is selected. *)
Definition position_text (t : T) (ticket : Z) : string :=
  IntegerToString ticket +:+ "$" +:+
  PositionGetString t POSITION_SYMBOL +:+ "$" +:+
  IntegerToString (PositionGetInteger t POSITION_TYPE) +:+ "$" +:+
  IntegerToString (PositionGetInteger t POSITION_MAGIC) +:+ "$" +:+
  DoubleToString (PositionGetDouble t POSITION_VOLUME) 2 +:+ "$" +:+
  DoubleToString (PositionGetDouble t POSITION_PRICE_OPEN) 5 +:+ "$" +:+
  IntegerToString (PositionGetInteger t POSITION_TIME) +:+ "$" +:+
  DoubleToString (PositionGetDouble t POSITION_SL) 5 +:+ "$" +:+
  DoubleToString (PositionGetDouble t POSITION_TP) 5 +:+ "$" +:+
  PositionGetString t POSITION_COMMENT +:+ "$" +:+
  DoubleToString (PositionGetDouble t POSITION_PROFIT) 2 +:+ "$" +:+
  DoubleToString (PositionGetDouble t POSITION_SWAP) 2 +:+ "$" +:+
  DoubleToString (PositionGetDouble t POSITION_COMMISSION) 2.

Definition GetAllOpenPositions (t : T) : outcome (T * string) :=
  let errorParameters := ["ERROR"] in
  let total := PositionsTotal t in
  if (0 <? total)%Z then
    let parameters : list string := [] in
    '(t1, parameters) ←
      for_loop (Z.to_nat total) 0
        (fun i '(t, parameters) =>
           let '(t1, ticket) := PositionGetTicket t (Z.of_nat i) in
           parameters1 ← array_set parameters i (position_text t1 ticket);
           Done (t1, parameters1))
        (t, parameters);
    Done (t1, MakeMessage "F061" (IntegerToString (Z.of_nat (length parameters))) parameters)
  else Done (t, MakeMessage "F061" "1" errorParameters).

(** The text of the deal [ticket]; [deal_time] is its [DEAL_TIME]. *)
Definition deal_text (t : T) (ticket deal_time : Z) : string :=
  IntegerToString ticket +:+ "$" +:+
  HistoryDealGetString t ticket DEAL_SYMBOL +:+ "$" +:+
  IntegerToString (HistoryDealGetInteger t ticket DEAL_TYPE) +:+ "$" +:+
  IntegerToString (HistoryDealGetInteger t ticket DEAL_MAGIC) +:+ "$" +:+
  DoubleToString (HistoryDealGetDouble t ticket DEAL_VOLUME) 2 +:+ "$" +:+
  DoubleToString (HistoryDealGetDouble t ticket DEAL_PRICE) 5 +:+ "$" +:+
  IntegerToString deal_time +:+ "$" +:+
  DoubleToString (HistoryDealGetDouble t ticket DEAL_SL) 5 +:+ "$" +:+
  DoubleToString (HistoryDealGetDouble t ticket DEAL_TP) 5 +:+ "$" +:+
  HistoryDealGetString t ticket DEAL_COMMENT +:+ "$" +:+
  DoubleToString (HistoryDealGetDouble t ticket DEAL_PROFIT) 2 +:+ "$" +:+
  DoubleToString (HistoryDealGetDouble t ticket DEAL_SWAP) 2 +:+ "$" +:+
  DoubleToString (HistoryDealGetDouble t ticket DEAL_COMMISSION) 2.

Definition GetAllClosedPositions (t : T) : outcome (T * string) :=
  let errorParameters := ["ERROR"] in
  let total := HistoryDealsTotal t in
  if (0 <? total)%Z then
    let parameters : list string := [] in
    parameters ←
      for_loop (Z.to_nat total) 0
        (fun i parameters =>
           let ticket := HistoryDealGetTicket t (Z.of_nat i) in
           array_set parameters i
             (deal_text t ticket (HistoryDealGetInteger t ticket DEAL_TIME)))
        parameters;
    Done (t, MakeMessage "F063" (IntegerToString (Z.of_nat (length parameters))) parameters)
  else Done (t, MakeMessage "F063" "1" errorParameters).

(** The text of a deleted order, read from the order that is selected;
    [order_time] is its [ORDER_TIME_SETUP]. *)
Definition deleted_order_text (t : T) (ticket order_time : Z) : string :=
  IntegerToString ticket +:+ "$" +:+
  OrderGetString t ORDER_SYMBOL +:+ "$" +:+
  IntegerToString (OrderGetInteger t ORDER_TYPE) +:+ "$" +:+
  IntegerToString (OrderGetInteger t ORDER_MAGIC) +:+ "$" +:+
  DoubleToString (OrderGetDouble t ORDER_VOLUME_INITIAL) 5 +:+ "$" +:+
  DoubleToString (OrderGetDouble t ORDER_VOLUME_CURRENT) 5 +:+ "$" +:+
  DoubleToString (OrderGetDouble t ORDER_PRICE_OPEN) 5 +:+ "$" +:+
  IntegerToString order_time +:+ "$" +:+
  DoubleToString (OrderGetDouble t ORDER_SL) 5 +:+ "$" +:+
  DoubleToString (OrderGetDouble t ORDER_TP) 5 +:+ "$" +:+
  DoubleToString (OrderGetDouble t ORDER_PRICE_CURRENT) 5 +:+ "$" +:+
  IntegerToString (OrderGetInteger t ORDER_TIME_DONE) +:+ "$" +:+
  OrderGetString t ORDER_COMMENT.

Definition GetAllDeletedOrders (t : T) : outcome (T * string) :=
  let errorParameters := ["ERROR"] in
  let '(t0, selected) := HistorySelect t 0 (TimeCurrent t) in
  if negb selected then Done (t0, MakeMessage "F065" "1" errorParameters)
  else
    let total := HistoryOrdersTotal t0 in
    if (0 <? total)%Z then
      let parameters : list string := [] in
      '(t1, parameters) ←
        for_loop (Z.to_nat total) 0
          (fun i '(t, parameters) =>
             let '(t1, ticket) := OrderGetTicket t (Z.of_nat i) in
             parameters1 ←
               array_set parameters i
                 (deleted_order_text t1 ticket (OrderGetInteger t1 ORDER_TIME_SETUP));
             Done (t1, parameters1))
          (t0, parameters);
      Done (t1, MakeMessage "F065" (IntegerToString (Z.of_nat (length parameters))) parameters)
    else Done (t0, MakeMessage "F065" "1" errorParameters).

(** The text of a pending order, read from the order that is selected. *)
Definition pending_order_text (t : T) (ticket : Z) : string :=
  IntegerToString ticket +:+ "$" +:+
  OrderGetString t ORDER_SYMBOL +:+ "$" +:+
  IntegerToString (OrderGetInteger t ORDER_TYPE) +:+ "$" +:+
  IntegerToString (OrderGetInteger t ORDER_MAGIC) +:+ "$" +:+
  DoubleToString (OrderGetDouble t ORDER_VOLUME_INITIAL) 5 +:+ "$" +:+
  DoubleToString (OrderGetDouble t ORDER_VOLUME_CURRENT) 5 +:+ "$" +:+
  DoubleToString (OrderGetDouble t ORDER_PRICE_OPEN) 5 +:+ "$" +:+
  DoubleToString (OrderGetDouble t ORDER_SL) 5 +:+ "$" +:+
  DoubleToString (OrderGetDouble t ORDER_TP) 5 +:+ "$" +:+
  OrderGetString t ORDER_COMMENT.

Definition GetAllPendingOrders (t : T) : outcome (T * string) :=
  let errorParameters := ["ERROR"] in
  let total := OrdersTotal t in
  if (0 <? total)%Z then
    let parameters : list string := [] in
    '(t1, parameters) ←
      for_loop (Z.to_nat total) 0
        (fun i '(t, parameters) =>
           let '(t1, ticket) := OrderGetTicket t (Z.of_nat i) in
           parameters1 ← array_set parameters i (pending_order_text t1 ticket);
           Done (t1, parameters1))
        (t, parameters);
    Done (t1, MakeMessage "F060" (IntegerToString (Z.of_nat (length parameters))) parameters)
  else Done (t, MakeMessage "F060" "1" errorParameters).

Definition GetAllClosedPositionsWithinWindow (t : T) (date_from date_to : Z)
    : outcome (T * string) :=
  let errorParameters := ["ERROR"] in
  let total := HistoryDealsTotal t in
  if (0 <? total)%Z then
    let parameters : list string := [] in
    parameters ←
      for_loop (Z.to_nat total) 0
        (fun i parameters =>
           let ticket := HistoryDealGetTicket t (Z.of_nat i) in
           let deal_time := HistoryDealGetInteger t ticket DEAL_TIME in
           if (date_from <=? deal_time)%Z && (deal_time <=? date_to)%Z
           then array_set parameters i (deal_text t ticket deal_time)
           else Done parameters)
        parameters;
    Done (t, MakeMessage "F062" (IntegerToString (Z.of_nat (length parameters))) parameters)
  else Done (t, MakeMessage "F062" "1" errorParameters).

Definition GetAllDeletedPendingOrdersWithinWindow (t : T) (date_from date_to : Z)
    : outcome (T * string) :=
  let errorParameters := ["ERROR"] in
  let total := HistoryOrdersTotal t in
  if (0 <? total)%Z then
    let parameters : list string := [] in
    '(t1, parameters) ←
      for_loop (Z.to_nat total) 0
        (fun i '(t, parameters) =>
           let '(t1, ticket) := OrderGetTicket t (Z.of_nat i) in
           let order_time := OrderGetInteger t1 ORDER_TIME_SETUP in
           if (date_from <=? order_time)%Z && (order_time <=? date_to)%Z
           then
             parameters1 ←
               array_set parameters i (deleted_order_text t1 ticket order_time);
             Done (t1, parameters1)
           else Done (t1, parameters))
        (t, parameters);
    Done (t1, MakeMessage "F064" (IntegerToString (Z.of_nat (length parameters))) parameters)
  else Done (t, MakeMessage "F064" "1" errorParameters).

(** ** stream-handlers.mqh *)

(** The array [parameters] of the success branch of [GetLatestTick]. *)
Definition GetLatestTick_parameters (lastTick : MqlTick double) : list string := [
    IntegerToString (time lastTick);
    DoubleToString (bid lastTick) 5;
    DoubleToString (ask lastTick) 5;
    DoubleToString (last lastTick) 5;
    IntegerToString (volume lastTick)].

Definition GetLatestTick (t : T) (symbol : string) : string :=
  match SymbolInfoTick t symbol with
  | Some lastTick =>
      let parameters := GetLatestTick_parameters lastTick in
      MakeMessage "F020" "6" parameters
  | None =>
      let errorParameters := ["ERROR"] in
      MakeMessage "F020" "1" errorParameters
  end.

Definition GetLatestBar (t : T) (symbol : string) (currentBarTime : Z) : string :=
  let open := iOpen t symbol in
  let high := iHigh t symbol in
  let low := iLow t symbol in
  let close := iClose t symbol in
  let volume := iVolume t symbol in
  let parameters := [
    IntegerToString currentBarTime;
    DoubleToString open 5;
    DoubleToString high 5;
    DoubleToString low 5;
    DoubleToString close 5;
    IntegerToString volume] in
  MakeMessage "F021" "6" parameters.

End Handlers.

(** ** MT5Ext.mqh: sockets, dispatch and the accept cycle

    The socket library is outside the repository.  A client socket is the
    snapshot the handlers see of it: the peer, whether it is connected, and
    the request text that [Receive] and [CharArrayToString] yield (empty when
    nothing was received).  What a function sends is returned as a list of
    [sent] records; journal output ([Print]) is not part of the model. *)

Record ClientSocket : Type := mkClient {
  peer : nat;
  IsSocketConnected : bool;
  incoming : string
}.

Record ServerSocket : Type := mkServer {
  port : Z;
  Created : bool
}.

Inductive sent : Type :=
| Sent (to : nat) (data : string).

(** The globals of MT5Ext.mqh; [None] is the [NULL] pointer. *)
Record Servers : Type := mkServers {
  restServer : option ServerSocket;
  streamingServer : option ServerSocket;
  streamingClients : list (option ClientSocket)
}.

(** [StartServers]; whether each socket could be created is decided by the
    operating system ([rest_ok], [stream_ok]). *)
Definition StartServers (restPort streamPort : Z) (rest_ok stream_ok : bool)
    (g : Servers) : Servers :=
  mkServers (Some (mkServer restPort rest_ok))
            (Some (mkServer streamPort stream_ok))
            (streamingClients g).

Definition CloseServers (g : Servers) : Servers :=
  mkServers None None (map (fun _ => None) (streamingClients g)).

Definition BroadcastStreamData (g : Servers) (data : string) : list sent :=
  flat_map (fun c =>
              match c with
              | Some c => if IsSocketConnected c then [Sent (peer c) data] else []
              | None => []
              end)
           (streamingClients g).

Section Server.

Context {T double : Type} `{!Terminal T double}.

(** The chain of comparisons in [ProcessClient] that selects the handler and
    computes [response]. *)
Definition ProcessClient_response (t : T) (r : Request) : outcome (T * string) :=
  let command := command r in
  let subCommand := subCommand r in
  let parameters := parameters r in
  if String.eqb command "F000" && String.eqb subCommand "1" then
    Done (t, GetCheckConnection)
  else if String.eqb command "F001" && String.eqb subCommand "1" then
    Done (t, GetStaticAccountInfo t)
  else if String.eqb command "F002" && String.eqb subCommand "1" then
    Done (t, GetDynamicAccountInfo t)
  else if String.eqb command "F003" && String.eqb subCommand "2" then
    symbol ← array_get parameters 0;
    Done (t, GetInstrumentInfo t symbol)
  else if String.eqb command "F007" && String.eqb subCommand "1" then
    Done (t, GetBrokerInstrumentNames t)
  else if String.eqb command "F004" && String.eqb subCommand "2" then
    symbol ← array_get parameters 0;
    Done (CheckMarketWatch t symbol)
  else if String.eqb command "F008" && String.eqb subCommand "2" then
    symbol ← array_get parameters 0;
    Done (t, CheckTradingAllowed t symbol)
  else if String.eqb command "F011" && String.eqb subCommand "1" then
    Done (t, CheckTerminalServerConnection t)
  else if String.eqb command "F012" && String.eqb subCommand "1" then
    Done (t, CheckTerminalType t)
  else if String.eqb command "F020" && String.eqb subCommand "2" then
    symbol ← array_get parameters 0;
    Done (GetLastTickInfo t symbol)
  else if String.eqb command "F005" && String.eqb subCommand "1" then
    Done (t, GetBrokerServerTime t)
  else
    let unknownRequest := ["UNKNOWN_REQUEST"] in
    Done (t, MakeMessage "F999" "1" unknownRequest).

(** [ProcessClient(client, onlyStream)].  The local array [parameters] is
    declared without a size, so [ParseRequest] receives an empty array. *)
Definition ProcessClient (g : Servers) (t : T) (client : ClientSocket)
    (onlyStream : bool) : outcome (T * list sent) :=
  let request := incoming client in
  if (0 <? String.length request)%nat then
    let parameters : list string := [] in
    r ← ParseRequest request parameters;
    '(t1, response) ← ProcessClient_response t r;
    if onlyStream then Done (t1, BroadcastStreamData g response)
    else Done (t1, [Sent (peer client) response])
  else Done (t, []).

(** What the two [Accept] calls of one cycle return. *)
Record Accepted : Type := mkAccepted {
  rest_client : option ClientSocket;
  stream_client : option ClientSocket
}.

Definition AcceptClients (g : Servers) (t : T) (a : Accepted) (onlyStream : bool)
    : outcome (Servers * T * list sent) :=
  '(t1, out) ←
    match restServer g with
    | Some _ =>
        match rest_client a with
        | Some client =>
            if IsSocketConnected client then ProcessClient g t client onlyStream
            else Done (t, [])
        | None => Done (t, [])
        end
    | None => Done (t, [])
    end;
  let g1 :=
    match streamingServer g with
    | Some _ =>
        match stream_client a with
        | Some newClient =>
            if IsSocketConnected newClient then
              mkServers (restServer g) (streamingServer g)
                        (streamingClients g ++ [Some newClient])
            else g
        | None => g
        end
    | None => g
    end in
  Done (g1, t1, out).

(** ** MT5Ext.mq5: the expert advisor *)

Record Inputs : Type := mkInputs {
  REST_SERVER_PORT : Z;
  STREAM_SERVER_PORT : Z;
  TIMER_INTERVAL : Z;
  ONLY_STREAM_MODE : bool;
  DEBUG : bool
}.

Definition default_inputs : Inputs := mkInputs 15556 15557 1 false false.

(** The program with its globals.  [halted] records the critical error that
    made the terminal stop the program; a stopped program receives no
    further events. *)
Record Expert : Type := mkExpert {
  inputs : Inputs;
  chart_symbol : string;
  servers : Servers;
  terminal : T;
  lastBarTime : Z;
  halted : option critical_error
}.

Definition OnInit (i : Inputs) (chart : string) (t : T) (rest_ok stream_ok : bool) : Expert :=
  let g := StartServers (REST_SERVER_PORT i) (STREAM_SERVER_PORT i) rest_ok stream_ok
                        (mkServers None None []) in
  mkExpert i chart g t (iTime t chart) None.

Definition OnTimer (e : Expert) (a : Accepted)
    : outcome (Expert * list sent) :=
  '(g1, t1, out) ← AcceptClients (servers e) (terminal e) a (ONLY_STREAM_MODE (inputs e));
  Done (mkExpert (inputs e) (chart_symbol e) g1 t1 (lastBarTime e) (halted e), out).

Definition OnTick (e : Expert) : Expert * list sent :=
  let symbol := chart_symbol e in
  let latestTick := GetLatestTick (terminal e) symbol in
  let out := if String.eqb latestTick "" then []
             else BroadcastStreamData (servers e) latestTick in
  let currentBarTime := iTime (terminal e) symbol in
  if (lastBarTime e <? currentBarTime)%Z then
    let latestBar := GetLatestBar (terminal e) symbol currentBarTime in
    let out2 := if String.eqb latestBar "" then []
                else BroadcastStreamData (servers e) latestBar in
    (mkExpert (inputs e) (chart_symbol e) (servers e) (terminal e) currentBarTime
              (halted e), out ++ out2)
  else (e, out).

(** Delivery of one timer event by the terminal: a program that was stopped
    by a critical error is not called; a critical error stops it. *)
Definition timer_event (e : Expert) (a : Accepted) : Expert * list sent :=
  match halted e with
  | Some _ => (e, [])
  | None =>
      match OnTimer e a with
      | Done r => r
      | Critical err =>
          (mkExpert (inputs e) (chart_symbol e) (servers e) (terminal e)
                    (lastBarTime e) (Some err), [])
      end
  end.

(** A command-channel connection carrying [request]. *)
Definition rest_request (from : nat) (request : string) : Accepted :=
  mkAccepted (Some (mkClient from true request)) None.

End Server.

(** ** The sub-code convention

    A sub code "looks numeric" when it is a non-empty string of decimal
    digits; [sub_code_counts] compares its value with the number of
    parameters. *)

Fixpoint decimal_value (s : string) (acc : nat) : option nat :=
  match s with
  | EmptyString => Some acc
  | String c s' =>
      match Ascii.is_nat c with
      | Some d => decimal_value s' (10 * acc + d)
      | None => None
      end
  end.

Definition numeric_value (s : string) : option nat :=
  match s with
  | EmptyString => None
  | String _ _ => decimal_value s 0
  end.

Definition sub_code_counts (subCommand : string) (parameters : list string) : bool :=
  match numeric_value subCommand with
  | Some n => (n =? length parameters)%nat
  | None => true
  end.

(** [reply] is the message made of [command], [sub] and the [n] values
    [parameters], and the sub code looks numeric and is not [n]. *)
Definition miscounts (reply command sub : string) (parameters : list string) (n : nat)
    : Prop :=
  reply = MakeMessage command sub parameters /\
  length parameters = n /\
  sub_code_counts sub parameters = false.

(** The shape of an error reply: sub code "1" and the single parameter
    [literal]. *)
Definition error_reply (command literal : string) : string :=
  MakeMessage command "1" [literal].

(** The pairs of command and sub command that [ProcessClient] compares the
    request with. *)
Definition dispatch_table : list (string * string) :=
  [("F000", "1"); ("F001", "1"); ("F002", "1"); ("F003", "2"); ("F007", "1");
   ("F004", "2"); ("F008", "2"); ("F011", "1"); ("F012", "1"); ("F020", "2");
   ("F005", "1")].

(** A handler that gives up: it returns the error reply of its command. *)
Definition gives_up {T : Type} (command : string) (o : outcome (T * string)) : Prop :=
  exists t, o = Done (t, error_reply command "ERROR").


(** ** A terminal to run the handlers on

    One symbol, integral prices, one deal in the history, no position and no
    order; [DoubleToString] prints an integral value with the requested
    number of zero decimals and [StringToUpper] fails on the empty string.
    The state is the market watch. *)

Definition demo_DoubleToString (v : Z) (digits : nat) : string :=
  pretty v +:+ "." +:+ String.concat "" (replicate digits "0").

Definition demo_tick : MqlTick Z :=
  mkTick 1700000000%Z 1%Z 2%Z 0%Z 7%Z 1700000000123%Z.

#[global] Instance demo_terminal : Terminal (list string) Z := {|
  DoubleToString := demo_DoubleToString;
  StringToUpper := fun s => if String.eqb s "" then None else Some s;
  TimeCurrent := fun _ => 1700000000%Z;
  AccountInfoString := fun _ _ => "demo";
  AccountInfoInteger := fun _ _ => 1%Z;
  AccountInfoDouble := fun _ _ => 100%Z;
  SymbolInfoInteger := fun _ _ _ => 5%Z;
  SymbolInfoDouble := fun _ _ _ => 1%Z;
  TerminalInfoString := fun _ _ => "MetaTrader 5";
  TerminalInfoInteger := fun _ _ => 1%Z;
  SymbolSelect := fun watch symbol _ => (symbol :: watch, true);
  SymbolInfoTick := fun _ symbol =>
    if String.eqb symbol "EURUSD" then Some demo_tick else None;
  iTime := fun _ _ => 1700000000%Z;
  iOpen := fun _ _ => 1%Z;
  iHigh := fun _ _ => 2%Z;
  iLow := fun _ _ => 1%Z;
  iClose := fun _ _ => 2%Z;
  iVolume := fun _ _ => 7%Z;
  CopyTicks := fun _ symbol _ =>
    if String.eqb symbol "EURUSD" then (1%Z, [demo_tick]) else ((-1)%Z, []);
  CopyRates := fun _ symbol _ _ _ =>
    if String.eqb symbol "EURUSD"
    then (1%Z, [Rates.mkRates 1700000000%Z 1%Z 2%Z 1%Z 2%Z 7%Z])
    else ((-1)%Z, []);
  PositionsTotal := fun _ => 0%Z;
  PositionGetTicket := fun watch _ => (watch, 0%Z);
  PositionGetString := fun _ _ => "";
  PositionGetInteger := fun _ _ => 0%Z;
  PositionGetDouble := fun _ _ => 0%Z;
  HistorySelect := fun watch _ _ => (watch, true);
  HistoryDealsTotal := fun _ => 1%Z;
  HistoryDealGetTicket := fun _ _ => 42%Z;
  HistoryDealGetString := fun _ _ _ => "EURUSD";
  HistoryDealGetInteger := fun _ _ _ => 1700000000%Z;
  HistoryDealGetDouble := fun _ _ _ => 1%Z;
  HistoryOrdersTotal := fun _ => 0%Z;
  OrdersTotal := fun _ => 0%Z;
  OrderGetTicket := fun watch _ => (watch, 0%Z);
  OrderGetString := fun _ _ => "";
  OrderGetInteger := fun _ _ => 0%Z;
  OrderGetDouble := fun _ _ => 0%Z
|}.

Definition demo_expert : Expert (T := list string) :=
  OnInit default_inputs "EURUSD" [] true true.

(** A terminal on which every query fails: no symbol, no tick, no history. *)
#[global] Instance offline_terminal : Terminal unit Z := {|
  DoubleToString := demo_DoubleToString;
  StringToUpper := fun _ => None;
  TimeCurrent := fun _ => 0%Z;
  AccountInfoString := fun _ _ => "";
  AccountInfoInteger := fun _ _ => 0%Z;
  AccountInfoDouble := fun _ _ => 0%Z;
  SymbolInfoInteger := fun _ _ _ => 0%Z;
  SymbolInfoDouble := fun _ _ _ => 0%Z;
  TerminalInfoString := fun _ _ => "";
  TerminalInfoInteger := fun _ _ => 0%Z;
  SymbolSelect := fun t _ _ => (t, false);
  SymbolInfoTick := fun _ _ => None;
  iTime := fun _ _ => 0%Z;
  iOpen := fun _ _ => 0%Z;
  iHigh := fun _ _ => 0%Z;
  iLow := fun _ _ => 0%Z;
  iClose := fun _ _ => 0%Z;
  iVolume := fun _ _ => 0%Z;
  CopyTicks := fun _ _ _ => ((-1)%Z, []);
  CopyRates := fun _ _ _ _ _ => ((-1)%Z, []);
  PositionsTotal := fun _ => 0%Z;
  PositionGetTicket := fun t _ => (t, 0%Z);
  PositionGetString := fun _ _ => "";
  PositionGetInteger := fun _ _ => 0%Z;
  PositionGetDouble := fun _ _ => 0%Z;
  HistorySelect := fun t _ _ => (t, false);
  HistoryDealsTotal := fun _ => 0%Z;
  HistoryDealGetTicket := fun _ _ => 0%Z;
  HistoryDealGetString := fun _ _ _ => "";
  HistoryDealGetInteger := fun _ _ _ => 0%Z;
  HistoryDealGetDouble := fun _ _ _ => 0%Z;
  HistoryOrdersTotal := fun _ => 0%Z;
  OrdersTotal := fun _ => 0%Z;
  OrderGetTicket := fun t _ => (t, 0%Z);
  OrderGetString := fun _ _ => "";
  OrderGetInteger := fun _ _ => 0%Z;
  OrderGetDouble := fun _ _ => 0%Z
|}.

End Mql.

(* ===================================================================== *)
(** * Part II: the streaming receiver (data_stream.pyx)                   *)
(* ===================================================================== *)

Module Streamer.

(** ** Results of a call

    A call returns or raises.  A call that runs an event loop is evaluated
    with a budget of iterations: it has [Ended] with a result, or it is still
    [Running] when the budget is used up, in the state reached so far. *)

Inductive exn : Type :=
| OSError          (* socket.error is an alias of OSError *)
| RuntimeError
| KeyError.

Inductive result (A : Type) : Type :=
| Returns (a : A)
| Raises (e : exn).

Arguments Returns {A} a.
Arguments Raises {A} e.

#[global] Instance result_ret : MRet result := fun _ a => Returns a.

#[global] Instance result_bind : MBind result := fun _ _ k r =>
  match r with
  | Returns a => k a
  | Raises e => Raises e
  end.

Inductive progress (A : Type) : Type :=
| Ended (r : result A)
| Running (now : A).

Arguments Ended {A} r.
Arguments Running {A} now.

(** ** The objects held by a streamer *)

(** [socket.socket]: created, bound and listening, or closed. *)
Inductive socket_state : Type :=
| SocketCreated
| SocketListening
| SocketClosed.

(** [threading.Thread]: created, started (alive), or finished. *)
Inductive thread_state : Type :=
| ThreadCreated
| ThreadAlive
| ThreadFinished.

(** The object returned by [websockets.serve(handler, host, port)]. *)
Record ws_serve : Type := mkServe {
  serve_host : string;
  serve_port : Z
}.

(** What the handlers of [_stream_socket] tell apart in an exception that
    a library call or a callback raises: [json.JSONDecodeError], caught
    around [json.loads] only; [socket.error], that is [OSError], with its
    [errno] (an [OSError] without one behaves as any [errno] other than
    10035); and every other [Exception]. *)
Inductive raised : Type :=
| JSONDecodeError
| SocketError (errno : Z)
| OtherException.

Inductive tried (A : Type) : Type :=
| Value (a : A)
| Fails (e : raised).

Arguments Value {A} a.
Arguments Fails {A} e.

(** The interface of the libraries used on a received frame: UTF-8
    decoding ([None]: [UnicodeDecodeError]), [json.loads], the time stamping
    of [_add_time_human], [json.dumps], and the call of a callback. *)
Class Codec (Json Callback : Type) : Type := {
  utf8_decode : string -> option string;
  json_loads : string -> tried Json;
  add_time_human : Json -> tried Json;
  json_dumps : Json -> tried string;
  callback_call : Callback -> string -> tried unit
}.

(** [s.replace("\x00", "")] *)
Fixpoint remove_nul (s : string) : string :=
  match s with
  | EmptyString => EmptyString
  | String c s' =>
      if Ascii.eqb c Ascii.zero then remove_nul s' else String c (remove_nul s')
  end.

Section Streamer.

(** [Float] stands for C [float] values, [Callback] for callables, [Kwargs]
    for keyword dictionaries, [Websocket] for connection objects. *)
Context {Float Callback Kwargs Json Websocket : Type}.
Context `{!EqDecision Websocket} `{!Countable Websocket} `{!Codec Json Callback}.

(** A task tuple [(symbol, interval, callback, kwargs)]. *)
Definition task_info : Type := string * Float * Callback * Kwargs.

Record MetaTrader5Streamer : Type := mkStreamer {
  host : string;
  callback_port : Z;
  ws_port : Z;
  callback : option Callback;
  stream_interval : Float;
  use_socket : bool;
  use_websockets : bool;
  debug : bool;
  buffer_size : Z;
  stream_tasks : gmap string task_info;
  stream_thread : option thread_state;
  stream_socket : socket_state;
  stream_stop_event : bool;
  ws_server : option ws_serve;
  connected_clients : gset Websocket
}.

Definition set_stream_tasks (self : MetaTrader5Streamer) (v : gmap string task_info) :=
  mkStreamer (host self) (callback_port self) (ws_port self) (callback self)
    (stream_interval self) (use_socket self) (use_websockets self) (debug self)
    (buffer_size self) v (stream_thread self) (stream_socket self)
    (stream_stop_event self) (ws_server self) (connected_clients self).

Definition set_stream_thread (self : MetaTrader5Streamer) (v : option thread_state) :=
  mkStreamer (host self) (callback_port self) (ws_port self) (callback self)
    (stream_interval self) (use_socket self) (use_websockets self) (debug self)
    (buffer_size self) (stream_tasks self) v (stream_socket self)
    (stream_stop_event self) (ws_server self) (connected_clients self).

Definition set_stream_socket (self : MetaTrader5Streamer) (v : socket_state) :=
  mkStreamer (host self) (callback_port self) (ws_port self) (callback self)
    (stream_interval self) (use_socket self) (use_websockets self) (debug self)
    (buffer_size self) (stream_tasks self) (stream_thread self) v
    (stream_stop_event self) (ws_server self) (connected_clients self).

Definition set_stream_stop_event (self : MetaTrader5Streamer) (v : bool) :=
  mkStreamer (host self) (callback_port self) (ws_port self) (callback self)
    (stream_interval self) (use_socket self) (use_websockets self) (debug self)
    (buffer_size self) (stream_tasks self) (stream_thread self) (stream_socket self)
    v (ws_server self) (connected_clients self).

Definition set_ws_server (self : MetaTrader5Streamer) (v : option ws_serve) :=
  mkStreamer (host self) (callback_port self) (ws_port self) (callback self)
    (stream_interval self) (use_socket self) (use_websockets self) (debug self)
    (buffer_size self) (stream_tasks self) (stream_thread self) (stream_socket self)
    (stream_stop_event self) v (connected_clients self).

Definition set_connected_clients (self : MetaTrader5Streamer) (v : gset Websocket) :=
  mkStreamer (host self) (callback_port self) (ws_port self) (callback self)
    (stream_interval self) (use_socket self) (use_websockets self) (debug self)
    (buffer_size self) (stream_tasks self) (stream_thread self) (stream_socket self)
    (stream_stop_event self) (ws_server self) v.

(** [__init__] *)
Definition init (host : string) (callback_port ws_port : Z) (callback : option Callback)
    (stream_interval : Float) (use_socket use_websockets debug : bool)
    : MetaTrader5Streamer :=
  mkStreamer host callback_port ws_port callback stream_interval
    use_socket use_websockets debug
    16384 ∅ None SocketCreated false None ∅.

(** [MetaTrader5Streamer()] with the default arguments; [interval] is the
    float 0.025. *)
Definition init_default (interval : Float) : MetaTrader5Streamer :=
  init "127.0.0.1" 15557 15558 None interval true true false.

(** ** The task table *)

(** [f"{symbol}-{req_id}"] *)
Definition task_id (symbol req_id : string) : string :=
  symbol +:+ "-" +:+ req_id.

(** One turn of the loop of [create_streaming_task]. *)
Definition create_one (req_id : string) (interval : Float) (callback : Callback)
    (kwargs : Kwargs) (tasks : gmap string task_info) (symbol : string)
    : gmap string task_info :=
  let task_id := task_id symbol req_id in
  match tasks !! task_id with
  | None => <[task_id := (symbol, interval, callback, kwargs)]> tasks
  | Some _ => tasks
  end.

Definition create_streaming_task (self : MetaTrader5Streamer) (req_id : string)
    (symbols : list string) (interval : Float) (callback : Callback) (kwargs : Kwargs)
    : MetaTrader5Streamer :=
  set_stream_tasks self
    (foldl (create_one req_id interval callback kwargs) (stream_tasks self) symbols).

(** The number of entries that the table holds under [key]. *)
Definition entries_for (tasks : gmap string task_info) (key : string) : nat :=
  length (filter (fun entry => fst entry = key) (map_to_list tasks)).

(** One turn of the loop of [stop_streaming_task]. *)
Definition stop_one (req_id : string) (tasks : gmap string task_info) (symbol : string)
    : gmap string task_info :=
  let task_id := task_id symbol req_id in
  match tasks !! task_id with
  | Some _ => delete task_id tasks
  | None => tasks
  end.

Definition stop_streaming_task (self : MetaTrader5Streamer) (req_id : string)
    (symbols : list string) : MetaTrader5Streamer :=
  set_stream_tasks self (foldl (stop_one req_id) (stream_tasks self) symbols).

(** ** The streaming socket *)

(** What the streamer does to its environment.  [Delivered] is a frame sent
    to a WebSocket subscriber. *)
Inductive action : Type :=
| Called (cb : Callback) (data : string)
| ConnClosed (addr : string)
| Delivered (ws : Websocket) (data : string).

(** What one turn of the loop of [_stream_socket] meets: the stop event as
    tested by [while], then the result of [select], [accept] and [recv]. *)
Inductive readiness : Type :=
| TimedOut
| Accepted (addr : string) (data : string)
| SocketFailed (errno : Z)
| OtherFailed.

Record turn : Type := mkTurn {
  stop_is_set : bool;
  ready : readiness
}.

Inductive turn_end : Type :=
| Continue
| Raise (e : exn).

(** The two outer [except] clauses of the loop, met with [acts] done:
    [socket.error] with [errno] 10035 is ignored and any other one is raised
    anew as [socket.error]; every other exception leaves as [RuntimeError]. *)
Definition caught (acts : list action) (e : raised) : list action * turn_end :=
  match e with
  | SocketError errno =>
      if (errno =? 10035)%Z then (acts, Continue) else (acts, Raise OSError)
  | _ => (acts, Raise RuntimeError)
  end.

(** The body of the [while] loop of [_stream_socket]. *)
Definition stream_socket_turn (self : MetaTrader5Streamer) (r : readiness)
    : list action * turn_end :=
  match r with
  | TimedOut => ([], Continue)
  | Accepted addr data =>
      if String.eqb data "" then ([ConnClosed addr], Continue)
      else
        match utf8_decode data with
        | None => caught [] OtherException
        | Some text =>
            match json_loads (remove_nul text) with
            | Fails JSONDecodeError => ([ConnClosed addr], Continue)
            | Fails e => caught [] e
            | Value json_data =>
                match add_time_human json_data with
                | Fails e => caught [] e
                | Value json_data =>
                    match json_dumps json_data with
                    | Fails e => caught [] e
                    | Value formatted_data =>
                        match callback self with
                        | Some cb =>
                            match callback_call cb formatted_data with
                            | Value _ => ([Called cb formatted_data], Continue)
                            | Fails e => caught [Called cb formatted_data] e
                            end
                        | None => ([], Continue)
                        end
                    end
                end
            end
        end
  | SocketFailed errno => caught [] (SocketError errno)
  | OtherFailed => caught [] OtherException
  end.

(** How [_stream_socket] ends on a finite run of turns. *)
Inductive loop_end : Type :=
| LoopStopped
| LoopRaised (e : exn)
| LoopRunning.

Fixpoint stream_socket_loop (self : MetaTrader5Streamer) (turns : list turn)
    : list action * loop_end :=
  match turns with
  | [] => ([], LoopRunning)
  | t :: rest =>
      if stop_is_set t then ([], LoopStopped)
      else
        match stream_socket_turn self (ready t) with
        | (acts, Continue) =>
            let '(acts', e) := stream_socket_loop self rest in (acts ++ acts', e)
        | (acts, Raise e) => (acts, LoopRaised e)
        end
  end.

(** [_stream_socket]: [bind_ok] tells whether [bind] and [listen] succeed. *)
Definition _stream_socket (self : MetaTrader5Streamer) (bind_ok : bool)
    (turns : list turn) : MetaTrader5Streamer * list action * loop_end :=
  if bind_ok then
    let self := set_stream_socket self SocketListening in
    let '(acts, e) := stream_socket_loop self turns in (self, acts, e)
  else (self, [], LoopRaised OSError).

(** An action that is not a delivery to a subscriber: a call of the
    registered callback, or the closing of a connection. *)
Definition not_delivered (self : MetaTrader5Streamer) (a : action) : Prop :=
  match a with
  | Called cb _ => callback self = Some cb
  | ConnClosed _ => True
  | Delivered _ _ => False
  end.

(** The actions and the final state of a run of [_stream_socket]. *)
Definition actions_of (r : MetaTrader5Streamer * list action * loop_end) : list action :=
  snd (fst r).

Definition state_of (r : MetaTrader5Streamer * list action * loop_end)
    : MetaTrader5Streamer :=
  fst (fst r).

(** ** The WebSocket side *)

(** [ws_handler] up to its loop: the connection joins the set. *)
Definition ws_handler_enter (self : MetaTrader5Streamer) (websocket : Websocket)
    : MetaTrader5Streamer :=
  set_connected_clients self ({[websocket]} ∪ connected_clients self).

(** The [finally] clause of [ws_handler]; [set.remove] raises [KeyError] on
    an absent element. *)
Definition ws_handler_exit (self : MetaTrader5Streamer) (websocket : Websocket)
    : result MetaTrader5Streamer :=
  if decide (websocket ∈ connected_clients self) then
    Returns (set_connected_clients self (connected_clients self ∖ {[websocket]}))
  else Raises KeyError.

(** What the event loop runs: connections opening and closing.  Received
    messages are only printed. *)
Inductive loop_event : Type :=
| Opened (ws : Websocket)
| Message (ws : Websocket) (text : string)
| Closed (ws : Websocket).

(** One callback of the event loop.  An exception of a handler is logged by
    the loop and does not end it. *)
Definition loop_step (self : MetaTrader5Streamer) (ev : loop_event)
    : MetaTrader5Streamer :=
  match ev with
  | Opened ws => ws_handler_enter self ws
  | Message _ _ => self
  | Closed ws =>
      match ws_handler_exit self ws with
      | Returns self' => self'
      | Raises _ => self
      end
  end.

(** [loop.run_forever()]: runs until [loop.stop()] has been called, which is
    the [stopping] flag; [fuel] bounds the number of iterations evaluated. *)
Fixpoint run_forever (fuel : nat) (stopping : bool) (self : MetaTrader5Streamer)
    (events : list loop_event) : progress MetaTrader5Streamer :=
  match fuel with
  | O => Running self
  | S fuel' =>
      if stopping then Ended (Returns self)
      else
        match events with
        | [] => run_forever fuel' stopping self []
        | ev :: rest => run_forever fuel' stopping (loop_step self ev) rest
        end
  end.

(** [_start_ws_server]: [ws_bind_ok] tells whether the server could be
    started by [run_until_complete].  No call of [loop.stop()] is made by the
    streamer, so the loop is entered with the flag unset. *)
Definition _start_ws_server (fuel : nat) (self : MetaTrader5Streamer)
    (ws_bind_ok : bool) (events : list loop_event) : progress MetaTrader5Streamer :=
  let self := set_ws_server self (Some (mkServe (host self) (ws_port self))) in
  if ws_bind_ok then run_forever fuel false self events
  else Ended (Raises OSError).

(** ** Life cycle *)

(** [start]: [thread_ok] tells whether [Thread.start()] succeeds. *)
Definition start (fuel : nat) (self : MetaTrader5Streamer)
    (thread_ok ws_bind_ok : bool) (events : list loop_event)
    : progress MetaTrader5Streamer :=
  let self := set_stream_thread self (Some ThreadCreated) in
  if thread_ok then
    let self := set_stream_thread self (Some ThreadAlive) in
    if use_websockets self then _start_ws_server fuel self ws_bind_ok events
    else Ended (Returns self)
  else Ended (Raises RuntimeError).

(** [Thread.join()]: an error before the thread is started; on a thread
    that is alive it waits until the thread has finished, which happens or
    not ([thread_ends]) as the streaming loop leaves its current turn. *)
Definition join (t : thread_state) (thread_ends : bool) : progress thread_state :=
  match t with
  | ThreadCreated => Ended (Raises RuntimeError)
  | ThreadAlive => if thread_ends then Ended (Returns ThreadFinished) else Running ThreadAlive
  | ThreadFinished => Ended (Returns ThreadFinished)
  end.

Definition stop (self : MetaTrader5Streamer) (thread_ends : bool)
    : progress MetaTrader5Streamer :=
  let self := set_stream_stop_event self true in
  let self := if use_socket self then set_stream_socket self SocketClosed else self in
  let joined :=
    match stream_thread self with
    | Some t =>
        match join t thread_ends with
        | Ended (Returns t') => Ended (Returns (set_stream_thread self (Some t')))
        | Ended (Raises e) => Ended (Raises e)
        | Running _ => Running self
        end
    | None => Ended (Returns self)
    end in
  match joined with
  | Ended (Returns self) =>
      if use_websockets self && bool_decide (is_Some (ws_server self))
      then Ended (Returns (set_ws_server self None))
      else Ended (Returns self)
  | Ended (Raises e) => Ended (Raises e)
  | Running now => Running now
  end.


Definition set_callback (self : MetaTrader5Streamer) (cb : option Callback)
    : MetaTrader5Streamer :=
  mkStreamer (host self) (callback_port self) (ws_port self) cb
    (stream_interval self) (use_socket self) (use_websockets self) (debug self)
    (buffer_size self) (stream_tasks self) (stream_thread self) (stream_socket self)
    (stream_stop_event self) (ws_server self) (connected_clients self).

(** ** The polling branch of [_run_streaming_loop]

    With [use_socket=False] the streaming thread polls the tasks of the
    table, while [create_streaming_task], [stop_streaming_task] and [stop]
    are called from other threads; neither side takes a lock.  A run is a
    sequence of steps, each taken by the streaming thread or by a caller.
    The compiled methods do not give up the interpreter lock (the [debug]
    prints apart), so a call of a caller is one step, and the streaming
    thread can be overtaken only where it calls into the interpreter: at the
    test of the stop event, in a callback and while it waits.  Its steps are
    cut there. *)

(** Where the streaming thread stands: at the test of the outer [while];
    inside [_stream_data] for a task, at the test of its [while], the
    iterator of [self.stream_tasks.items()] remembering the number of entries
    the dictionary had when the [for] statement began; or returned, after
    the handler at the end of [_run_streaming_loop] caught an exception
    ("Critical error") or without one. *)
Inductive poll_pc : Type :=
| AtWhile
| InTask (orig_len : nat) (task_id : string) (task : task_info)
| ThreadReturned (critical : option exn).

(** The steps.  Those of the streaming thread carry what its environment
    decides: what [callback(symbol, **kwargs)] returns or raises ([data]),
    and the key that the dictionary yields next, or that no item is left
    ([next]). *)
Inductive poll_event : Type :=
| Subscribe (req_id : string) (symbols : list string) (interval : Float)
            (callback : Callback) (kwargs : Kwargs)
| Unsubscribe (req_id : string) (symbols : list string)
| StopSet
| LoopTest (next : option string)
| TaskTurn (data : tried string) (next : option string).

Definition poll_state : Type := MetaTrader5Streamer * poll_pc.

(** The thread begins with [self.stream_stop_event.clear()]. *)
Definition poll_start (self : MetaTrader5Streamer) : poll_state :=
  (set_stream_stop_event self false, AtWhile).

(** The [for] statement takes the next item.  The iterator raises
    [RuntimeError] ("dictionary changed size during iteration") when the
    dictionary does not have the number of entries it began with; the
    exception is caught at the end of [_run_streaming_loop], which returns.
    With no item left the thread waits and is back at the outer [while].
    [None]: the dictionary has no entry under the key said to be next. *)
Definition next_item (self : MetaTrader5Streamer) (orig_len : nat)
    (next : option string) : option poll_pc :=
  if negb (size (stream_tasks self) =? orig_len)%nat
  then Some (ThreadReturned (Some RuntimeError))
  else
    match next with
    | Some task_id =>
        match stream_tasks self !! task_id with
        | Some task => Some (InTask orig_len task_id task)
        | None => None
        end
    | None => Some AtWhile
    end.

(** One turn of the loop of [_stream_data]: does it take another turn?  It
    does not when the stop event is set, and an exception of either callback
    leaves the loop by [break]. *)
Definition task_goes_on (self : MetaTrader5Streamer) (data : tried string) : bool :=
  if stream_stop_event self then false
  else
    match data with
    | Value data =>
        match callback self with
        | Some cb =>
            match callback_call cb data with
            | Value _ => true
            | Fails _ => false
            end
        | None => true
        end
    | Fails _ => false
    end.

(** One step.  A step of the streaming thread that does not fit where the
    thread stands, or names a key that is not in the table, cannot happen
    and leaves the state as it is. *)
Definition poll_step (st : poll_state) (ev : poll_event) : poll_state :=
  let '(self, pc) := st in
  match ev with
  | Subscribe req_id symbols interval callback kwargs =>
      (create_streaming_task self req_id symbols interval callback kwargs, pc)
  | Unsubscribe req_id symbols => (stop_streaming_task self req_id symbols, pc)
  | StopSet => (set_stream_stop_event self true, pc)
  | LoopTest next =>
      match pc with
      | AtWhile =>
          if stream_stop_event self then (self, ThreadReturned None)
          else
            match next_item self (size (stream_tasks self)) next with
            | Some pc' => (self, pc')
            | None => st
            end
      | _ => st
      end
  | TaskTurn data next =>
      match pc with
      | InTask orig_len task_id task =>
          if task_goes_on self data then st
          else
            match next_item self orig_len next with
            | Some pc' => (self, pc')
            | None => st
            end
      | _ => st
      end
  end.

Definition poll_run (st : poll_state) (events : list poll_event) : poll_state :=
  foldl poll_step st events.

End Streamer.

(** ** A codec to run the streamer on

    Frames are taken as they are: every text decodes and parses, nothing is
    stamped, and callbacks return.  Callbacks and subscribers are numbered. *)

#[global] Instance plain_codec : Codec string nat := {|
  utf8_decode := fun s => Some s;
  json_loads := fun s => if String.eqb s "" then Fails JSONDecodeError else Value s;
  add_time_human := fun j => Value j;
  json_dumps := fun j => Value j;
  callback_call := fun _ _ => Value tt
|}.

(** A default streamer with float 0.025 written as the pair (25, 1000). *)
Definition default_streamer : MetaTrader5Streamer
    (Float := Z * Z) (Callback := nat) (Kwargs := list (string * string))
    (Websocket := nat) :=
  init_default (25%Z, 1000%Z).

(** The same streamer constructed with [use_websockets=False]. *)
Definition socket_only_streamer : MetaTrader5Streamer
    (Float := Z * Z) (Callback := nat) (Kwargs := list (string * string))
    (Websocket := nat) :=
  init "127.0.0.1" 15557 15558 None (25%Z, 1000%Z) true false false.

(** A streamer constructed with [use_socket=False], [use_websockets=False]
    and callback 4: its thread polls the tasks. *)
Definition polling_streamer : MetaTrader5Streamer
    (Float := Z * Z) (Callback := nat) (Kwargs := list (string * string))
    (Websocket := nat) :=
  init "127.0.0.1" 15557 15558 (Some 4) (25%Z, 1000%Z) false false false.

End Streamer.

(* ===================================================================== *)
(** * Part II, continued: further functions of the cited files            *)
(* ===================================================================== *)

Module MqlExtra.
Import Mql.

(** ** utils.mqh: formatting of unset values *)

Definition LONG_MAX : Z := 9223372036854775807.
Definition INT_MAX : Z := 2147483647.

Definition longMaxString (val : Z) : string :=
  if negb (val =? LONG_MAX)%Z then IntegerToString val else "".

Definition intMaxString (val : Z) : string :=
  if negb (val =? INT_MAX)%Z then IntegerToString val else "".

(** The loop of [isAsciiPrintable] over the characters of [val], with its
    early [return false]. *)
Fixpoint isAsciiPrintable (val : string) : bool :=
  match val with
  | EmptyString => true
  | String c rest =>
      if (nat_of_ascii c <? 32)%nat || (128 <=? nat_of_ascii c)%nat then false
      else isAsciiPrintable rest
  end.

(** ** The chart-id sets of the multi-chart expert ([class IdSet])

    [IdSet] extends the array class [CArrayLong]: [Total] is the length,
    [CArrayLong::Add] appends and returns true (memory for the new element
    is taken to be available) and [Delete(i)] removes the element at [i].
    [charts] is the sequence of open charts that [ChartFirst] and [ChartNext]
    enumerate. *)

(** The loop of [IdSet::_find]. *)
Fixpoint _find (charts : list Z) (id : Z) : bool :=
  match charts with
  | [] => false
  | ch :: rest => if (id =? ch)%Z then true else _find rest id
  end.

(** The loop of [IdSet::Add]: is [chart_id] among the elements? *)
Fixpoint Add_loop (this : list Z) (chart_id : Z) : bool :=
  match this with
  | [] => false
  | x :: rest => if (x =? chart_id)%Z then true else Add_loop rest chart_id
  end.

(** [IdSet::Add]: the set afterwards and the value returned. *)
Definition Add (this : list Z) (chart_id : Z) : list Z * bool :=
  if Add_loop this chart_id then (this, false) else (this ++ [chart_id], true).

(** The loop of [IdSet::clean]: [n] is [i + 1], and [i] runs down to 0. *)
Fixpoint clean_loop (charts : list Z) (n : nat) (this : list Z) : list Z :=
  match n with
  | O => this
  | S i =>
      let this1 :=
        match this !! i with
        | Some x => if _find charts x then this else delete i this
        | None => this
        end in
      clean_loop charts i this1
  end.

Definition clean (charts : list Z) (this : list Z) : list Z :=
  clean_loop charts (length this) this.

(** The globals [workers] and [managers], and [clean_arrays]. *)
Record Registry : Type := mkRegistry {
  workers : list Z;
  managers : list Z
}.

Definition clean_arrays (charts : list Z) (r : Registry) : Registry :=
  mkRegistry (clean charts (workers r)) (clean charts (managers r)).

(** ** rest-handlers.mqh: the arrays of the bar handlers

    The initialisers of [parameters] in the success branches of
    [GetActualBarInfo] and of [GetSpecificBar], for the bar [rates[0]]. *)

Section BarParameters.

Context {T double : Type} `{!Terminal T double}.

Definition GetActualBarInfo_parameters (bar : Rates.MqlRates double) : list string :=
  [IntegerToString (Rates.time bar);
   DoubleToString (Rates.open bar) 5;
   DoubleToString (Rates.high bar) 5;
   DoubleToString (Rates.low bar) 5;
   DoubleToString (Rates.close bar) 5;
   IntegerToString (Rates.tick_volume bar)].

Definition GetSpecificBar_parameters (symbol : string) (bar : Rates.MqlRates double)
    : list string :=
  [symbol;
   IntegerToString (Rates.time bar);
   DoubleToString (Rates.open bar) 5;
   DoubleToString (Rates.high bar) 5;
   DoubleToString (Rates.low bar) 5;
   DoubleToString (Rates.close bar) 5;
   IntegerToString (Rates.tick_volume bar)].

End BarParameters.

(** ** MT5Ext.mqh: the streaming clients that a broadcast reaches *)

Definition connected_streaming_clients (g : Servers) : list ClientSocket :=
  List.filter IsSocketConnected (omap id (streamingClients g)).

End MqlExtra.

Module StreamerExtra.
Import Streamer.

(** ** [_add_time_human]

    A parsed frame is a tree of dictionaries, lists and scalars.  A
    dictionary keeps its keys in insertion order, one entry per key.  [Num]
    stands for the numbers of Python. *)

(** A call has returned, has raised, or is not finished within the nesting
    that is evaluated.  The compiled method recurses without a limit of its
    own; [Unfinished] says only that more nesting has to be evaluated. *)
Inductive run (A : Type) : Type :=
| Returned (a : A)
| Raised (e : raised)
| Unfinished.

Arguments Returned {A} a.
Arguments Raised {A} e.
Arguments Unfinished {A}.

#[global] Instance run_ret : MRet run := fun _ a => Returned a.

#[global] Instance run_bind : MBind run := fun _ _ k r =>
  match r with
  | Returned a => k a
  | Raised e => Raised e
  | Unfinished => Unfinished
  end.

Section Json.

Context {Num : Type}.

(** [of_bool]: [True] and [False] as the numbers 1 and 0.  [strftime]: the
    text of [datetime.fromtimestamp(x, UTC).strftime("%Y-%m-%d %H:%M:%S")],
    or the exception it raises on a value out of range ([OverflowError],
    [ValueError], or [OSError] with its [errno]). *)
Context (of_bool : bool -> Num) (strftime : Num -> tried string).

#[local] Unset Elimination Schemes.

Inductive Json : Type :=
| JNull
| JBool (b : bool)
| JNumber (x : Num)
| JString (s : string)
| JList (items : list Json)
| JDict (entries : list (string * Json)).

#[local] Set Elimination Schemes.

(** [key in obj] and [obj[key]] *)
Fixpoint dict_get (key : string) (entries : list (string * Json)) : option Json :=
  match entries with
  | [] => None
  | (k, v) :: rest => if String.eqb k key then Some v else dict_get key rest
  end.

(** [obj[key] = value]: the entry of [key] is replaced where it stands, a
    new key is added at the end. *)
Fixpoint dict_set (key : string) (value : Json) (entries : list (string * Json))
    : list (string * Json) :=
  match entries with
  | [] => [(key, value)]
  | (k, v) :: rest =>
      if String.eqb k key then (k, value) :: rest
      else (k, v) :: dict_set key value rest
  end.

(** The timestamp that [datetime.fromtimestamp] accepts: a number (a boolean
    is one); anything else is a [TypeError]. *)
Definition timestamp (value : Json) : option Num :=
  match value with
  | JNumber x => Some x
  | JBool b => Some (of_bool b)
  | _ => None
  end.

(** [for item in items: visit(item)], stopping at the first exception. *)
Fixpoint visit_items (visit : Json -> run Json) (items : list Json)
    : run (list Json) :=
  match items with
  | [] => Returned []
  | item :: rest =>
      item1 ← visit item;
      rest1 ← visit_items visit rest;
      Returned (item1 :: rest1)
  end.

(** [for value in obj.values(): visit(value)] *)
Fixpoint visit_values (visit : Json -> run Json) (entries : list (string * Json))
    : run (list (string * Json)) :=
  match entries with
  | [] => Returned []
  | (k, v) :: rest =>
      v1 ← visit v;
      rest1 ← visit_values visit rest;
      Returned ((k, v1) :: rest1)
  end.

(** [_add_time_human(obj)]: the object after the call.  [fuel] is the
    nesting that is evaluated. *)
Fixpoint _add_time_human (fuel : nat) (obj : Json) : run Json :=
  match fuel with
  | O => Unfinished
  | S fuel' =>
      match obj with
      | JDict entries =>
          entries1 ←
            match dict_get "time" entries with
            | Some value =>
                match timestamp value with
                | Some x =>
                    match strftime x with
                    | Value text =>
                        Returned (dict_set "time_human" (JString text) entries)
                    | Fails e => Raised e
                    end
                | None => Raised OtherException
                end
            | None => Returned entries
            end;
          entries2 ← visit_values (_add_time_human fuel') entries1;
          Returned (JDict entries2)
      | JList items =>
          items1 ← visit_items (_add_time_human fuel') items;
          Returned (JList items1)
      | _ => Returned obj
      end
  end.

(** No dictionary of [obj] has the key "time". *)
Fixpoint time_free (obj : Json) : bool :=
  match obj with
  | JDict entries =>
      negb (bool_decide (is_Some (dict_get "time" entries))) &&
      forallb (fun entry => time_free (snd entry)) entries
  | JList items => forallb time_free items
  | _ => true
  end.

(** The number of nested calls that [_add_time_human(obj)] makes: one for
    [obj] itself, and the deepest of its values or items below it. *)
Fixpoint nesting (obj : Json) : nat :=
  match obj with
  | JDict entries => S (list_max (map (fun entry => nesting (snd entry)) entries))
  | JList items => S (list_max (map nesting items))
  | _ => 1
  end.

End Json.

Arguments Json Num : clear implicits.

(** A stand-in for the formatting, on whole seconds, to run the function
    on; it is not the calendar arithmetic of the library.  The text is the
    decimal numeral; a negative value raises an exception that is no
    [OSError], and a value from 10^18 on raises [OSError] with [errno] 75. *)
Definition seconds_text (x : Z) : tried string :=
  if (x <? 0)%Z then Fails OtherException
  else if (1000000000000000000 <=? x)%Z then Fails (SocketError 75)
  else Value (pretty x).

Definition add_time_seconds : nat -> Json Z -> run (Json Z) :=
  _add_time_human (fun b : bool => if b then 1%Z else 0%Z) seconds_text.

(** A codec to run the streaming loop on: bytes below 128 only are decoded,
    the parser is given by its table on the frames at hand (any other text
    is not JSON), [_add_time_human] is the function above, evaluated to the
    nesting of the object, and [dumps] renders the result. *)
Definition ascii_only (s : string) : bool :=
  forallb (fun c => (nat_of_ascii c <? 128)%nat) (list_ascii_of_string s).

Definition table_codec (frames : list (string * tried (Json Z)))
    (dumps : Json Z -> string) : Codec (Json Z) nat := {|
  utf8_decode := fun s => if ascii_only s then Some s else None;
  json_loads := fun s =>
    match List.find (fun frame => String.eqb (fst frame) s) frames with
    | Some frame => snd frame
    | None => Fails JSONDecodeError
    end;
  add_time_human := fun j =>
    match add_time_seconds (nesting j) j with
    | Returned j' => Value j'
    | Raised e => Fails e
    | Unfinished => Fails OtherException
    end;
  json_dumps := fun j => Value (dumps j);
  callback_call := fun _ _ => Value tt
|}.

End StreamerExtra.

(* ===================================================================== *)
(** * Part III: properties of the terminal side                           *)
(* ===================================================================== *)

Module MqlProps.
Import Mql.

(** ** Strings and arrays *)

Lemma append_nil_l (a : string) : "" +:+ a = a.
Proof. reflexivity. Qed.

Lemma append_cons (c : ascii) (a b : string) :
  String c a +:+ b = String c (a +:+ b).
Proof. reflexivity. Qed.

Lemma append_assoc (a b c : string) : (a +:+ b) +:+ c = a +:+ (b +:+ c).
Proof.
  induction a as [|x a IH]; [reflexivity |].
  rewrite !append_cons. now f_equal.
Qed.

Lemma append_empty_r (a : string) : a +:+ "" = a.
Proof.
  induction a as [|x a IH]; [reflexivity |].
  rewrite append_cons. now f_equal.
Qed.

Lemma StringJoin_loop_acc (arr : list string) (d acc : string) :
  StringJoin_loop arr d acc = acc +:+ StringJoin_loop arr d "".
Proof.
  revert acc. induction arr as [|x rest IH]; intros acc; cbn [StringJoin_loop].
  - now rewrite append_empty_r.
  - destruct rest as [|y rest'].
    + reflexivity.
    + rewrite (IH ((acc +:+ x) +:+ d)), (IH (("" +:+ x) +:+ d)).
      rewrite append_nil_l. now rewrite !append_assoc.
Qed.

Lemma StringJoin_nil (d : string) : StringJoin [] d = "".
Proof. reflexivity. Qed.

Lemma StringJoin_one (x d : string) : StringJoin [x] d = x.
Proof. reflexivity. Qed.

Lemma StringJoin_loop_step (x y : string) (rest : list string) (d acc : string) :
  StringJoin_loop (x :: y :: rest) d acc =
  StringJoin_loop (y :: rest) d ((acc +:+ x) +:+ d).
Proof. reflexivity. Qed.

Lemma StringJoin_cons (x y : string) (rest : list string) (d : string) :
  StringJoin (x :: y :: rest) d = x +:+ (d +:+ StringJoin (y :: rest) d).
Proof.
  unfold StringJoin. rewrite StringJoin_loop_step.
  rewrite StringJoin_loop_acc, append_nil_l. now rewrite append_assoc.
Qed.

Lemma split_fields_free (sep : ascii) (a : string) :
  occurs sep a = false -> split_fields sep a = (a, []).
Proof.
  induction a as [|c a IH]; cbn [occurs split_fields]; [reflexivity |].
  intros H. apply orb_false_iff in H as [Hc Ha].
  rewrite (IH Ha), Hc. reflexivity.
Qed.

Lemma fields_free (sep : ascii) (a : string) :
  occurs sep a = false -> fields sep a = [a].
Proof. intros H. unfold fields. now rewrite split_fields_free. Qed.

Lemma fields_app (sep : ascii) (a rest : string) :
  occurs sep a = false ->
  fields sep (a +:+ String sep rest) = a :: fields sep rest.
Proof.
  unfold fields. induction a as [|c a IH].
  - intros _. rewrite append_nil_l. cbn [split_fields].
    destruct (split_fields sep rest) as [f fs].
    now rewrite Ascii.eqb_refl.
  - cbn [occurs]. intros H. apply orb_false_iff in H as [Hc Ha].
    specialize (IH Ha). rewrite append_cons. cbn [split_fields].
    destruct (split_fields sep (a +:+ String sep rest)) as [f fs].
    rewrite Hc. congruence.
Qed.

Lemma fields_StringJoin (sep : ascii) (ps : list string) :
  ps <> [] ->
  Forall (fun p => occurs sep p = false) ps ->
  fields sep (StringJoin ps (String sep "")) = ps.
Proof.
  induction ps as [|x rest IH]; [congruence |].
  intros _ Hall. inversion Hall as [|? ? Hx Hrest]; subst.
  destruct rest as [|y rest'].
  - rewrite StringJoin_one. now apply fields_free.
  - rewrite StringJoin_cons, append_cons, append_nil_l.
    rewrite fields_app by assumption.
    f_equal. apply IH; [congruence | assumption].
Qed.

Lemma length_ArrayResize (a : list string) (n : nat) :
  length (ArrayResize a n) = n.
Proof.
  unfold ArrayResize. rewrite length_app, length_take, length_replicate. lia.
Qed.

Lemma ArrayCopy_after_resize (a src : list string) (k : nat) :
  ArrayCopy (ArrayResize a (length src - k)) src 0 k = drop k src.
Proof.
  unfold ArrayCopy. rewrite take_0. cbn [app Nat.add].
  rewrite (drop_ge (ArrayResize _ _)); [apply app_nil_r |].
  rewrite length_ArrayResize, length_drop. lia.
Qed.

(** ** The codec: [ParseRequest] after [MakeMessage] *)

Lemma StringSplit_app (sep : ascii) (a rest : string) :
  StringSplit (a +:+ String sep rest) sep = fields sep (a +:+ String sep rest).
Proof. destruct a; reflexivity. Qed.

Lemma MakeMessage_shape (c s : string) (ps : list string) :
  MakeMessage c s ps = c +:+ String "^" (s +:+ String "^" (StringJoin ps "^")).
Proof.
  unfold MakeMessage. cbv zeta.
  rewrite !append_assoc, !append_cons, !append_nil_l. reflexivity.
Qed.

Lemma StringSplit_MakeMessage (c s : string) (ps : list string) :
  occurs "^" c = false -> occurs "^" s = false ->
  StringSplit (MakeMessage c s ps) "^" = c :: s :: fields "^" (StringJoin ps "^").
Proof.
  intros Hc Hs. rewrite MakeMessage_shape, StringSplit_app.
  now rewrite !fields_app.
Qed.

Lemma ParseRequest_parts (request : string) (c s : string) (ps p0 : list string) :
  StringSplit request "^" = c :: s :: ps ->
  ParseRequest request p0 = Done (mkRequest c s ps).
Proof.
  intros Hparts. unfold ParseRequest. rewrite Hparts.
  rewrite ArrayCopy_after_resize. reflexivity.
Qed.

(** Both the empty list and the list of one empty value are encoded as an
    empty third field, whatever the decoder does with it. *)
Lemma MakeMessage_nil_one_empty (c s : string) :
  MakeMessage c s [] = MakeMessage c s [""].
Proof. reflexivity. Qed.

Lemma MakeMessage_has_no_inverse (decode : string -> Request) :
  ~ (forall c s ps, decode (MakeMessage c s ps) = mkRequest c s ps).
Proof.
  intros H. pose proof (H "" "" []) as H0. pose proof (H "" "" [""]) as H1.
  rewrite MakeMessage_nil_one_empty in H0. congruence.
Qed.

Lemma ParseRequest_MakeMessage_caret_free (c s : string) (ps p0 : list string) :
  occurs "^" c = false -> occurs "^" s = false ->
  Forall (fun p => occurs "^" p = false) ps ->
  ps <> [] ->
  ParseRequest (MakeMessage c s ps) p0 = Done (mkRequest c s ps).
Proof.
  intros Hc Hs Hps Hne. apply ParseRequest_parts.
  rewrite StringSplit_MakeMessage by assumption.
  now rewrite (fields_StringJoin "^" ps).
Qed.

Lemma ParseRequest_MakeMessage_nil (c s : string) (p0 : list string) :
  occurs "^" c = false -> occurs "^" s = false ->
  ParseRequest (MakeMessage c s []) p0 = Done (mkRequest c s [""]).
Proof.
  intros Hc Hs. apply ParseRequest_parts.
  now rewrite StringSplit_MakeMessage.
Qed.

Lemma delimiter_free_caret (v : string) :
  delimiter_free v = true -> occurs "^" v = false.
Proof.
  unfold delimiter_free. intros H. apply andb_true_iff in H as [H _].
  now apply negb_true_iff in H.
Qed.

(** C1, as amended: for a command code, a sub code and a parameter list
    that is not empty, all free of the two delimiters, decoding the encoded
    message gives back the command code, the sub code and the parameters. *)
Theorem ParseRequest_MakeMessage_roundtrip (c s : string) (ps p0 : list string) :
  delimiter_free c = true ->
  delimiter_free s = true ->
  Forall (fun p => delimiter_free p = true) ps ->
  ps <> [] ->
  ParseRequest (MakeMessage c s ps) p0 = Done (mkRequest c s ps).
Proof.
  intros Hc Hs Hps Hne.
  apply ParseRequest_MakeMessage_caret_free;
    auto using delimiter_free_caret.
  eapply Forall_impl; [exact Hps |]. intros p. apply delimiter_free_caret.
Qed.

Lemma ParseRequest_MakeMessage_roundtrip_witness :
  ParseRequest (MakeMessage "F003" "2" ["EURUSD"]) [] =
  Done (mkRequest "F003" "2" ["EURUSD"]).
Proof.
  apply ParseRequest_MakeMessage_roundtrip.
  - reflexivity.
  - reflexivity.
  - repeat constructor.
  - discriminate.
Defined.

(** C1, as stated, fails at the empty parameter list: the encoder still
    writes the second caret, and the decoder reads one empty parameter. *)
Lemma roundtrip_fails_on_empty_parameters :
  delimiter_free "F000" = true /\
  delimiter_free "1" = true /\
  Forall (fun p => delimiter_free p = true) [] /\
  MakeMessage "F000" "1" [] = "F000^1^" /\
  ParseRequest (MakeMessage "F000" "1" []) [] = Done (mkRequest "F000" "1" [""]) /\
  ParseRequest (MakeMessage "F000" "1" []) [] <> Done (mkRequest "F000" "1" []).
Proof.
  repeat split; try reflexivity; [constructor | discriminate].
Qed.

(** ** The sub code of the handlers' messages *)

Section HandlerProps.

Context {T double : Type} `{!Terminal T double}.

(** The account handlers and [GetLatestBar] follow the convention. *)
Lemma account_handlers_count (t : T) :
  (exists ps, GetStaticAccountInfo t = MakeMessage "F001" "10" ps /\
              length ps = 10%nat /\ sub_code_counts "10" ps = true) /\
  (exists ps, GetDynamicAccountInfo t = MakeMessage "F002" "6" ps /\
              length ps = 6%nat /\ sub_code_counts "6" ps = true) /\
  (forall symbol time,
     exists ps, GetLatestBar t symbol time = MakeMessage "F021" "6" ps /\
                length ps = 6%nat /\ sub_code_counts "6" ps = true).
Proof. repeat split; intros; eexists; repeat split; reflexivity. Qed.

(** C2 is violated by the three handlers it names: on their success
    branches the sub code is "3" for the 11 parameters of
    [GetInstrumentInfo], "6" for the 7 of [GetLastTickInfo] and "6" for the
    5 of [GetLatestTick]; their other branches are the error replies. *)
Theorem success_sub_codes_miscount (t : T) (symbol : string) :
  miscounts (GetInstrumentInfo t symbol)
            "F003" "3" (GetInstrumentInfo_parameters t symbol) 11 /\
  match SymbolInfoTick t symbol with
  | Some lastTick =>
      miscounts (GetLatestTick t symbol)
                "F020" "6" (GetLatestTick_parameters lastTick) 5
  | None => GetLatestTick t symbol = error_reply "F020" "ERROR"
  end /\
  match StringToUpper symbol with
  | Some upper =>
      let t1 := fst (SymbolSelect t upper true) in
      match SymbolInfoTick t1 upper with
      | Some lastTick =>
          miscounts (snd (GetLastTickInfo t symbol))
                    "F020" "6" (GetLastTickInfo_parameters t1 upper lastTick) 7
      | None => snd (GetLastTickInfo t symbol) = error_reply "F020" "ERROR"
      end
  | None => snd (GetLastTickInfo t symbol) = error_reply "F020" "ERROR"
  end.
Proof.
  unfold miscounts. split; [| split].
  - repeat split.
  - unfold GetLatestTick. destruct (SymbolInfoTick t symbol) as [tick|].
    + repeat split.
    + reflexivity.
  - unfold GetLastTickInfo. destruct (StringToUpper symbol) as [upper|].
    + cbv zeta. destruct (SymbolSelect t upper true) as [t1 watched]. cbn [fst].
      destruct (SymbolInfoTick t1 upper) as [tick|]; cbn [snd].
      * repeat split.
      * reflexivity.
    + reflexivity.
Qed.

(** ** Error replies *)

Lemma error_reply_decodes (command literal : string) (p0 : list string) :
  occurs "^" command = false -> occurs "^" literal = false ->
  ParseRequest (error_reply command literal) p0 = Done (mkRequest command "1" [literal]).
Proof.
  intros Hc Hl. unfold error_reply.
  apply ParseRequest_MakeMessage_caret_free; try discriminate; auto.
Qed.

Lemma dispatch_miss (r : Request) (c s : string) :
  (command r, subCommand r) ∉ dispatch_table ->
  (c, s) ∈ dispatch_table ->
  String.eqb (command r) c && String.eqb (subCommand r) s = false.
Proof.
  intros Hout Hin. apply not_true_is_false. intros Heq.
  apply andb_true_iff in Heq as [Hc Hs].
  apply String.eqb_eq in Hc, Hs. apply Hout. destruct r; cbn in *. now subst.
Qed.

Lemma ProcessClient_response_unknown (t : T) (r : Request) :
  (command r, subCommand r) ∉ dispatch_table ->
  ProcessClient_response t r = Done (t, error_reply "F999" "UNKNOWN_REQUEST").
Proof.
  intros Hout. unfold ProcessClient_response. cbv zeta.
  rewrite !(dispatch_miss r _ _ Hout) by (unfold dispatch_table; set_solver).
  reflexivity.
Qed.

Lemma GetLastTickInfo_failure (t : T) (symbol : string) :
  match StringToUpper symbol with
  | Some upper =>
      SymbolInfoTick (fst (SymbolSelect t upper true)) upper = None ->
      snd (GetLastTickInfo t symbol) = error_reply "F020" "ERROR"
  | None => snd (GetLastTickInfo t symbol) = error_reply "F020" "ERROR"
  end.
Proof.
  unfold GetLastTickInfo. destruct (StringToUpper symbol) as [upper|]; [| reflexivity].
  destruct (SymbolSelect t upper true) as [t1 watched]. cbn [fst].
  intros ->. reflexivity.
Qed.

Lemma gives_up_intro (command : string) (t : T) :
  gives_up command (Done (t, MakeMessage command "1" ["ERROR"])).
Proof. exists t. reflexivity. Qed.

(** The handlers that standardise the symbol first give up when that fails. *)
Lemma symbol_handlers_without_symbol (t : T) (symbol : string) (n tf k : Z) :
  StringToUpper symbol = None ->
  snd (GetLastTickInfo t symbol) = error_reply "F020" "ERROR" /\
  gives_up "F021" (GetLastXTickFromNow t symbol n) /\
  gives_up "F041" (GetActualBarInfo t symbol tf) /\
  gives_up "F045" (GetSpecificBar t symbol k tf) /\
  gives_up "F042" (GetLastXBarsFromNow t symbol tf n).
Proof.
  intros Hup.
  unfold GetLastTickInfo, GetLastXTickFromNow, GetActualBarInfo, GetSpecificBar,
    GetLastXBarsFromNow.
  rewrite Hup. repeat split; apply gives_up_intro.
Qed.

(** They give up as well when the terminal has no tick or copies no data. *)
Lemma symbol_handlers_without_data (t : T) (symbol upper : string) (n tf k : Z) :
  StringToUpper symbol = Some upper ->
  let t1 := fst (SymbolSelect t upper true) in
  (SymbolInfoTick t1 upper = None ->
   snd (GetLastTickInfo t symbol) = error_reply "F020" "ERROR") /\
  ((0 <? fst (CopyTicks t1 upper n))%Z = false ->
   gives_up "F021" (GetLastXTickFromNow t symbol n)) /\
  ((0 <? fst (CopyRates t1 upper tf 0 1))%Z = false ->
   gives_up "F041" (GetActualBarInfo t symbol tf)) /\
  ((0 <? fst (CopyRates t1 upper tf k 1))%Z = false ->
   gives_up "F045" (GetSpecificBar t symbol k tf)) /\
  ((0 <? fst (CopyRates t1 upper tf 0 n))%Z = false ->
   gives_up "F042" (GetLastXBarsFromNow t symbol tf n)).
Proof.
  intros Hup. cbv zeta.
  unfold GetLastXTickFromNow, GetActualBarInfo, GetSpecificBar, GetLastXBarsFromNow.
  rewrite Hup.
  pose proof (GetLastTickInfo_failure t symbol) as Htick. rewrite Hup in Htick.
  destruct (SymbolSelect t upper true) as [t1 watched]. cbn [fst] in *.
  split; [exact Htick |].
  destruct (CopyTicks t1 upper n) as [copied ticks].
  destruct (CopyRates t1 upper tf 0 1) as [copied1 rates1].
  destruct (CopyRates t1 upper tf k 1) as [copied2 rates2].
  destruct (CopyRates t1 upper tf 0 n) as [copied3 rates3].
  cbn [fst].
  repeat split; intros ->; apply gives_up_intro.
Qed.

(** The handlers that list positions, deals or orders give up when there is
    nothing to list, and [GetAllDeletedOrders] when the history cannot be
    selected. *)
Lemma list_handlers_without_items (t : T) (a b : Z) :
  ((0 <? PositionsTotal t)%Z = false -> gives_up "F061" (GetAllOpenPositions t)) /\
  ((0 <? HistoryDealsTotal t)%Z = false ->
   gives_up "F063" (GetAllClosedPositions t) /\
   gives_up "F062" (GetAllClosedPositionsWithinWindow t a b)) /\
  ((0 <? OrdersTotal t)%Z = false -> gives_up "F060" (GetAllPendingOrders t)) /\
  ((0 <? HistoryOrdersTotal t)%Z = false ->
   gives_up "F064" (GetAllDeletedPendingOrdersWithinWindow t a b)) /\
  (snd (HistorySelect t 0 (TimeCurrent t)) = false ->
   gives_up "F065" (GetAllDeletedOrders t)) /\
  ((0 <? HistoryOrdersTotal (fst (HistorySelect t 0 (TimeCurrent t))))%Z = false ->
   gives_up "F065" (GetAllDeletedOrders t)).
Proof.
  unfold GetAllOpenPositions, GetAllClosedPositions, GetAllClosedPositionsWithinWindow,
    GetAllPendingOrders, GetAllDeletedPendingOrdersWithinWindow, GetAllDeletedOrders.
  cbv zeta.
  destruct (HistorySelect t 0 (TimeCurrent t)) as [t0 selected]. cbn [fst snd].
  split; [intros ->; apply gives_up_intro |].
  split; [intros ->; split; apply gives_up_intro |].
  split; [intros ->; apply gives_up_intro |].
  split; [intros ->; apply gives_up_intro |].
  split; [intros ->; apply gives_up_intro |].
  intros Htotal. destruct selected; cbn [negb]; [rewrite Htotal |]; apply gives_up_intro.
Qed.

(** A loop whose first turn stores into the empty array stops there. *)
Lemma for_loop_first_turn {St : Type} (n : nat) (body : nat -> St -> outcome St)
    (s : St) (e : critical_error) :
  body O s = Critical e -> for_loop (S n) 0 body s = Critical e.
Proof. intros Hbody. cbn [for_loop]. now rewrite Hbody. Qed.

(** With something to list, the listing handlers write [parameters[0]] of an
    array that was never sized. *)
Lemma list_handlers_with_items (t : T) :
  ((0 <? PositionsTotal t)%Z = true -> GetAllOpenPositions t = Critical ArrayOutOfRange) /\
  ((0 <? HistoryDealsTotal t)%Z = true ->
   GetAllClosedPositions t = Critical ArrayOutOfRange) /\
  ((0 <? OrdersTotal t)%Z = true -> GetAllPendingOrders t = Critical ArrayOutOfRange).
Proof.
  unfold GetAllOpenPositions, GetAllClosedPositions, GetAllPendingOrders. cbv zeta.
  repeat split; intros Htotal; rewrite Htotal; apply Z.ltb_lt in Htotal.
  - destruct (Z.to_nat (PositionsTotal t)) as [|n] eqn:Hn; [lia |].
    rewrite for_loop_first_turn with (e := ArrayOutOfRange); [reflexivity |].
    destruct (PositionGetTicket t (Z.of_nat 0)); reflexivity.
  - destruct (Z.to_nat (HistoryDealsTotal t)) as [|n] eqn:Hn; [lia |].
    rewrite for_loop_first_turn with (e := ArrayOutOfRange); reflexivity.
  - destruct (Z.to_nat (OrdersTotal t)) as [|n] eqn:Hn; [lia |].
    rewrite for_loop_first_turn with (e := ArrayOutOfRange); [reflexivity |].
    destruct (OrderGetTicket t (Z.of_nat 0)); reflexivity.
Qed.

(** The error replies that the terminal side does send have sub code "1"
    and one parameter.  It is "UNKNOWN_REQUEST" when [ProcessClient] finds
    no entry that matches, and "ERROR" on every failure branch of the
    handlers: a symbol that cannot be standardised, no tick, no data copied,
    nothing to list, no history.  The receiver decodes such a reply to that
    sub code and that single parameter. *)
Theorem error_replies_shape (t : T) (r : Request) (symbol : string) (n tf k a b : Z) :
  ((command r, subCommand r) ∉ dispatch_table ->
   ProcessClient_response t r = Done (t, error_reply "F999" "UNKNOWN_REQUEST")) /\
  (StringToUpper symbol = None ->
   snd (GetLastTickInfo t symbol) = error_reply "F020" "ERROR" /\
   gives_up "F021" (GetLastXTickFromNow t symbol n) /\
   gives_up "F041" (GetActualBarInfo t symbol tf) /\
   gives_up "F045" (GetSpecificBar t symbol k tf) /\
   gives_up "F042" (GetLastXBarsFromNow t symbol tf n)) /\
  (forall upper,
     StringToUpper symbol = Some upper ->
     let t1 := fst (SymbolSelect t upper true) in
     (SymbolInfoTick t1 upper = None ->
      snd (GetLastTickInfo t symbol) = error_reply "F020" "ERROR") /\
     ((0 <? fst (CopyTicks t1 upper n))%Z = false ->
      gives_up "F021" (GetLastXTickFromNow t symbol n)) /\
     ((0 <? fst (CopyRates t1 upper tf 0 1))%Z = false ->
      gives_up "F041" (GetActualBarInfo t symbol tf)) /\
     ((0 <? fst (CopyRates t1 upper tf k 1))%Z = false ->
      gives_up "F045" (GetSpecificBar t symbol k tf)) /\
     ((0 <? fst (CopyRates t1 upper tf 0 n))%Z = false ->
      gives_up "F042" (GetLastXBarsFromNow t symbol tf n))) /\
  (SymbolInfoTick t symbol = None ->
   GetLatestTick t symbol = error_reply "F020" "ERROR") /\
  ((0 <? PositionsTotal t)%Z = false -> gives_up "F061" (GetAllOpenPositions t)) /\
  ((0 <? HistoryDealsTotal t)%Z = false ->
   gives_up "F063" (GetAllClosedPositions t) /\
   gives_up "F062" (GetAllClosedPositionsWithinWindow t a b)) /\
  ((0 <? OrdersTotal t)%Z = false -> gives_up "F060" (GetAllPendingOrders t)) /\
  ((0 <? HistoryOrdersTotal t)%Z = false ->
   gives_up "F064" (GetAllDeletedPendingOrdersWithinWindow t a b)) /\
  (snd (HistorySelect t 0 (TimeCurrent t)) = false ->
   gives_up "F065" (GetAllDeletedOrders t)) /\
  ((0 <? HistoryOrdersTotal (fst (HistorySelect t 0 (TimeCurrent t))))%Z = false ->
   gives_up "F065" (GetAllDeletedOrders t)) /\
  (forall command literal p0,
     occurs "^" command = false -> occurs "^" literal = false ->
     ParseRequest (error_reply command literal) p0 =
     Done (mkRequest command "1" [literal])).
Proof.
  split; [apply ProcessClient_response_unknown |].
  split; [apply symbol_handlers_without_symbol |].
  split; [intros upper Hup; now apply symbol_handlers_without_data |].
  split; [intros Htick; unfold GetLatestTick; now rewrite Htick |].
  pose proof (list_handlers_without_items t a b) as (H1 & H2 & H3 & H4 & H5 & H6).
  repeat (split; [assumption |]).
  intros command literal p0. apply error_reply_decodes.
Qed.

(** ** Requests without a caret *)

Lemma StringSplit_caret_free (request : string) :
  occurs "^" request = false ->
  StringSplit request "^" = match request with "" => [] | _ => [request] end.
Proof.
  intros Hfree. destruct request as [|c rest]; [reflexivity |].
  unfold StringSplit. now apply fields_free.
Qed.

Lemma StringSplit_caret_free_length (request : string) :
  occurs "^" request = false -> (length (StringSplit request "^") < 2)%nat.
Proof.
  intros Hfree. rewrite StringSplit_caret_free by assumption.
  destruct request; cbn; lia.
Qed.

Lemma ParseRequest_caret_free (request : string) (p0 : list string) :
  occurs "^" request = false ->
  ParseRequest request p0 =
  match p0 with
  | [] => Critical ArrayOutOfRange
  | _ :: rest => Done (mkRequest "F999" "1" ("INVALID_REQUEST" :: rest))
  end.
Proof.
  intros Hfree. unfold ParseRequest.
  pose proof (StringSplit_caret_free_length request Hfree) as Hlen.
  apply Nat.ltb_lt in Hlen. rewrite Hlen.
  destruct p0; reflexivity.
Qed.

Lemma ProcessClient_caret_free (g : Servers) (t : T) (client : ClientSocket)
    (onlyStream : bool) :
  incoming client <> "" ->
  occurs "^" (incoming client) = false ->
  ProcessClient g t client onlyStream = Critical ArrayOutOfRange.
Proof.
  intros Hne Hfree. unfold ProcessClient. cbv zeta.
  destruct (incoming client) as [|c rest] eqn:Hreq; [congruence |].
  cbn [String.length Nat.ltb Nat.leb].
  now rewrite ParseRequest_caret_free.
Qed.

Lemma timer_event_halted (e : Expert) (a : Accepted) :
  halted e <> None -> timer_event e a = (e, []).
Proof. unfold timer_event. destruct (halted e); [reflexivity | congruence]. Qed.

(** C3 is violated on the malformed-request branch of [ParseRequest]: a
    request that is not empty and holds no caret gets no error reply at
    all.  The branch prepares the request F999 / 1, which the chain of
    [ProcessClient] answers with F999^1^UNKNOWN_REQUEST, a reply of the
    stated shape, whenever the array has room for the literal the branch
    writes; on the array without elements that [ProcessClient] passes, the
    write ends the call in the critical error and nothing is sent, in
    either mode. *)
Theorem malformed_request_gets_no_error_reply (g : Servers) (t : T)
    (client : ClientSocket) (onlyStream : bool) (p0 : list string) :
  incoming client <> "" ->
  occurs "^" (incoming client) = false ->
  ProcessClient g t client onlyStream = Critical ArrayOutOfRange /\
  (p0 <> [] ->
   exists r,
     ParseRequest (incoming client) p0 = Done r /\
     command r = "F999" /\ subCommand r = "1" /\
     ProcessClient_response t r = Done (t, error_reply "F999" "UNKNOWN_REQUEST")).
Proof.
  intros Hne Hfree. split; [now apply ProcessClient_caret_free |].
  intros Hroom. destruct p0 as [|p rest]; [congruence |].
  unfold ParseRequest. rewrite (StringSplit_caret_free _ Hfree).
  destruct (incoming client) as [|c request]; [congruence |].
  cbn. eexists. split; [reflexivity |]. split; [reflexivity |].
  split; [reflexivity |].
  apply ProcessClient_response_unknown. cbn [command subCommand].
  apply (bool_decide_unpack _). vm_compute. exact I.
Qed.

(** C4 is violated: a request that is not empty and holds no caret makes
    [ParseRequest] write beyond the empty array of [ProcessClient]; the
    critical error stops the expert, nothing is sent, and no later request
    is answered. *)
Theorem malformed_request_stops_expert (e : Expert) (from : nat) (request : string)
    (next : Accepted) :
  halted e = None ->
  is_Some (restServer (servers e)) ->
  request <> "" ->
  occurs "^" request = false ->
  exists e1,
    timer_event e (rest_request from request) = (e1, []) /\
    halted e1 = Some ArrayOutOfRange /\
    timer_event e1 next = (e1, []).
Proof.
  intros Hrun [srv Hsrv] Hne Hfree.
  eexists. split; [| split].
  - unfold timer_event, OnTimer, AcceptClients. rewrite Hrun, Hsrv.
    cbn [rest_request rest_client IsSocketConnected].
    rewrite ProcessClient_caret_free by assumption. reflexivity.
  - reflexivity.
  - now apply timer_event_halted.
Qed.

End HandlerProps.

(** ** On the demonstration terminal *)

(** What the receiver reads from the three replies. *)
Example sub_codes_decoded_demo :
  ParseRequest (GetInstrumentInfo (T := list string) [] "EURUSD") [] =
    Done (mkRequest "F003" "3"
            ["5"; "1.00"; "1.00"; "1.00"; "1.00000"; "1.00000"; "1.00"; "1.00"; "1.00";
             "5"; "1.00"]) /\
  ParseRequest (snd (GetLastTickInfo (T := list string) [] "EURUSD")) [] =
    Done (mkRequest "F020" "6"
            ["1700000000"; "1.00000"; "2.00000"; "0.00000"; "7"; "5"; "1700000000123"]) /\
  ParseRequest (GetLatestTick (T := list string) [] "EURUSD") [] =
    Done (mkRequest "F020" "6" ["1700000000"; "1.00000"; "2.00000"; "0.00000"; "7"]).
Proof. repeat split. Qed.

Example GetInstrumentInfo_demo :
  GetInstrumentInfo (T := list string) [] "EURUSD" =
  "F003^3^5^1.00^1.00^1.00^1.00000^1.00000^1.00^1.00^1.00^5^1.00".
Proof. reflexivity. Qed.

Example GetLastTickInfo_demo :
  snd (GetLastTickInfo (T := list string) [] "EURUSD") =
  "F020^6^1700000000^1.00000^2.00000^0.00000^7^5^1700000000123".
Proof. reflexivity. Qed.

Example GetLatestTick_demo :
  GetLatestTick (T := list string) [] "EURUSD" =
  "F020^6^1700000000^1.00000^2.00000^0.00000^7".
Proof. reflexivity. Qed.

Example known_request_demo :
  snd (timer_event demo_expert (rest_request 8 "F000^1^")) = [Sent 8 "F000^1^OK"].
Proof. reflexivity. Qed.

Example unknown_request_demo :
  snd (timer_event demo_expert (rest_request 8 "ZZZZ^1^")) =
  [Sent 8 (MakeMessage "F999" "1" ["UNKNOWN_REQUEST"])].
Proof. reflexivity. Qed.

Lemma error_replies_shape_witness :
  (ProcessClient_response (T := unit) tt (mkRequest "ZZZZ" "1" [""]) =
     Done (tt, error_reply "F999" "UNKNOWN_REQUEST") /\
   snd (GetLastTickInfo (T := unit) tt "eurusd") = error_reply "F020" "ERROR" /\
   GetLatestTick (T := unit) tt "eurusd" = error_reply "F020" "ERROR" /\
   gives_up "F061" (GetAllOpenPositions (T := unit) tt) /\
   gives_up "F063" (GetAllClosedPositions (T := unit) tt) /\
   gives_up "F060" (GetAllPendingOrders (T := unit) tt) /\
   gives_up "F064" (GetAllDeletedPendingOrdersWithinWindow (T := unit) tt 0 9) /\
   gives_up "F065" (GetAllDeletedOrders (T := unit) tt)) /\
  (snd (GetLastTickInfo (T := list string) [] "XAUUSD") = error_reply "F020" "ERROR" /\
   gives_up "F021" (GetLastXTickFromNow (T := list string) [] "XAUUSD" 10) /\
   gives_up "F041" (GetActualBarInfo (T := list string) [] "XAUUSD" 1) /\
   gives_up "F045" (GetSpecificBar (T := list string) [] "XAUUSD" 3 1) /\
   gives_up "F042" (GetLastXBarsFromNow (T := list string) [] "XAUUSD" 1 10)) /\
  ParseRequest (error_reply "F020" "ERROR") [] = Done (mkRequest "F020" "1" ["ERROR"]).
Proof.
  pose proof (error_replies_shape (T := unit) tt (mkRequest "ZZZZ" "1" [""])
                "eurusd" 10 1 3 0 9)
    as (Hunknown & Hsymbol & _ & Hlatest & Hpos & Hdeals & Hpending & Hdeleted
        & Hselect & Htotal & Hdecode).
  pose proof (error_replies_shape (T := list string) [] (mkRequest "ZZZZ" "1" [""])
                "XAUUSD" 10 1 3 0 9)
    as (_ & _ & Hdata & _).
  split; [| split].
  - split; [apply Hunknown; apply (bool_decide_unpack _); vm_compute; exact I |].
    split; [apply Hsymbol; reflexivity |].
    split; [apply Hlatest; reflexivity |].
    split; [apply Hpos; reflexivity |].
    split; [apply Hdeals; reflexivity |].
    split; [apply Hpending; reflexivity |].
    split; [apply Hdeleted; reflexivity |].
    pose proof (Htotal eq_refl) as Hagain.
    apply Hselect. reflexivity.
  - specialize (Hdata "XAUUSD" eq_refl) as (Htick & Hticks & Hbar & Hspecific & Hbars).
    split; [apply Htick; reflexivity |].
    split; [apply Hticks; reflexivity |].
    split; [apply Hbar; reflexivity |].
    split; [apply Hspecific; reflexivity |].
    apply Hbars; reflexivity.
  - apply Hdecode; reflexivity.
Defined.

(** The malformed-request branch given an array with room for one element:
    it fills in a literal of its own for the request, which is not sent. *)
Example malformed_branch_has_other_literal :
  ParseRequest "HELLO" [""] = Done (mkRequest "F999" "1" ["INVALID_REQUEST"]) /\
  ParseRequest "HELLO" [] = Critical ArrayOutOfRange.
Proof. split; reflexivity. Qed.

Lemma malformed_request_gets_no_error_reply_witness :
  ProcessClient (T := list string) (mkServers None None []) []
                (mkClient 7 true "HELLO") false = Critical ArrayOutOfRange /\
  exists r,
    ParseRequest "HELLO" [""] = Done r /\
    command r = "F999" /\ subCommand r = "1" /\
    ProcessClient_response (T := list string) [] r =
      Done ([], error_reply "F999" "UNKNOWN_REQUEST").
Proof.
  destruct (malformed_request_gets_no_error_reply (T := list string)
              (mkServers None None []) [] (mkClient 7 true "HELLO") false [""])
    as [Hcrash Hroom]; [discriminate | reflexivity |].
  split; [exact Hcrash | apply Hroom; discriminate].
Defined.

Lemma malformed_request_stops_expert_witness :
  exists e1,
    timer_event demo_expert (rest_request 7 "HELLO") = (e1, []) /\
    halted e1 = Some ArrayOutOfRange /\
    timer_event e1 (rest_request 8 "F000^1^") = (e1, []).
Proof.
  apply malformed_request_stops_expert.
  - reflexivity.
  - cbn. eauto.
  - discriminate.
  - reflexivity.
Defined.

End MqlProps.

(* ===================================================================== *)
(** * Part IV: properties of the streaming receiver                       *)
(* ===================================================================== *)

Module StreamerProps.
Import Streamer.

Section Props.

Context {Float Callback Kwargs Json Websocket : Type}.
Context `{!EqDecision Websocket} `{!Countable Websocket} `{!Codec Json Callback}.

Abbreviation streamer :=
  (MetaTrader5Streamer (Float := Float) (Callback := Callback)
     (Kwargs := Kwargs) (Websocket := Websocket)).
Abbreviation tasks_t := (gmap string (@task_info Float Callback Kwargs)).

(** ** The task table *)

Lemma create_one_present req_id interval callback kwargs (tasks : tasks_t) symbol :
  is_Some (tasks !! task_id symbol req_id) ->
  create_one req_id interval callback kwargs tasks symbol = tasks.
Proof. intros [info Hinfo]. unfold create_one. cbv zeta. now rewrite Hinfo. Qed.

Lemma create_one_lookup_old req_id interval callback kwargs (tasks : tasks_t)
    symbol key info :
  tasks !! key = Some info ->
  create_one req_id interval callback kwargs tasks symbol !! key = Some info.
Proof.
  intros Hkey. unfold create_one. cbv zeta.
  destruct (tasks !! task_id symbol req_id) eqn:Hid; [assumption |].
  rewrite lookup_insert_ne; [assumption |].
  intros Heq. rewrite Heq in Hid. congruence.
Qed.

Lemma create_one_lookup_own req_id interval callback kwargs (tasks : tasks_t) symbol :
  is_Some (create_one req_id interval callback kwargs tasks symbol
             !! task_id symbol req_id).
Proof.
  unfold create_one. cbv zeta.
  destruct (tasks !! task_id symbol req_id) eqn:Hid.
  - rewrite Hid. eauto.
  - rewrite lookup_insert_eq. eauto.
Qed.

Lemma create_fold_lookup_old req_id interval callback kwargs symbols :
  forall (tasks : tasks_t) key info,
    tasks !! key = Some info ->
    foldl (create_one req_id interval callback kwargs) tasks symbols !! key = Some info.
Proof.
  induction symbols as [|symbol rest IH]; intros tasks key info Hkey; cbn [foldl].
  - assumption.
  - apply IH. now apply create_one_lookup_old.
Qed.

Lemma create_fold_present req_id interval callback kwargs symbols :
  forall tasks : tasks_t,
    Forall (fun symbol => is_Some (tasks !! task_id symbol req_id)) symbols ->
    foldl (create_one req_id interval callback kwargs) tasks symbols = tasks.
Proof.
  induction symbols as [|symbol rest IH]; intros tasks Hall; cbn [foldl].
  - reflexivity.
  - inversion Hall as [|? ? Hsym Hrest]; subst.
    rewrite create_one_present by assumption. now apply IH.
Qed.

Lemma create_fold_covers req_id interval callback kwargs symbols :
  forall tasks : tasks_t,
    Forall (fun symbol =>
              is_Some (foldl (create_one req_id interval callback kwargs) tasks symbols
                         !! task_id symbol req_id))
           symbols.
Proof.
  induction symbols as [|symbol rest IH]; intros tasks; cbn [foldl].
  - constructor.
  - constructor; [| apply IH].
    destruct (create_one_lookup_own req_id interval callback kwargs tasks symbol)
      as [info Hinfo].
    rewrite (create_fold_lookup_old _ _ _ _ rest _ _ _ Hinfo). eauto.
Qed.

Lemma one_entry_per_key (entries : list (string * @task_info Float Callback Kwargs))
    key info :
  NoDup (entries.*1) ->
  (key, info) ∈ entries ->
  length (filter (fun entry => fst entry = key) entries) = 1%nat.
Proof.
  induction entries as [|[k v] rest IH]; intros Hnodup Hin.
  - inversion Hin.
  - cbn [fmap list_fmap fst] in Hnodup. apply NoDup_cons in Hnodup as [Hfresh Hrest].
    apply elem_of_cons in Hin as [Hhead | Htail].
    + inversion Hhead; subst k v.
      rewrite filter_cons_True by reflexivity. cbn [length]. f_equal.
      destruct (filter (fun entry => fst entry = key) rest) as [|[k' v'] others] eqn:Hf;
        [reflexivity |].
      exfalso. apply Hfresh.
      assert ((k', v') ∈ filter (fun entry => fst entry = key) rest) as Hin'
        by (rewrite Hf; left).
      apply list_elem_of_filter in Hin' as [Hk' Hin']. cbn in Hk'. subst k'.
      apply list_elem_of_fmap. exists (key, v'). auto.
    + assert (k <> key) as Hne.
      { intros ->. apply Hfresh. apply list_elem_of_fmap. exists (key, info). auto. }
      rewrite filter_cons_False by (cbn; congruence). now apply IH.
Qed.

Lemma entries_for_present (tasks : tasks_t) key :
  is_Some (tasks !! key) -> entries_for tasks key = 1%nat.
Proof.
  intros [info Hinfo]. unfold entries_for.
  apply one_entry_per_key with (info := info).
  - apply NoDup_fst_map_to_list.
  - now apply elem_of_map_to_list.
Qed.

Lemma stream_tasks_set (self : streamer) tasks :
  stream_tasks (set_stream_tasks self tasks) = tasks.
Proof. reflexivity. Qed.

Lemma set_stream_tasks_twice (self : streamer) tasks tasks' :
  set_stream_tasks (set_stream_tasks self tasks) tasks' = set_stream_tasks self tasks'.
Proof. reflexivity. Qed.

(** C8: after [create_streaming_task], the table holds exactly one entry
    under the key of every symbol of the list, and a second call with the
    same arguments changes nothing. *)
Theorem create_streaming_task_twice (self : streamer) req_id symbols interval
    callback kwargs :
  let once := create_streaming_task self req_id symbols interval callback kwargs in
  let twice := create_streaming_task once req_id symbols interval callback kwargs in
  twice = once /\
  Forall (fun symbol => entries_for (stream_tasks twice) (task_id symbol req_id) = 1%nat)
         symbols.
Proof.
  cbv zeta. unfold create_streaming_task.
  rewrite stream_tasks_set, set_stream_tasks_twice.
  rewrite create_fold_present by apply create_fold_covers.
  split; [reflexivity |].
  rewrite stream_tasks_set.
  eapply Forall_impl; [apply create_fold_covers |].
  intros symbol. apply entries_for_present.
Qed.

(** C10: an entry that is in the task table when [create_streaming_task] is
    called is still there afterwards with its interval, callback and kwargs,
    whatever the arguments of the call. *)
Theorem create_streaming_task_keeps_entry (self : streamer) req_id symbols interval
    callback kwargs key info :
  stream_tasks self !! key = Some info ->
  stream_tasks (create_streaming_task self req_id symbols interval callback kwargs)
    !! key = Some info.
Proof.
  intros Hkey. unfold create_streaming_task. rewrite stream_tasks_set.
  now apply create_fold_lookup_old.
Qed.

(** ** Stopping *)

Lemma stop_again (self s1 : streamer) (ends ends' : bool) :
  stop self ends = Ended (Returns s1) -> stop s1 ends' = Ended (Returns s1).
Proof.
  destruct self as [h cp wp cb si us uw dbg bs tasks th sock ev ws cl].
  unfold stop.
  destruct us, uw, th as [[| |]|], ws as [w|], ends; cbn;
    intros Hs; inversion Hs; subst; reflexivity.
Qed.

Lemma stop_fresh h cp wp (cb : option Callback) (si : Float) us uw dbg ends :
  exists s1 : streamer, stop (init h cp wp cb si us uw dbg) ends = Ended (Returns s1).
Proof. unfold init, stop. destruct us, uw; cbn; eauto. Qed.

(** C9: [stop] on a streamer that was just constructed returns without
    raising, and whenever a call of [stop] has returned, a second call
    returns as well, without raising, and leaves the state as the first call
    left it. *)
Theorem stop_idempotent_and_safe_before_start :
  (forall h cp wp (cb : option Callback) (si : Float) us uw dbg ends ends',
     exists s1 : streamer,
       stop (init h cp wp cb si us uw dbg) ends = Ended (Returns s1) /\
       stop s1 ends' = Ended (Returns s1)) /\
  (forall (self s1 : streamer) ends ends',
     stop self ends = Ended (Returns s1) -> stop s1 ends' = Ended (Returns s1)).
Proof.
  split.
  - intros h cp wp cb si us uw dbg ends ends'.
    destruct (stop_fresh h cp wp cb si us uw dbg ends) as [s1 Hs1].
    exists s1. split; [assumption |]. eapply stop_again. exact Hs1.
  - apply stop_again.
Qed.

(** ** Starting *)

Lemma loop_step_keeps (self : streamer) ev :
  stream_thread (loop_step self ev) = stream_thread self /\
  ws_server (loop_step self ev) = ws_server self /\
  use_websockets (loop_step self ev) = use_websockets self.
Proof.
  destruct ev as [ws | ws text | ws]; cbn; auto.
  unfold ws_handler_exit. destruct (decide _); cbn; auto.
Qed.

Lemma run_forever_runs fuel :
  forall (self : streamer) events,
    exists now,
      run_forever fuel false self events = Running now /\
      stream_thread now = stream_thread self /\
      ws_server now = ws_server self.
Proof.
  induction fuel as [|fuel IH]; intros self events; cbn [run_forever].
  - eauto.
  - destruct events as [|ev rest].
    + apply IH.
    + destruct (IH (loop_step self ev) rest) as (now & Hrun & Hth & Hws).
      destruct (loop_step_keeps self ev) as (Hth' & Hws' & _).
      exists now. rewrite Hrun. repeat split; congruence.
Qed.

(** C6, as amended: without the WebSocket transport [start] starts the
    streaming thread and returns; with it (the default) [start] starts the
    streaming thread, creates the server and runs the event loop in the
    caller's thread, where it is still running after any number of
    iterations. *)
Theorem start_returns_only_without_websockets (self : streamer) fuel ws_bind_ok events :
  (use_websockets self = false ->
   start fuel self true ws_bind_ok events =
   Ended (Returns (set_stream_thread self (Some ThreadAlive)))) /\
  (use_websockets self = true ->
   exists now,
     start fuel self true true events = Running now /\
     stream_thread now = Some ThreadAlive /\
     ws_server now = Some (mkServe (host self) (ws_port self))).
Proof.
  split; intros Huw; unfold start; cbn [set_stream_thread use_websockets];
    rewrite Huw.
  - reflexivity.
  - unfold _start_ws_server.
    match goal with
    | |- context [run_forever fuel false ?s events] =>
        destruct (run_forever_runs fuel s events) as (now & Hrun & Hth & Hws)
    end.
    exists now. repeat split; assumption.
Qed.

(** ** Frames and subscribers *)

Lemma caught_actions (self : streamer) acts e :
  Forall (not_delivered self) acts ->
  Forall (not_delivered self) (caught (Callback := Callback) (Websocket := Websocket) acts e).1.
Proof.
  intros Hacts. destruct e as [| errno |]; cbn; [| destruct (errno =? 10035)%Z |];
    exact Hacts.
Qed.

Lemma stream_socket_turn_actions (self : streamer) r :
  Forall (not_delivered self) (stream_socket_turn self r).1.
Proof.
  destruct r as [| addr data | errno |]; cbn [stream_socket_turn].
  - constructor.
  - destruct (String.eqb data ""); [repeat constructor |].
    destruct (utf8_decode data) as [text|]; [| apply caught_actions; constructor].
    destruct (json_loads (remove_nul text)) as [j | e].
    + destruct (add_time_human j) as [j' | e]; [| apply caught_actions; constructor].
      destruct (json_dumps j') as [out | e]; [| apply caught_actions; constructor].
      destruct (callback self) as [cb|] eqn:Hcb; [| constructor].
      destruct (callback_call cb out) as [u | e].
      * repeat constructor. exact Hcb.
      * apply caught_actions. repeat constructor. exact Hcb.
    + destruct e as [| errno |]; [repeat constructor | |];
        apply caught_actions; constructor.
  - apply caught_actions. constructor.
  - apply caught_actions. constructor.
Qed.

Lemma stream_socket_loop_actions (self : streamer) turns :
  Forall (not_delivered self) (stream_socket_loop self turns).1.
Proof.
  induction turns as [|t rest IH]; cbn [stream_socket_loop].
  - constructor.
  - destruct (stop_is_set t); [constructor |].
    pose proof (stream_socket_turn_actions self (ready t)) as Hturn.
    destruct (stream_socket_turn self (ready t)) as [acts [|e]]; cbn in Hturn.
    + destruct (stream_socket_loop self rest) as [acts' e'].
      cbn in *. now apply Forall_app.
    + exact Hturn.
Qed.

Lemma stream_socket_actions (self : streamer) bind_ok turns :
  Forall (not_delivered self) (actions_of (_stream_socket self bind_ok turns)).
Proof.
  unfold actions_of, _stream_socket. destruct bind_ok; [| constructor].
  pose proof (stream_socket_loop_actions (set_stream_socket self SocketListening) turns)
    as Hloop.
  destruct (stream_socket_loop _ turns) as [acts e]. exact Hloop.
Qed.

(** A frame that decodes, parses and is stamped and rendered is handed to
    the callback. *)
Lemma stream_socket_turn_frame (self : streamer) addr data text j j' out cb :
  data <> "" ->
  utf8_decode data = Some text ->
  json_loads (remove_nul text) = Value j ->
  add_time_human j = Value j' ->
  json_dumps j' = Value out ->
  callback self = Some cb ->
  fst (stream_socket_turn self (Accepted addr data)) = [Called cb out].
Proof.
  intros Hdata Hdec Hloads Hstamp Hout Hcb. cbn [stream_socket_turn].
  apply String.eqb_neq in Hdata. rewrite Hdata, Hdec, Hloads, Hstamp, Hout, Hcb.
  destruct (callback_call cb out) as [u | e]; [reflexivity |].
  destruct e as [| errno |]; cbn; [| destruct (errno =? 10035)%Z |]; reflexivity.
Qed.

(** ** The polling loop and the callers *)

Lemma create_fold_grows req_id interval callback kwargs symbols (tasks : tasks_t) symbol :
  symbol ∈ symbols ->
  tasks !! task_id symbol req_id = None ->
  size tasks < size (foldl (create_one req_id interval callback kwargs) tasks symbols).
Proof.
  intros Hin Hnone. apply map_subset_size, map_subset_alt. split.
  - apply map_subseteq_spec. intros key info. apply create_fold_lookup_old.
  - exists (task_id symbol req_id). split; [exact Hnone |].
    pose proof (create_fold_covers req_id interval callback kwargs symbols tasks)
      as Hall.
    rewrite Forall_forall in Hall. now apply Hall.
Qed.

Lemma stop_one_subseteq req_id (tasks : tasks_t) symbol :
  stop_one req_id tasks symbol ⊆ tasks.
Proof.
  unfold stop_one. cbv zeta.
  destruct (tasks !! task_id symbol req_id); [apply delete_subseteq | reflexivity].
Qed.

Lemma stop_fold_subseteq req_id symbols :
  forall tasks : tasks_t, foldl (stop_one req_id) tasks symbols ⊆ tasks.
Proof.
  induction symbols as [|symbol rest IH]; intros tasks; cbn [foldl]; [reflexivity |].
  etrans; [apply IH | apply stop_one_subseteq].
Qed.

Lemma stop_fold_shrinks req_id symbols (tasks : tasks_t) symbol :
  symbol ∈ symbols ->
  is_Some (tasks !! task_id symbol req_id) ->
  size (foldl (stop_one req_id) tasks symbols) < size tasks.
Proof.
  intros Hin Hsome. apply map_subset_size, map_subset_alt.
  split; [apply stop_fold_subseteq |].
  exists (task_id symbol req_id). split; [| exact Hsome].
  clear Hsome. revert tasks.
  induction symbols as [|s0 rest IH]; intros tasks; [inversion Hin |].
  cbn [foldl]. destruct (decide (symbol = s0)) as [-> | Hne].
  - eapply lookup_weaken_None; [| apply stop_fold_subseteq].
    unfold stop_one. cbv zeta.
    destruct (tasks !! task_id s0 req_id) eqn:Hid; [apply lookup_delete_eq | exact Hid].
  - apply elem_of_cons in Hin as [? | Hin]; [contradiction |]. now apply IH.
Qed.

Lemma poll_run_returned (self : streamer) critical events :
  snd (poll_run (self, ThreadReturned critical) events) = ThreadReturned critical.
Proof.
  revert self. induction events as [|ev rest IH]; intros self; [reflexivity |].
  unfold poll_run in *. cbn [foldl].
  destruct ev; cbn [poll_step]; apply IH.
Qed.

Lemma next_item_changed (self : streamer) orig_len next :
  size (stream_tasks self) <> orig_len ->
  next_item self orig_len next = Some (ThreadReturned (Some RuntimeError)).
Proof.
  intros Hsize. unfold next_item. apply Nat.eqb_neq in Hsize. now rewrite Hsize.
Qed.

Lemma task_goes_on_fails (self : streamer) e :
  task_goes_on self (Fails e) = false.
Proof. unfold task_goes_on. now destruct (stream_stop_event self). Qed.

(** C7 is violated: the table is changed without mutual exclusion with the
    loop that iterates over it.  While [_stream_data] runs for a task of the
    table, a call of [create_streaming_task] that adds an entry, or of
    [stop_streaming_task] that removes one, goes through; when the task then
    ends because its callback raises, the [for] statement takes the next
    item of a dictionary that has changed size: the iterator raises, the
    streaming thread returns through its handler for critical errors, and no
    task is polled any more, whatever happens later.  With the table left
    alone the same step goes on to the next task. *)
Theorem table_change_during_task_ends_polling (self : streamer) (orig_len : nat)
    (running : string) (task : task_info) req_id symbols symbol interval cb kwargs
    (e : raised) (next : option string) (events : list poll_event) :
  size (stream_tasks self) = orig_len ->
  symbol ∈ symbols ->
  (stream_tasks self !! task_id symbol req_id = None ->
   snd (poll_run (self, InTask orig_len running task)
          (Subscribe req_id symbols interval cb kwargs :: TaskTurn (Fails e) next
           :: events))
   = ThreadReturned (Some RuntimeError)) /\
  (is_Some (stream_tasks self !! task_id symbol req_id) ->
   snd (poll_run (self, InTask orig_len running task)
          (Unsubscribe req_id symbols :: TaskTurn (Fails e) next :: events))
   = ThreadReturned (Some RuntimeError)) /\
  (forall task_id' task',
     stream_tasks self !! task_id' = Some task' ->
     poll_step (self, InTask orig_len running task) (TaskTurn (Fails e) (Some task_id'))
     = (self, InTask orig_len task_id' task')).
Proof.
  intros Hsize Hin. split; [| split].
  - intros Hnone. unfold poll_run. cbn [foldl poll_step].
    rewrite task_goes_on_fails, next_item_changed.
    + apply poll_run_returned.
    + unfold create_streaming_task. rewrite stream_tasks_set.
      pose proof (create_fold_grows req_id interval cb kwargs symbols
                    (stream_tasks self) symbol Hin Hnone).
      lia.
  - intros Hsome. unfold poll_run. cbn [foldl poll_step].
    rewrite task_goes_on_fails, next_item_changed.
    + apply poll_run_returned.
    + unfold stop_streaming_task. rewrite stream_tasks_set.
      pose proof (stop_fold_shrinks req_id symbols (stream_tasks self) symbol Hin Hsome).
      lia.
  - intros task_id' task' Hnext. cbn [poll_step].
    rewrite task_goes_on_fails. unfold next_item.
    apply Nat.eqb_eq in Hsize. rewrite Hsize, Hnext. reflexivity.
Qed.

(** C5 is violated: with subscribers in the set of connected clients, a
    frame that is received and parsed on the streaming socket is delivered
    to none of them.  It is handed to the registered callback and to nothing
    else: every action of the streaming socket is a call of that callback or
    the closing of a connection, and the set of connected clients is left as
    it is.  The set is kept by [ws_handler], which adds a subscriber when
    its connection opens and removes that subscriber, and no other, when it
    closes; nothing reads it. *)
Theorem frames_go_to_callback_only (self : streamer) bind_ok turns ws
    addr data text j j' out cb :
  (data <> "" ->
   utf8_decode data = Some text ->
   json_loads (remove_nul text) = Value j ->
   add_time_human j = Value j' ->
   json_dumps j' = Value out ->
   callback self = Some cb ->
   fst (stream_socket_turn self (Accepted addr data)) = [Called cb out]) /\
  (forall subscriber sent,
     subscriber ∈ connected_clients self ->
     Delivered subscriber sent ∉ actions_of (_stream_socket self bind_ok turns)) /\
  Forall (not_delivered self) (actions_of (_stream_socket self bind_ok turns)) /\
  connected_clients (state_of (_stream_socket self bind_ok turns)) =
    connected_clients self /\
  connected_clients (loop_step self (Opened ws)) = {[ws]} ∪ connected_clients self /\
  connected_clients (loop_step self (Closed ws)) = connected_clients self ∖ {[ws]}.
Proof.
  split; [apply stream_socket_turn_frame |].
  split; [| split; [apply stream_socket_actions |]].
  - intros subscriber sent _ Hin.
    pose proof (stream_socket_actions self bind_ok turns) as Hall.
    rewrite Forall_forall in Hall. exact (Hall _ Hin).
  - unfold state_of. split; [| split].
    + unfold _stream_socket. destruct bind_ok; [| reflexivity].
      destruct (stream_socket_loop _ turns) as [acts e]. reflexivity.
    + reflexivity.
    + cbn. unfold ws_handler_exit.
      destruct (decide (ws ∈ connected_clients self)) as [Hin | Hout]; cbn.
      * reflexivity.
      * symmetry. apply difference_disjoint_L. now apply disjoint_singleton_r.
Qed.

End Props.

(** ** On the default streamer *)

Example stop_default :
  stop default_streamer false =
  Ended (Returns (set_stream_socket (set_stream_stop_event default_streamer true)
                    SocketClosed)).
Proof. reflexivity. Qed.

(** [stop] after [start], while the streaming thread is alive. *)
Example stop_started :
  let started := set_stream_thread socket_only_streamer (Some ThreadAlive) in
  stop started true =
    Ended (Returns (set_stream_thread
                      (set_stream_socket (set_stream_stop_event started true) SocketClosed)
                      (Some ThreadFinished))) /\
  stop started false =
    Running (set_stream_socket (set_stream_stop_event started true) SocketClosed).
Proof. split; reflexivity. Qed.

Lemma stop_idempotent_and_safe_before_start_witness :
  exists s1,
    stop default_streamer false = Ended (Returns s1) /\
    stop s1 false = Ended (Returns s1).
Proof.
  eexists. split; [reflexivity |].
  apply (proj2 stop_idempotent_and_safe_before_start default_streamer _ false false).
  reflexivity.
Defined.

Example create_streaming_task_twice_default :
  let once :=
    create_streaming_task default_streamer "r1" ["EURUSD"; "GBPUSD"; "EURUSD"]
                          (1, 1)%Z 3 [] in
  let twice :=
    create_streaming_task once "r1" ["EURUSD"; "GBPUSD"; "EURUSD"] (1, 1)%Z 3 [] in
  twice = once /\
  entries_for (stream_tasks twice) "EURUSD-r1" = 1%nat /\
  entries_for (stream_tasks twice) "GBPUSD-r1" = 1%nat /\
  size (stream_tasks twice) = 2%nat.
Proof. cbv zeta. repeat split; vm_compute; reflexivity. Qed.

Lemma create_streaming_task_keeps_entry_witness :
  let first := create_streaming_task default_streamer "r1" ["EURUSD"] (1, 1)%Z 3 [] in
  stream_tasks
    (create_streaming_task first "r1" ["EURUSD"] (5, 1)%Z 9 [("depth", "2")])
    !! "EURUSD-r1" = Some ("EURUSD", (1, 1)%Z, 3, []).
Proof.
  apply create_streaming_task_keeps_entry. vm_compute. reflexivity.
Defined.

Lemma start_returns_only_without_websockets_witness :
  start 100 socket_only_streamer true true [] =
  Ended (Returns (set_stream_thread socket_only_streamer (Some ThreadAlive))) /\
  exists now,
    start 100 default_streamer true true [Opened 1] = Running now /\
    stream_thread now = Some ThreadAlive /\
    ws_server now = Some (mkServe "127.0.0.1" 15558).
Proof.
  split.
  - apply (proj1 (start_returns_only_without_websockets socket_only_streamer
                    100 true [])).
    reflexivity.
  - apply (proj2 (start_returns_only_without_websockets default_streamer
                    100 true [Opened 1])).
    reflexivity.
Defined.

Lemma frames_go_to_callback_only_witness :
  let self := ws_handler_enter (set_callback default_streamer (Some 4)) 1 in
  use_websockets self = true /\
  1 ∈ connected_clients self /\
  fst (stream_socket_turn self (Accepted "peer" "{}")) = [Called 4 "{}"] /\
  (Delivered 1 "{}" ∉
     actions_of (_stream_socket self true [mkTurn false (Accepted "peer" "{}")])) /\
  connected_clients (loop_step self (Closed 1)) = connected_clients self ∖ {[1]}.
Proof.
  cbv zeta.
  assert (1 ∈ connected_clients
                (ws_handler_enter (set_callback default_streamer (Some 4)) 1))
    as Hin by (cbn; apply elem_of_union_l, elem_of_singleton; reflexivity).
  pose proof (frames_go_to_callback_only
                (ws_handler_enter (set_callback default_streamer (Some 4)) 1)
                true [mkTurn false (Accepted "peer" "{}")] 1
                "peer" "{}" "{}" "{}" "{}" "{}" 4)
    as (Hframe & Hnone & _ & _ & _ & Hclosed).
  split; [reflexivity |]. split; [exact Hin |]. split; [| split].
  - apply Hframe; try reflexivity. discriminate.
  - apply Hnone. exact Hin.
  - exact Hclosed.
Defined.

(** The polling thread reaches its first task, and a subscription made
    during that task ends the thread when the task ends, with the stop event
    unset throughout. *)
Example polling_reaches_first_task :
  let self := create_streaming_task polling_streamer "r1" ["EURUSD"] (1, 1)%Z 3 [] in
  poll_run (poll_start self) [LoopTest (Some "EURUSD-r1"); TaskTurn (Value "tick") None]
  = (self, InTask 1 "EURUSD-r1" ("EURUSD", (1, 1)%Z, 3, [])) /\
  stream_stop_event self = false.
Proof. cbv zeta. split; vm_compute; reflexivity. Qed.

Lemma table_change_during_task_ends_polling_witness :
  let self := create_streaming_task polling_streamer "r1" ["EURUSD"] (1, 1)%Z 3 [] in
  let task := ("EURUSD", (1, 1)%Z, 3, []) in
  snd (poll_run (self, InTask 1 "EURUSD-r1" task)
         [Subscribe "r1" ["GBPUSD"] (1, 1)%Z 3 [];
          TaskTurn (Fails OtherException) (Some "GBPUSD-r1");
          LoopTest (Some "EURUSD-r1")])
  = ThreadReturned (Some RuntimeError) /\
  snd (poll_run (self, InTask 1 "EURUSD-r1" task)
         [Unsubscribe "r1" ["EURUSD"]; TaskTurn (Fails OtherException) None;
          LoopTest None])
  = ThreadReturned (Some RuntimeError) /\
  poll_step (self, InTask 1 "EURUSD-r1" task)
            (TaskTurn (Fails OtherException) (Some "EURUSD-r1"))
  = (self, InTask 1 "EURUSD-r1" task).
Proof.
  cbv zeta.
  set (self := create_streaming_task polling_streamer "r1" ["EURUSD"] (1, 1)%Z 3 []).
  assert (size (stream_tasks self) = 1) as Hsize by (vm_compute; reflexivity).
  split; [| split].
  - apply (proj1 (table_change_during_task_ends_polling self 1 "EURUSD-r1"
                    ("EURUSD", (1, 1)%Z, 3, []) "r1" ["GBPUSD"] "GBPUSD" (1, 1)%Z 3 []
                    OtherException (Some "GBPUSD-r1") [LoopTest (Some "EURUSD-r1")]
                    Hsize ltac:(now left))).
    vm_compute. reflexivity.
  - apply (proj1 (proj2 (table_change_during_task_ends_polling self 1 "EURUSD-r1"
                    ("EURUSD", (1, 1)%Z, 3, []) "r1" ["EURUSD"] "EURUSD" (1, 1)%Z 3 []
                    OtherException None [LoopTest None]
                    Hsize ltac:(now left)))).
    vm_compute. eauto.
  - apply (proj2 (proj2 (table_change_during_task_ends_polling self 1 "EURUSD-r1"
                    ("EURUSD", (1, 1)%Z, 3, []) "r1" ["EURUSD"] "EURUSD" (1, 1)%Z 3 []
                    OtherException None []
                    Hsize ltac:(now left)))).
    vm_compute. reflexivity.
Defined.

(** C6, as stated, fails for the default configuration: however many
    iterations of the event loop are evaluated, [start] has not returned. *)
Lemma start_default_does_not_return :
  use_websockets default_streamer = true /\
  ~ (exists fuel r, start fuel default_streamer true true [] = Ended r).
Proof.
  split; [reflexivity |].
  intros (fuel & r & Hstart). unfold start in Hstart.
  cbn [set_stream_thread use_websockets default_streamer init_default init] in Hstart.
  unfold _start_ws_server in Hstart.
  match type of Hstart with
  | context [run_forever fuel false ?s []] =>
      destruct (run_forever_runs fuel s []) as (now & Hrun & _)
  end.
  cbn in Hstart, Hrun. rewrite Hrun in Hstart. discriminate.
Qed.

(** On the default streamer with a callback and one subscriber connected:
    the whole run on one frame is the call of the callback. *)
Example frame_not_delivered_to_subscriber :
  let self := ws_handler_enter (set_callback default_streamer (Some 4)) 1 in
  actions_of (_stream_socket self true [mkTurn false (Accepted "peer" "{}")]) =
    [Called 4 "{}"].
Proof. reflexivity. Qed.

End StreamerProps.

(* ===================================================================== *)
(** * Part V: further properties of the terminal side                     *)
(* ===================================================================== *)

Module MqlExtraProps.
Import Mql MqlExtra.

(** ** Splitting and joining *)

Lemma StringJoin_push (c : ascii) (f : string) (rest : list string) (d : string) :
  StringJoin (String c f :: rest) d = String c (StringJoin (f :: rest) d).
Proof.
  destruct rest as [|y rest'].
  - reflexivity.
  - rewrite !MqlProps.StringJoin_cons. reflexivity.
Qed.

Lemma StringJoin_fields (sep : ascii) (s : string) :
  StringJoin (fields sep s) (String sep "") = s.
Proof.
  unfold fields. induction s as [|c s IH]; [reflexivity |].
  cbn [split_fields]. destruct (split_fields sep s) as [f fs].
  destruct (Ascii.eqb c sep) eqn:Hc.
  - apply Ascii.eqb_eq in Hc. subst c.
    rewrite MqlProps.StringJoin_cons, IH. reflexivity.
  - rewrite StringJoin_push, IH. reflexivity.
Qed.

(** X1: joining the substrings that [StringSplit] yields, with the same
    separator, gives the string back, whatever the string. *)
Theorem StringJoin_StringSplit (s : string) (sep : ascii) :
  StringJoin (StringSplit s sep) (String sep "") = s.
Proof.
  destruct s as [|c s]; [reflexivity |].
  unfold StringSplit. apply StringJoin_fields.
Qed.

Lemma fields_cons (sep : ascii) (s : string) :
  exists f fs, fields sep s = f :: fs.
Proof. unfold fields. destruct (split_fields sep s) as [f fs]. eauto. Qed.

Lemma fields_String (sep c : ascii) (s f : string) (fs : list string) :
  fields sep s = f :: fs ->
  fields sep (String c s) =
  if Ascii.eqb c sep then "" :: f :: fs else String c f :: fs.
Proof.
  unfold fields. cbn [split_fields].
  destruct (split_fields sep s) as [f' fs']. intros Heq. inversion Heq; subst.
  destruct (Ascii.eqb c sep); reflexivity.
Qed.

Lemma fields_append (sep : ascii) (a rest : string) :
  fields sep (a +:+ String sep rest) = fields sep a ++ fields sep rest.
Proof.
  induction a as [|c a IH].
  - rewrite MqlProps.append_nil_l.
    destruct (fields_cons sep rest) as (f & fs & Hrest).
    rewrite (fields_String sep sep rest f fs Hrest), Ascii.eqb_refl, Hrest.
    reflexivity.
  - rewrite MqlProps.append_cons.
    destruct (fields_cons sep a) as (f & fs & Ha).
    rewrite (fields_String sep c a f fs Ha).
    rewrite (fields_String sep c (a +:+ String sep rest) f (fs ++ fields sep rest))
      by (rewrite IH, Ha; reflexivity).
    destruct (Ascii.eqb c sep); reflexivity.
Qed.

Lemma fields_StringJoin_general (sep : ascii) (ps : list string) :
  ps <> [] ->
  fields sep (StringJoin ps (String sep "")) = flat_map (fields sep) ps.
Proof.
  induction ps as [|x rest IH]; [congruence |]. intros _.
  destruct rest as [|y rest'].
  - rewrite MqlProps.StringJoin_one. cbn [flat_map]. now rewrite app_nil_r.
  - rewrite MqlProps.StringJoin_cons, MqlProps.append_cons, MqlProps.append_nil_l.
    rewrite fields_append, IH by congruence. reflexivity.
Qed.

Lemma StringSplit_MakeMessage_general (c s : string) (ps : list string) :
  StringSplit (MakeMessage c s ps) "^" =
  fields "^" c ++ fields "^" s ++ fields "^" (StringJoin ps "^").
Proof.
  rewrite MqlProps.MakeMessage_shape, MqlProps.StringSplit_app.
  now rewrite !fields_append.
Qed.

(** X2: the codec has no escaping.  For a command code and a sub code
    without caret and a parameter list that is not empty, the decoder reads
    back the fields of all the parameters: a parameter with n carets comes
    back as n + 1 parameters. *)
Theorem ParseRequest_MakeMessage_splits (c s : string) (ps p0 : list string) :
  occurs "^" c = false ->
  occurs "^" s = false ->
  ps <> [] ->
  ParseRequest (MakeMessage c s ps) p0 =
  Done (mkRequest c s (flat_map (fields "^") ps)).
Proof.
  intros Hc Hs Hne. apply MqlProps.ParseRequest_parts.
  rewrite StringSplit_MakeMessage_general.
  rewrite (MqlProps.fields_free "^" c Hc), (MqlProps.fields_free "^" s Hs).
  rewrite (fields_StringJoin_general "^" ps Hne). reflexivity.
Qed.

Lemma ParseRequest_MakeMessage_splits_witness :
  ParseRequest (MakeMessage "F061" "1" ["7$EURUSD$a^b"; "8$GBPUSD$"]) [] =
  Done (mkRequest "F061" "1" ["7$EURUSD$a"; "b"; "8$GBPUSD$"]).
Proof.
  apply (ParseRequest_MakeMessage_splits "F061" "1" ["7$EURUSD$a^b"; "8$GBPUSD$"] []).
  - reflexivity.
  - reflexivity.
  - discriminate.
Defined.

(** X3: whatever the command code, the sub code and the parameters are, the
    message that [MakeMessage] builds is decoded without error, into a
    request with at least one parameter. *)
Theorem MakeMessage_is_decoded (c s : string) (ps p0 : list string) :
  exists r, ParseRequest (MakeMessage c s ps) p0 = Done r /\ parameters r <> [].
Proof.
  pose proof (StringSplit_MakeMessage_general c s ps) as Hparts.
  destruct (fields_cons "^" c) as (fc & fcs & Hc).
  destruct (fields_cons "^" s) as (fs & fss & Hs).
  destruct (fields_cons "^" (StringJoin ps "^")) as (fj & fjs & Hj).
  rewrite Hc, Hs, Hj in Hparts.
  destruct fcs as [|fc2 fcs].
  - cbn [app] in Hparts.
    eexists. split; [apply MqlProps.ParseRequest_parts; exact Hparts |].
    cbn [parameters]. destruct fss; discriminate.
  - cbn [app] in Hparts.
    eexists. split; [apply MqlProps.ParseRequest_parts; exact Hparts |].
    cbn [parameters]. destruct fcs; discriminate.
Qed.

Lemma StringJoin_three (c s p : string) (rest : list string) :
  StringJoin (c :: s :: p :: rest) "^" = MakeMessage c s (p :: rest).
Proof.
  rewrite MqlProps.MakeMessage_shape, !MqlProps.StringJoin_cons.
  rewrite !MqlProps.append_cons, !MqlProps.append_nil_l. reflexivity.
Qed.

(** X4: a request with at least three fields is decoded to a command code,
    a sub code and parameters from which [MakeMessage] builds the same
    request again; a request with exactly two fields comes back with a
    caret added at its end. *)
Theorem MakeMessage_ParseRequest (request : string) (p0 : list string) :
  (3 <= length (StringSplit request "^") ->
   exists r, ParseRequest request p0 = Done r /\
             MakeMessage (command r) (subCommand r) (parameters r) = request) /\
  (length (StringSplit request "^") = 2 ->
   exists r, ParseRequest request p0 = Done r /\
             MakeMessage (command r) (subCommand r) (parameters r) = request +:+ "^").
Proof.
  assert (StringJoin (StringSplit request "^") "^" = request) as Hjoin.
  { destruct request as [|c0 request0]; [reflexivity |].
    unfold StringSplit. apply StringJoin_fields. }
  split; intros Hlen.
  - destruct (StringSplit request "^") as [|c [|s [|p rest]]] eqn:Hparts;
      cbn in Hlen; try lia.
    exists (mkRequest c s (p :: rest)).
    split; [now apply MqlProps.ParseRequest_parts |].
    cbn [command subCommand parameters]. now rewrite <- StringJoin_three.
  - destruct (StringSplit request "^") as [|c [|s [|p rest]]] eqn:Hparts;
      cbn in Hlen; try lia.
    exists (mkRequest c s []).
    split; [now apply MqlProps.ParseRequest_parts |].
    cbn [command subCommand parameters]. rewrite <- Hjoin.
    rewrite MqlProps.StringJoin_cons, MqlProps.StringJoin_one.
    unfold MakeMessage. cbv zeta. rewrite MqlProps.StringJoin_nil.
    rewrite MqlProps.append_empty_r, !MqlProps.append_assoc. reflexivity.
Qed.

Lemma MakeMessage_ParseRequest_witness :
  (exists r, ParseRequest "F020^2^EURUSD^" [] = Done r /\
             MakeMessage (command r) (subCommand r) (parameters r) = "F020^2^EURUSD^") /\
  (exists r, ParseRequest "F003^2" [] = Done r /\
             MakeMessage (command r) (subCommand r) (parameters r) = "F003^2^").
Proof.
  split.
  - apply (proj1 (MakeMessage_ParseRequest "F020^2^EURUSD^" [])). vm_compute. lia.
  - apply (proj2 (MakeMessage_ParseRequest "F003^2" [])). reflexivity.
Defined.

Lemma StringSplit_with_caret (request : string) :
  occurs "^" request = true -> 2 <= length (StringSplit request "^").
Proof.
  intros Hocc. destruct request as [|c rest]; [discriminate |].
  unfold StringSplit. revert Hocc. generalize (String c rest). clear c rest.
  intros s. induction s as [|c s IH]; [discriminate |].
  cbn [occurs]. intros Hocc.
  destruct (fields_cons "^" s) as (f & fs & Hs).
  rewrite (fields_String "^" c s f fs Hs).
  destruct (Ascii.eqb c "^") eqn:Hc.
  - cbn. lia.
  - cbn [orb] in Hocc. specialize (IH Hocc). rewrite Hs in IH. cbn in *. lia.
Qed.

(** X5: given the empty array that [ProcessClient] passes, [ParseRequest]
    ends in the critical error exactly for the requests without a caret;
    every request with a caret is decoded. *)
Theorem ParseRequest_critical_iff (request : string) :
  ParseRequest request [] = Critical ArrayOutOfRange <-> occurs "^" request = false.
Proof.
  split.
  - intros Hcrit. destruct (occurs "^" request) eqn:Hocc; [| reflexivity].
    pose proof (StringSplit_with_caret request Hocc) as Hlen.
    destruct (StringSplit request "^") as [|c [|s ps]] eqn:Hparts; cbn in Hlen; try lia.
    rewrite (MqlProps.ParseRequest_parts request c s ps [] Hparts) in Hcrit.
    discriminate.
  - intros Hfree. now rewrite MqlProps.ParseRequest_caret_free.
Qed.

(** ** Requests and replies *)

Section ServerProps.

Context {T double : Type} `{!Terminal T double}.

Lemma chain_case_true (c k s v : string) :
  String.eqb c k && String.eqb s v = true -> c = k.
Proof. intros H. apply andb_true_iff in H as [H _]. now apply String.eqb_eq. Qed.

(** One test of the chain of [ProcessClient]: the branch taken, with the
    command it was taken for, and the rest of the chain. *)
Ltac chain_case :=
  match goal with
  | |- context [if String.eqb ?c ?k && String.eqb ?s ?v then _ else _] =>
      let Hc := fresh "Hcase" in
      destruct (String.eqb c k && String.eqb s v) eqn:Hc;
      [apply chain_case_true in Hc | clear Hc]
  end.

Lemma chain_case_both (c k s v : string) :
  String.eqb c k && String.eqb s v = true -> c = k /\ s = v.
Proof.
  intros H. apply andb_true_iff in H as [Hc Hs].
  split; now apply String.eqb_eq.
Qed.

(** The same, keeping both equations of the branch taken and the failed
    tests before it. *)
Ltac chain_test :=
  match goal with
  | |- context [if String.eqb ?c ?k && String.eqb ?s ?v then _ else _] =>
      let Hc := fresh "Htest" in
      destruct (String.eqb c k && String.eqb s v) eqn:Hc;
      [apply chain_case_both in Hc as [? ?] |]
  end.

Lemma ProcessClient_response_done (t : T) (c s p : string) (rest : list string) :
  exists t' response,
    ProcessClient_response t (mkRequest c s (p :: rest)) = Done (t', response).
Proof.
  unfold ProcessClient_response. cbv zeta. cbn [command subCommand parameters].
  repeat (chain_case; [cbn; try destruct (CheckMarketWatch t p);
                       try destruct (GetLastTickInfo t p); eauto |]).
  eauto.
Qed.

(** X6: a request for one of the four commands that take a symbol, sent
    with sub code "2" and without the symbol, ends in the critical error:
    [parameters[0]] is read from an array without elements. *)
Theorem symbol_request_without_symbol (g : Servers) (t : T) (client : ClientSocket)
    (onlyStream : bool) (command : string) :
  command ∈ ["F003"; "F004"; "F008"; "F020"] ->
  incoming client = command +:+ "^2" ->
  ProcessClient g t client onlyStream = Critical ArrayOutOfRange.
Proof.
  intros Hin Hreq. unfold ProcessClient. rewrite Hreq.
  repeat (apply elem_of_cons in Hin as [-> | Hin]; [reflexivity |]).
  inversion Hin.
Qed.

Lemma BroadcastStreamData_clients (g : Servers) (data : string) :
  BroadcastStreamData g data =
  map (fun c => Sent (peer c) data) (connected_streaming_clients g).
Proof.
  unfold BroadcastStreamData, connected_streaming_clients.
  induction (streamingClients g) as [|[c|] rest IH]; cbn; [reflexivity | | exact IH].
  destruct (IsSocketConnected c); cbn; now rewrite IH.
Qed.

(** X7: a request with at least three fields gets one response.  In the
    normal mode the response is sent once, to the client that sent the
    request.  In the stream-only mode it is sent to the streaming clients
    instead, one copy to each that is connected, in their order, and none to
    the client that sent the request; with no streaming client connected
    nothing is sent. *)
Theorem ProcessClient_reply_recipients (g : Servers) (t : T) (client : ClientSocket) :
  3 <= length (StringSplit (incoming client) "^") ->
  exists t' response,
    ProcessClient g t client false = Done (t', [Sent (peer client) response]) /\
    ProcessClient g t client true =
      Done (t', map (fun c => Sent (peer c) response) (connected_streaming_clients g)) /\
    (connected_streaming_clients g = [] ->
     ProcessClient g t client true = Done (t', [])).
Proof.
  intros Hlen. unfold ProcessClient. cbv zeta.
  destruct (incoming client) as [|ch request] eqn:Hreq; [cbn in Hlen; lia |].
  destruct (StringSplit (String ch request) "^") as [|c [|s [|p rest]]] eqn:Hparts;
    cbn in Hlen; try lia.
  cbn [String.length Nat.ltb Nat.leb].
  rewrite (MqlProps.ParseRequest_parts _ c s (p :: rest) [] Hparts).
  destruct (ProcessClient_response_done t c s p rest) as (t' & response & Hresp).
  exists t', response. cbn [mbind outcome_bind]. rewrite Hresp.
  split; [reflexivity |]. split.
  - rewrite <- BroadcastStreamData_clients. reflexivity.
  - intros Hnone.
    transitivity (Done (t', BroadcastStreamData g response) : outcome (T * list sent));
      [reflexivity |].
    now rewrite BroadcastStreamData_clients, Hnone.
Qed.

(** X8: answering a request leaves the terminal as it is, except for two
    commands.  F004 with sub code 2 selects the symbol given as first
    parameter into the market watch; F020 with sub code 2 selects its
    upper-case form, when the symbol has one. *)
Theorem ProcessClient_response_terminal (t t' : T) (r : Request) (response : string) :
  ProcessClient_response t r = Done (t', response) ->
  (command r = "F004" -> subCommand r = "2" ->
   exists symbol rest,
     parameters r = symbol :: rest /\ t' = fst (SymbolSelect t symbol true)) /\
  (command r = "F020" -> subCommand r = "2" ->
   exists symbol rest,
     parameters r = symbol :: rest /\
     t' = match StringToUpper symbol with
          | Some upper => fst (SymbolSelect t upper true)
          | None => t
          end) /\
  (~ (command r = "F004" /\ subCommand r = "2") ->
   ~ (command r = "F020" /\ subCommand r = "2") ->
   t' = t).
Proof.
  unfold ProcessClient_response. cbv zeta.
  repeat chain_test; intros Hd;
    try (destruct (parameters r) as [|p ps]; cbn in Hd; [discriminate |]);
    inversion Hd as [Hhandler]; clear Hd; (split; [| split]).
  all: try (intros; congruence).
  all: try (intros Hn4 Hn20; tauto).
  all: try (intros Hc Hs; exfalso;
            repeat match goal with
                   | H : (String.eqb _ _ && String.eqb _ _) = false |- _ => rewrite Hc, Hs in H; vm_compute in H;
                             first [discriminate H | clear H]
                   end; fail).
  - intros _ _. exists p, ps. split; [reflexivity |].
    unfold CheckMarketWatch in Hhandler.
    destruct (SymbolSelect t p true) as [t1 w]. now inversion Hhandler.
  - intros _ _. exists p, ps. split; [reflexivity |].
    unfold GetLastTickInfo in Hhandler. destruct (StringToUpper p) as [upper|].
    + destruct (SymbolSelect t upper true) as [t1 w].
      destruct (SymbolInfoTick t1 upper); now inversion Hhandler.
    + now inversion Hhandler.
Qed.

(** ** The server sockets *)

Lemma BroadcastStreamData_closed (clients : list (option ClientSocket)) (data : string) :
  BroadcastStreamData (mkServers None None (map (fun _ => None) clients)) data = [].
Proof.
  unfold BroadcastStreamData. cbn [streamingClients].
  induction clients as [|c rest IH]; [reflexivity | exact IH].
Qed.

(** X9: after [CloseServers] nothing is accepted, processed or broadcast
    any more, while the array of streaming clients keeps its size. *)
Theorem CloseServers_silences (g : Servers) (t : T) (a : Accepted) (onlyStream : bool)
    (data : string) :
  BroadcastStreamData (CloseServers g) data = [] /\
  AcceptClients (CloseServers g) t a onlyStream = Done (CloseServers g, t, []) /\
  length (streamingClients (CloseServers g)) = length (streamingClients g).
Proof.
  unfold CloseServers. split; [apply BroadcastStreamData_closed |].
  split; [reflexivity |]. cbn [streamingClients]. apply length_map.
Qed.


(** ** The tick handler of the expert *)

Lemma MakeMessage_not_empty (c s : string) (ps : list string) :
  String.eqb (MakeMessage c s ps) "" = false.
Proof.
  rewrite MqlProps.MakeMessage_shape. destruct c; reflexivity.
Qed.

Lemma GetLatestTick_not_empty (t : T) (symbol : string) :
  String.eqb (GetLatestTick t symbol) "" = false.
Proof.
  unfold GetLatestTick. destruct (SymbolInfoTick t symbol); apply MakeMessage_not_empty.
Qed.

Lemma GetLatestBar_not_empty (t : T) (symbol : string) (currentBarTime : Z) :
  String.eqb (GetLatestBar t symbol currentBarTime) "" = false.
Proof. unfold GetLatestBar. cbv zeta. apply MakeMessage_not_empty. Qed.

(** X11: [OnTick] broadcasts the latest tick on every call.  When the bar
    of the chart symbol is newer than [lastBarTime], it broadcasts the
    latest bar after the tick and sets [lastBarTime] to the time of that
    bar; otherwise only the tick is broadcast and [lastBarTime] stays.
    Servers and terminal are left alone.  A bar is announced once: on the
    next call, with the terminal unchanged, only the tick is broadcast. *)
Theorem OnTick_announces_bar_once (e : Expert) :
  let symbol := chart_symbol e in
  let tick := GetLatestTick (terminal e) symbol in
  let now := iTime (terminal e) symbol in
  let bar := GetLatestBar (terminal e) symbol now in
  let e1 := fst (OnTick e) in
  servers e1 = servers e /\
  terminal e1 = terminal e /\
  lastBarTime e1 = Z.max (lastBarTime e) now /\
  snd (OnTick e) =
    BroadcastStreamData (servers e) tick ++
    (if (lastBarTime e <? now)%Z then BroadcastStreamData (servers e) bar else []) /\
  snd (OnTick e1) = BroadcastStreamData (servers e) tick.
Proof.
  cbv zeta. unfold OnTick.
  rewrite GetLatestTick_not_empty, GetLatestBar_not_empty.
  destruct (lastBarTime e <? iTime (terminal e) (chart_symbol e))%Z eqn:Hnew;
    cbn [fst snd lastBarTime servers terminal chart_symbol].
  - apply Z.ltb_lt in Hnew.
    rewrite GetLatestTick_not_empty, Z.ltb_irrefl. cbn [snd].
    repeat split. lia.
  - rewrite GetLatestTick_not_empty, Hnew. cbn [snd].
    apply Z.ltb_ge in Hnew. rewrite app_nil_r.
    repeat split. lia.
Qed.

(** ** The listing handlers *)

(** X12: the handlers of open positions, closed positions and pending
    orders never return a list: with at least one item they end in the
    critical error at [parameters[0]], with none they return the error
    reply. *)
Theorem listing_handlers_cases (t : T) :
  GetAllOpenPositions t =
    (if (0 <? PositionsTotal t)%Z then Critical ArrayOutOfRange
     else Done (t, error_reply "F061" "ERROR")) /\
  GetAllClosedPositions t =
    (if (0 <? HistoryDealsTotal t)%Z then Critical ArrayOutOfRange
     else Done (t, error_reply "F063" "ERROR")) /\
  GetAllPendingOrders t =
    (if (0 <? OrdersTotal t)%Z then Critical ArrayOutOfRange
     else Done (t, error_reply "F060" "ERROR")).
Proof.
  pose proof (MqlProps.list_handlers_with_items t) as (Hpos & Hdeals & Horders).
  repeat split.
  - destruct (0 <? PositionsTotal t)%Z eqn:Htotal; [now apply Hpos |].
    unfold GetAllOpenPositions. cbv zeta. now rewrite Htotal.
  - destruct (0 <? HistoryDealsTotal t)%Z eqn:Htotal; [now apply Hdeals |].
    unfold GetAllClosedPositions. cbv zeta. now rewrite Htotal.
  - destruct (0 <? OrdersTotal t)%Z eqn:Htotal; [now apply Horders |].
    unfold GetAllPendingOrders. cbv zeta. now rewrite Htotal.
Qed.

Lemma window_loop (inside : nat -> bool) (text : nat -> string) (n i : nat) :
  for_loop n i
    (fun j parameters => if inside j then array_set parameters j (text j)
                         else Done parameters) [] =
  if existsb inside (seq i n) then Critical ArrayOutOfRange else Done [].
Proof.
  revert i. induction n as [|n IH]; intros i; [reflexivity |].
  cbn [for_loop seq existsb]. destruct (inside i); [reflexivity |].
  cbn [mbind outcome_bind orb]. apply IH.
Qed.

(** X13: [GetAllClosedPositionsWithinWindow] never returns a deal.  When
    the history has deals, it ends in the critical error if one of them lies
    in the window, and returns the message with sub code "0" and no
    parameter if none does; without deals it returns the error reply. *)
Theorem windowed_deals_cases (t : T) (date_from date_to : Z) :
  let inside (i : nat) :=
    let deal_time :=
      HistoryDealGetInteger t (HistoryDealGetTicket t (Z.of_nat i)) DEAL_TIME in
    (date_from <=? deal_time)%Z && (deal_time <=? date_to)%Z in
  GetAllClosedPositionsWithinWindow t date_from date_to =
    if (0 <? HistoryDealsTotal t)%Z then
      if existsb inside (seq 0 (Z.to_nat (HistoryDealsTotal t)))
      then Critical ArrayOutOfRange
      else Done (t, MakeMessage "F062" "0" [])
    else Done (t, error_reply "F062" "ERROR").
Proof.
  cbv zeta. unfold GetAllClosedPositionsWithinWindow. cbv zeta.
  destruct (0 <? HistoryDealsTotal t)%Z; [| reflexivity].
  rewrite (window_loop
             (fun i =>
                (date_from <=?
                 HistoryDealGetInteger t (HistoryDealGetTicket t (Z.of_nat i)) DEAL_TIME)%Z &&
                (HistoryDealGetInteger t (HistoryDealGetTicket t (Z.of_nat i)) DEAL_TIME
                 <=? date_to)%Z)
             (fun i =>
                deal_text t (HistoryDealGetTicket t (Z.of_nat i))
                  (HistoryDealGetInteger t (HistoryDealGetTicket t (Z.of_nat i)) DEAL_TIME))).
  destruct (existsb _ _); reflexivity.
Qed.

(** X14: [GetLastXTickFromNow] and [GetLastXBarsFromNow] end in the
    critical error whenever the terminal has copied at least one tick or
    bar. *)
Theorem series_handlers_with_data (t : T) (symbol upper : string) (n tf : Z) :
  StringToUpper symbol = Some upper ->
  let t1 := fst (SymbolSelect t upper true) in
  ((0 <? fst (CopyTicks t1 upper n))%Z = true ->
   snd (CopyTicks t1 upper n) <> [] ->
   GetLastXTickFromNow t symbol n = Critical ArrayOutOfRange) /\
  ((0 <? fst (CopyRates t1 upper tf 0 n))%Z = true ->
   snd (CopyRates t1 upper tf 0 n) <> [] ->
   GetLastXBarsFromNow t symbol tf n = Critical ArrayOutOfRange).
Proof.
  intros Hup. cbv zeta. unfold GetLastXTickFromNow, GetLastXBarsFromNow.
  rewrite Hup. destruct (SymbolSelect t upper true) as [t1 w]. cbn [fst].
  split.
  - destruct (CopyTicks t1 upper n) as [copied ticks]. cbn [fst snd].
    intros -> Hne. destruct ticks as [|tick rest]; [congruence | reflexivity].
  - destruct (CopyRates t1 upper tf 0 n) as [copied rates]. cbn [fst snd].
    intros -> Hne. destruct rates as [|bar rest]; [congruence | reflexivity].
Qed.

(** X15: every reply of [GetActualBarInfo] and [GetSpecificBar] is the
    error reply or the message of the bar that was copied first, whose sub
    code is the number of the parameters that the handler passes: "6" with
    the six values of the bar, "7" with the upper-case symbol and the six
    values. *)
Theorem bar_handlers_count (t t' : T) (symbol reply : string) (k tf : Z) :
  (GetActualBarInfo t symbol tf = Done (t', reply) ->
   reply = error_reply "F041" "ERROR" \/
   exists upper bar rest,
     StringToUpper symbol = Some upper /\
     snd (CopyRates (fst (SymbolSelect t upper true)) upper tf 0 1) = bar :: rest /\
     reply = MakeMessage "F041" "6" (GetActualBarInfo_parameters bar) /\
     length (GetActualBarInfo_parameters bar) = 6 /\
     sub_code_counts "6" (GetActualBarInfo_parameters bar) = true) /\
  (GetSpecificBar t symbol k tf = Done (t', reply) ->
   reply = error_reply "F045" "ERROR" \/
   exists upper bar rest,
     StringToUpper symbol = Some upper /\
     snd (CopyRates (fst (SymbolSelect t upper true)) upper tf k 1) = bar :: rest /\
     reply = MakeMessage "F045" "7" (GetSpecificBar_parameters upper bar) /\
     length (GetSpecificBar_parameters upper bar) = 7 /\
     sub_code_counts "7" (GetSpecificBar_parameters upper bar) = true).
Proof.
  unfold GetActualBarInfo, GetSpecificBar.
  destruct (StringToUpper symbol) as [upper|];
    [| split; intros Hd; inversion Hd; now left].
  destruct (SymbolSelect t upper true) as [t1 w] eqn:Hsel.
  split.
  - destruct (CopyRates t1 upper tf 0 1) as [copied rates] eqn:Hcopy.
    destruct (0 <? copied)%Z; [| intros Hd; inversion Hd; now left].
    destruct rates as [|bar rest]; [discriminate |].
    cbn. intros Hd. inversion Hd. right. exists upper, bar, rest.
    rewrite Hsel. cbn [fst]. rewrite Hcopy. repeat split.
  - destruct (CopyRates t1 upper tf k 1) as [copied rates] eqn:Hcopy.
    destruct (0 <? copied)%Z; [| intros Hd; inversion Hd; now left].
    destruct rates as [|bar rest]; [discriminate |].
    cbn. intros Hd. inversion Hd. right. exists upper, bar, rest.
    rewrite Hsel. cbn [fst]. rewrite Hcopy. repeat split.
Qed.

End ServerProps.

(** ** On the demonstration terminal *)

Lemma ProcessClient_reply_recipients_witness :
  let g := mkServers None None
             [Some (mkClient 1 true ""); None; Some (mkClient 2 false "");
              Some (mkClient 3 true "")] in
  exists t' response,
    ProcessClient (T := list string) g [] (mkClient 7 true "F004^2^EURUSD") false =
      Done (t', [Sent 7 response]) /\
    ProcessClient (T := list string) g [] (mkClient 7 true "F004^2^EURUSD") true =
      Done (t', [Sent 1 response; Sent 3 response]) /\
    (connected_streaming_clients g = [] ->
     ProcessClient (T := list string) g [] (mkClient 7 true "F004^2^EURUSD") true =
       Done (t', [])).
Proof.
  cbv zeta.
  apply (ProcessClient_reply_recipients
           (mkServers None None
              [Some (mkClient 1 true ""); None; Some (mkClient 2 false "");
               Some (mkClient 3 true "")])
           [] (mkClient 7 true "F004^2^EURUSD")).
  vm_compute. lia.
Defined.

Lemma ProcessClient_response_terminal_witness :
  (exists symbol rest,
     ["EURUSD"] = symbol :: rest /\
     ["EURUSD"] = fst (SymbolSelect (T := list string) [] symbol true)) /\
  ([] : list string) = [].
Proof.
  split.
  - destruct (ProcessClient_response_terminal (T := list string) [] ["EURUSD"]
                (mkRequest "F004" "2" ["EURUSD"]) "F004^1^YES") as [Hselect _].
    + reflexivity.
    + apply Hselect; reflexivity.
  - destruct (ProcessClient_response_terminal (T := list string) [] []
                (mkRequest "F003" "2" ["EURUSD"])
                (GetInstrumentInfo (T := list string) [] "EURUSD")) as (_ & _ & Hsame).
    + reflexivity.
    + symmetry. apply Hsame; intros [Hc _]; discriminate.
Defined.


Lemma series_handlers_with_data_witness :
  GetLastXTickFromNow (T := list string) [] "EURUSD" 10 = Critical ArrayOutOfRange /\
  GetLastXBarsFromNow (T := list string) [] "EURUSD" 1 10 = Critical ArrayOutOfRange.
Proof.
  pose proof (series_handlers_with_data (T := list string) [] "EURUSD" "EURUSD" 10 1
                eq_refl) as [Hticks Hbars].
  split.
  - apply Hticks; [reflexivity | discriminate].
  - apply Hbars; [reflexivity | discriminate].
Defined.

Lemma bar_handlers_count_witness :
  let bar_text := "1700000000^1.00000^2.00000^1.00000^2.00000^7" in
  ("F041^6^" +:+ bar_text = error_reply "F041" "ERROR" \/
   exists upper bar rest,
     StringToUpper (T := list string) "EURUSD" = Some upper /\
     snd (CopyRates (fst (SymbolSelect (T := list string) [] upper true)) upper 1 0 1)
       = bar :: rest /\
     "F041^6^" +:+ bar_text =
       MakeMessage "F041" "6" (GetActualBarInfo_parameters (T := list string) bar) /\
     length (GetActualBarInfo_parameters (T := list string) bar) = 6 /\
     sub_code_counts "6" (GetActualBarInfo_parameters (T := list string) bar) = true) /\
  ("F045^7^EURUSD^" +:+ bar_text = error_reply "F045" "ERROR" \/
   exists upper bar rest,
     StringToUpper (T := list string) "EURUSD" = Some upper /\
     snd (CopyRates (fst (SymbolSelect (T := list string) [] upper true)) upper 1 0 1)
       = bar :: rest /\
     "F045^7^EURUSD^" +:+ bar_text =
       MakeMessage "F045" "7" (GetSpecificBar_parameters (T := list string) upper bar) /\
     length (GetSpecificBar_parameters (T := list string) upper bar) = 7 /\
     sub_code_counts "7" (GetSpecificBar_parameters (T := list string) upper bar) = true).
Proof.
  cbv zeta. split.
  - apply (proj1 (bar_handlers_count (T := list string) [] ["EURUSD"] "EURUSD"
                    "F041^6^1700000000^1.00000^2.00000^1.00000^2.00000^7" 0 1)).
    reflexivity.
  - apply (proj2 (bar_handlers_count (T := list string) [] ["EURUSD"] "EURUSD"
                    "F045^7^EURUSD^1700000000^1.00000^2.00000^1.00000^2.00000^7"
                    0 1)).
    reflexivity.
Defined.

Lemma symbol_request_without_symbol_witness :
  ProcessClient (T := list string) (mkServers None None []) []
                (mkClient 7 true "F004^2") false = Critical ArrayOutOfRange.
Proof.
  apply (symbol_request_without_symbol (T := list string) _ _ _ _ "F004").
  - right. left.
  - reflexivity.
Defined.

Lemma ParseRequest_critical_iff_witness :
  ParseRequest "F000" [] = Critical ArrayOutOfRange /\
  occurs "^" "F000" = false.
Proof.
  split.
  - apply (proj2 (ParseRequest_critical_iff "F000")). reflexivity.
  - apply (proj1 (ParseRequest_critical_iff "F000")). reflexivity.
Defined.


(** ** utils.mqh *)

Lemma pretty_N_go_not_empty (x : N) (s : string) :
  s <> "" -> pretty_N_go x s <> "".
Proof.
  revert s. induction (N.lt_wf_0 x) as [x _ IH]; intros s Hs.
  destruct (decide (x = 0)%N) as [-> | Hx].
  - now rewrite pretty_N_go_0.
  - rewrite pretty_N_go_step by lia. apply IH; [apply N.div_lt; lia | discriminate].
Qed.

Lemma IntegerToString_not_empty (n : Z) : IntegerToString n <> "".
Proof.
  unfold IntegerToString, pretty, pretty_Z.
  destruct n as [|x|x]; [discriminate | |].
  - unfold pretty, pretty_positive, pretty, pretty_N.
    destruct (decide (N.pos x = 0)%N); [discriminate |].
    rewrite pretty_N_go_step by lia. apply pretty_N_go_not_empty. discriminate.
  - discriminate.
Qed.

Lemma MaxString_cases (limit a : Z) :
  (if negb (a =? limit)%Z then IntegerToString a else "") = "" <-> a = limit.
Proof.
  destruct (a =? limit)%Z eqn:Heq; cbn [negb].
  - apply Z.eqb_eq in Heq. tauto.
  - apply Z.eqb_neq in Heq. split; [| tauto].
    intros Hempty. now destruct (IntegerToString_not_empty a).
Qed.

Lemma MaxString_inj (limit a b : Z) :
  (if negb (a =? limit)%Z then IntegerToString a else "") =
  (if negb (b =? limit)%Z then IntegerToString b else "") ->
  a = b.
Proof.
  intros Heq.
  destruct (a =? limit)%Z eqn:Ha, (b =? limit)%Z eqn:Hb; cbn [negb] in Heq.
  - apply Z.eqb_eq in Ha, Hb. congruence.
  - symmetry in Heq. now destruct (IntegerToString_not_empty b).
  - now destruct (IntegerToString_not_empty a).
  - unfold IntegerToString in Heq. now apply (inj pretty) in Heq.
Qed.

(** X16: [longMaxString] and [intMaxString] return the empty string for the
    unset value only, and different numbers get different strings: the
    number can be read back from the string. *)
Theorem MaxString_lossless (a b : Z) :
  (longMaxString a = "" <-> a = LONG_MAX) /\
  (longMaxString a = longMaxString b -> a = b) /\
  (intMaxString a = "" <-> a = INT_MAX) /\
  (intMaxString a = intMaxString b -> a = b).
Proof.
  unfold longMaxString, intMaxString.
  repeat split; try apply MaxString_cases; try apply MaxString_inj.
Qed.

Lemma MaxString_lossless_witness :
  longMaxString 9223372036854775807 = "" /\
  intMaxString 2147483647 = "" /\
  (42 : Z) = 42%Z.
Proof.
  split; [| split].
  - apply (proj1 (MaxString_lossless 9223372036854775807 0)). reflexivity.
  - apply (proj1 (proj2 (proj2 (MaxString_lossless 2147483647 0)))). reflexivity.
  - apply (proj1 (proj2 (MaxString_lossless 42 42))). reflexivity.
Defined.

Lemma isAsciiPrintable_app (a b : string) :
  isAsciiPrintable (a +:+ b) = isAsciiPrintable a && isAsciiPrintable b.
Proof.
  induction a as [|c a IH]; [reflexivity |].
  rewrite MqlProps.append_cons. cbn [isAsciiPrintable].
  destruct ((nat_of_ascii c <? 32)%nat || (128 <=? nat_of_ascii c)%nat);
    [reflexivity | exact IH].
Qed.

Lemma isAsciiPrintable_StringJoin (ps : list string) :
  isAsciiPrintable (StringJoin ps "^") = forallb isAsciiPrintable ps.
Proof.
  induction ps as [|x rest IH]; [reflexivity |].
  destruct rest as [|y rest'].
  - rewrite MqlProps.StringJoin_one. cbn [forallb]. now rewrite andb_true_r.
  - rewrite MqlProps.StringJoin_cons, !isAsciiPrintable_app, IH. reflexivity.
Qed.

(** X17: a message built by [MakeMessage] is printable ASCII exactly when
    the command code, the sub code and every parameter are. *)
Theorem isAsciiPrintable_MakeMessage (c s : string) (ps : list string) :
  isAsciiPrintable (MakeMessage c s ps) =
  isAsciiPrintable c && isAsciiPrintable s && forallb isAsciiPrintable ps.
Proof.
  unfold MakeMessage. cbv zeta.
  rewrite !isAsciiPrintable_app, isAsciiPrintable_StringJoin.
  change (isAsciiPrintable "^") with true. now rewrite !andb_true_r.
Qed.

(** ** The chart-id sets *)

Lemma Add_loop_spec (this : list Z) (chart_id : Z) :
  Add_loop this chart_id = true <-> chart_id ∈ this.
Proof.
  induction this as [|x rest IH]; cbn [Add_loop].
  - split; [discriminate | intros Hin; inversion Hin].
  - rewrite elem_of_cons. destruct (x =? chart_id)%Z eqn:Hx.
    + apply Z.eqb_eq in Hx. split; auto.
    + apply Z.eqb_neq in Hx. rewrite IH. split; [auto | intros [? | ?]; congruence].
Qed.

Lemma _find_spec (charts : list Z) (id : Z) :
  _find charts id = true <-> id ∈ charts.
Proof.
  induction charts as [|ch rest IH]; cbn [_find].
  - split; [discriminate | intros Hin; inversion Hin].
  - rewrite elem_of_cons. destruct (id =? ch)%Z eqn:Hx.
    + apply Z.eqb_eq in Hx. split; auto.
    + apply Z.eqb_neq in Hx. rewrite IH. split; [auto | intros [? | ?]; congruence].
Qed.

(** X18: [IdSet::Add] keeps the set free of duplicates.  It returns false,
    and changes nothing, exactly when the id is in the set already;
    otherwise the id is added at the end.  In both cases the id is in the
    set afterwards. *)
Theorem IdSet_Add (this : list Z) (chart_id : Z) :
  NoDup this ->
  NoDup (fst (Add this chart_id)) /\
  chart_id ∈ fst (Add this chart_id) /\
  (snd (Add this chart_id) = false <->
   chart_id ∈ this /\ fst (Add this chart_id) = this) /\
  (snd (Add this chart_id) = true <-> fst (Add this chart_id) = this ++ [chart_id]).
Proof.
  intros Hnodup. unfold Add.
  destruct (Add_loop this chart_id) eqn:Hloop; cbn [fst snd].
  - apply Add_loop_spec in Hloop. repeat split; auto; try discriminate.
    intros Heq. apply (f_equal length) in Heq. rewrite length_app in Heq.
    cbn in Heq. lia.
  - assert (chart_id ∉ this) as Hout
      by (rewrite <- Add_loop_spec, Hloop; discriminate).
    repeat split; auto; try discriminate.
    + apply NoDup_app. repeat split; [assumption | | apply NoDup_singleton].
      intros x Hx Hx'. apply list_elem_of_singleton in Hx'. congruence.
    + apply elem_of_app. right. now left.
    + now intros [Hin _].
Qed.

Lemma IdSet_Add_witness :
  NoDup (fst (Add [5%Z; 7%Z] 9%Z)) /\ NoDup (fst (Add [5%Z; 7%Z] 7%Z)).
Proof.
  assert (NoDup [5%Z; 7%Z]) as Hnodup by (apply (bool_decide_unpack _); vm_compute; exact I).
  split.
  - apply (IdSet_Add [5%Z; 7%Z] 9%Z Hnodup).
  - apply (IdSet_Add [5%Z; 7%Z] 7%Z Hnodup).
Defined.

Lemma clean_loop_spec (charts : list Z) (n : nat) :
  forall this : list Z,
    n <= length this ->
    clean_loop charts n this =
    filter (fun x => x ∈ charts) (take n this) ++ drop n this.
Proof.
  induction n as [|n IH]; intros this Hn; cbn [clean_loop].
  - now rewrite take_0, drop_0.
  - destruct (lookup_lt_is_Some_2 this n ltac:(lia)) as [x Hx].
    rewrite Hx, (take_S_r this n x Hx), filter_app.
    destruct (_find charts x) eqn:Hfind.
    + apply _find_spec in Hfind.
      rewrite IH by lia. rewrite (drop_S this x n Hx).
      rewrite (filter_cons_True _ x []) by assumption. rewrite filter_nil.
      now rewrite <- app_assoc.
    + assert (x ∉ charts) as Hout by (rewrite <- _find_spec, Hfind; discriminate).
      assert (length (take n this) = n) as Hlen by (apply length_take_le; lia).
      rewrite (filter_cons_False _ x []) by assumption. rewrite filter_nil, app_nil_r.
      rewrite delete_take_drop.
      rewrite IH by (rewrite length_app, Hlen; lia).
      rewrite take_app_length' by congruence.
      rewrite drop_app_length' by congruence. reflexivity.
Qed.

(** X19: [IdSet::clean] keeps exactly the ids of charts that are open, in
    their order; so does [clean_arrays] for workers and managers. *)
Theorem IdSet_clean (charts : list Z) (r : Registry) :
  clean charts (workers r) = filter (fun x => x ∈ charts) (workers r) /\
  clean charts (managers r) = filter (fun x => x ∈ charts) (managers r) /\
  clean_arrays charts (clean_arrays charts r) = clean_arrays charts r.
Proof.
  assert (forall this, clean charts this = filter (fun x => x ∈ charts) this) as Hclean.
  { intros this. unfold clean. rewrite clean_loop_spec by lia.
    now rewrite firstn_all, drop_all, app_nil_r. }
  repeat split; try apply Hclean.
  unfold clean_arrays. cbn [workers managers]. rewrite !Hclean.
  f_equal; apply list_filter_filter_l; auto.
Qed.

End MqlExtraProps.

(* ===================================================================== *)
(** * Part VI: further properties of the streaming receiver               *)
(* ===================================================================== *)

Module StreamerExtraProps.
Import Streamer StreamerExtra.

Section TaskProps.

Context {Float Callback Kwargs Json Websocket : Type}.
Context `{!EqDecision Websocket} `{!Countable Websocket} `{!Codec Json Callback}.

Abbreviation streamer :=
  (MetaTrader5Streamer (Float := Float) (Callback := Callback)
     (Kwargs := Kwargs) (Websocket := Websocket)).
Abbreviation tasks_t := (gmap string (@task_info Float Callback Kwargs)).

(** ** Keys *)

Lemma length_append (a b : string) :
  String.length (a +:+ b) = String.length a + String.length b.
Proof.
  induction a as [|c a IH]; [reflexivity |].
  rewrite MqlProps.append_cons. cbn [String.length]. now rewrite IH.
Qed.

Lemma append_cancel_r (a b x : string) : a +:+ x = b +:+ x -> a = b.
Proof.
  revert b. induction a as [|c a IH]; intros [|d b] Heq.
  - reflexivity.
  - apply (f_equal String.length) in Heq.
    rewrite MqlProps.append_cons, MqlProps.append_nil_l in Heq.
    cbn [String.length] in Heq. rewrite length_append in Heq. lia.
  - apply (f_equal String.length) in Heq.
    rewrite MqlProps.append_cons, MqlProps.append_nil_l in Heq.
    cbn [String.length] in Heq. rewrite length_append in Heq. lia.
  - rewrite !MqlProps.append_cons in Heq. inversion Heq. f_equal. now apply IH.
Qed.

Lemma task_id_inj (symbol symbol' req_id : string) :
  task_id symbol req_id = task_id symbol' req_id -> symbol = symbol'.
Proof. unfold task_id. apply append_cancel_r. Qed.

Definition keys_of (req_id : string) (symbols : list string) : list string :=
  map (fun symbol => task_id symbol req_id) symbols.

(** ** Unsubscribing *)

Lemma stop_one_lookup req_id (tasks : tasks_t) symbol key :
  stop_one req_id tasks symbol !! key =
  if decide (key = task_id symbol req_id) then None else tasks !! key.
Proof.
  unfold stop_one. cbv zeta.
  destruct (tasks !! task_id symbol req_id) eqn:Hid; destruct (decide _) as [-> | Hne].
  - apply lookup_delete_eq.
  - now apply lookup_delete_ne.
  - assumption.
  - reflexivity.
Qed.

Lemma stop_fold_lookup req_id symbols :
  forall (tasks : tasks_t) key,
    foldl (stop_one req_id) tasks symbols !! key =
    if decide (key ∈ keys_of req_id symbols) then None else tasks !! key.
Proof.
  induction symbols as [|symbol rest IH]; intros tasks key; cbn [foldl keys_of map].
  - destruct (decide _) as [Hin | _]; [inversion Hin | reflexivity].
  - fold (keys_of req_id rest). rewrite IH, stop_one_lookup.
    destruct (decide (key ∈ keys_of req_id rest)) as [Hin | Hout].
    + rewrite decide_True by (now right). reflexivity.
    + destruct (decide (key = task_id symbol req_id)) as [-> | Hne].
      * rewrite decide_True by (now left). reflexivity.
      * rewrite decide_False; [reflexivity |].
        intros Hin. apply elem_of_cons in Hin as [? | ?]; contradiction.
Qed.

(** X20: after [stop_streaming_task] the table has no entry under the key
    of any listed symbol and every other entry as before; so a second call
    with the same arguments, or a call for keys that are absent, changes
    nothing. *)
Theorem stop_streaming_task_lookup (self : streamer) req_id symbols key :
  let after := stop_streaming_task self req_id symbols in
  stream_tasks after !! key =
    (if decide (key ∈ keys_of req_id symbols) then None else stream_tasks self !! key) /\
  stop_streaming_task after req_id symbols = after.
Proof.
  cbv zeta. unfold stop_streaming_task.
  rewrite StreamerProps.stream_tasks_set. split; [apply stop_fold_lookup |].
  rewrite StreamerProps.set_stream_tasks_twice.
  match goal with
  | |- set_stream_tasks self ?m = set_stream_tasks self ?m' =>
      assert (m = m') as ->; [| reflexivity]
  end.
  apply map_eq. intros k. rewrite !stop_fold_lookup.
  destruct (decide _); reflexivity.
Qed.

(** ** Subscribing *)

Lemma create_one_lookup_other req_id interval callback kwargs (tasks : tasks_t)
    symbol key :
  key <> task_id symbol req_id ->
  create_one req_id interval callback kwargs tasks symbol !! key = tasks !! key.
Proof.
  intros Hne. unfold create_one. cbv zeta.
  destruct (tasks !! task_id symbol req_id); [reflexivity |].
  now rewrite lookup_insert_ne.
Qed.

Lemma create_fold_lookup_other req_id interval callback kwargs symbols :
  forall (tasks : tasks_t) key,
    key ∉ keys_of req_id symbols ->
    foldl (create_one req_id interval callback kwargs) tasks symbols !! key =
    tasks !! key.
Proof.
  induction symbols as [|symbol rest IH]; intros tasks key Hout; cbn [foldl].
  - reflexivity.
  - cbn [keys_of map] in Hout. fold (keys_of req_id rest) in Hout.
    apply not_elem_of_cons in Hout as [Hne Hout].
    rewrite IH by assumption. now apply create_one_lookup_other.
Qed.

Lemma create_fold_lookup_new req_id interval callback kwargs symbols :
  forall (tasks : tasks_t) symbol,
    symbol ∈ symbols ->
    tasks !! task_id symbol req_id = None ->
    foldl (create_one req_id interval callback kwargs) tasks symbols
      !! task_id symbol req_id = Some (symbol, interval, callback, kwargs).
Proof.
  induction symbols as [|s0 rest IH]; intros tasks symbol Hin Hnone; cbn [foldl].
  - inversion Hin.
  - destruct (decide (symbol = s0)) as [-> | Hne].
    + apply StreamerProps.create_fold_lookup_old.
      unfold create_one. cbv zeta. rewrite Hnone. apply lookup_insert_eq.
    + apply elem_of_cons in Hin as [? | Hin]; [contradiction |].
      apply IH; [assumption |].
      rewrite create_one_lookup_other; [assumption |].
      intros Heq. apply task_id_inj in Heq. contradiction.
Qed.

(** X21: [create_streaming_task] stores, for every listed symbol whose key
    was absent, the tuple of that symbol with the interval, the callback
    and the kwargs of the call, and it touches no key but those of the
    listed symbols. *)
Theorem create_streaming_task_lookup (self : streamer) req_id symbols interval
    callback kwargs symbol key :
  let after := create_streaming_task self req_id symbols interval callback kwargs in
  (symbol ∈ symbols ->
   stream_tasks self !! task_id symbol req_id = None ->
   stream_tasks after !! task_id symbol req_id =
   Some (symbol, interval, callback, kwargs)) /\
  (key ∉ keys_of req_id symbols ->
   stream_tasks after !! key = stream_tasks self !! key).
Proof.
  cbv zeta. unfold create_streaming_task. rewrite StreamerProps.stream_tasks_set.
  split.
  - apply create_fold_lookup_new.
  - apply create_fold_lookup_other.
Qed.

Lemma set_stream_tasks_same (self : streamer) :
  set_stream_tasks self (stream_tasks self) = self.
Proof. destruct self. reflexivity. Qed.

(** X22: unsubscribing the symbols that were just subscribed restores the
    streamer, provided none of their keys was in the table before. *)
Theorem stop_after_create (self : streamer) req_id symbols interval callback kwargs :
  Forall (fun symbol => stream_tasks self !! task_id symbol req_id = None) symbols ->
  stop_streaming_task
    (create_streaming_task self req_id symbols interval callback kwargs)
    req_id symbols = self.
Proof.
  intros Hfresh. unfold stop_streaming_task, create_streaming_task.
  rewrite StreamerProps.stream_tasks_set, StreamerProps.set_stream_tasks_twice.
  match goal with
  | |- set_stream_tasks self ?m = self =>
      assert (m = stream_tasks self) as ->; [| apply set_stream_tasks_same]
  end.
  apply map_eq. intros key. rewrite stop_fold_lookup.
  destruct (decide (key ∈ keys_of req_id symbols)) as [Hin | Hout].
  - unfold keys_of in Hin. apply list_elem_of_fmap in Hin as (symbol & -> & Hin).
    rewrite Forall_forall in Hfresh. symmetry. now apply Hfresh.
  - now apply create_fold_lookup_other.
Qed.

(** X23: the key does not separate the symbol from the request id.  The
    symbol [s-x] under request [r] and the symbol [s] under request [x-r]
    have the same key: a subscription for the second is ignored while the
    first is in the table, and unsubscribing the second removes the first. *)
Theorem task_id_collision (self : streamer) (s x r : string) interval callback kwargs
    interval' callback' kwargs' :
  let first :=
    create_streaming_task self r [s +:+ "-" +:+ x] interval callback kwargs in
  task_id (s +:+ "-" +:+ x) r = task_id s (x +:+ "-" +:+ r) /\
  create_streaming_task first (x +:+ "-" +:+ r) [s] interval' callback' kwargs' = first /\
  stream_tasks (stop_streaming_task first (x +:+ "-" +:+ r) [s])
    !! task_id (s +:+ "-" +:+ x) r = None.
Proof.
  assert (task_id (s +:+ "-" +:+ x) r = task_id s (x +:+ "-" +:+ r)) as Hkey.
  { unfold task_id. now rewrite !MqlProps.append_assoc. }
  cbv zeta. split; [exact Hkey |]. split.
  - unfold create_streaming_task at 1. cbn [foldl].
    rewrite StreamerProps.create_one_present.
    + apply set_stream_tasks_same.
    + rewrite <- Hkey. unfold create_streaming_task.
      rewrite StreamerProps.stream_tasks_set. cbn [foldl].
      apply StreamerProps.create_one_lookup_own.
  - unfold stop_streaming_task. rewrite StreamerProps.stream_tasks_set.
    rewrite stop_fold_lookup, Hkey. apply decide_True. now left.
Qed.

(** ** Running *)


(** ** The streaming loop *)

(** X25: what a bad frame costs.  A frame that is not UTF-8 ends the loop
    with [RuntimeError].  A frame on which [json.loads] raises
    [JSONDecodeError] costs its connection only: it is closed and the loop
    goes on with the next turn.  Any other exception of [json.loads], and
    any exception of [_add_time_human], is met by the outer handlers without
    the callback being called: an [OSError] is ignored when its [errno] is
    10035, the loop going on with the next turn, and ends the loop as
    [OSError] otherwise; every other exception ends it with
    [RuntimeError]. *)
Theorem stream_socket_loop_bad_frame (self : streamer) addr data rest text e :
  data <> "" ->
  let frame := mkTurn false (Accepted addr data) in
  let met :=
    match e with
    | SocketError errno =>
        if (errno =? 10035)%Z then stream_socket_loop self rest
        else ([], LoopRaised OSError)
    | _ => ([], LoopRaised RuntimeError)
    end in
  (utf8_decode data = None ->
   stream_socket_loop self (frame :: rest) = ([], LoopRaised RuntimeError)) /\
  (utf8_decode data = Some text ->
   json_loads (remove_nul text) = Fails JSONDecodeError ->
   stream_socket_loop self (frame :: rest) =
   (ConnClosed addr :: fst (stream_socket_loop self rest),
    snd (stream_socket_loop self rest))) /\
  (utf8_decode data = Some text ->
   json_loads (remove_nul text) = Fails e ->
   e <> JSONDecodeError ->
   stream_socket_loop self (frame :: rest) = met) /\
  (forall json_data,
     utf8_decode data = Some text ->
     json_loads (remove_nul text) = Value json_data ->
     add_time_human json_data = Fails e ->
     stream_socket_loop self (frame :: rest) = met).
Proof.
  intros Hdata. apply String.eqb_neq in Hdata. cbv zeta.
  split; [| split; [| split]].
  - intros Hdec. cbn [stream_socket_loop stop_is_set ready stream_socket_turn].
    now rewrite Hdata, Hdec.
  - intros Hdec Hloads. cbn [stream_socket_loop stop_is_set ready stream_socket_turn].
    rewrite Hdata, Hdec, Hloads.
    destruct (stream_socket_loop self rest) as [acts end_]. reflexivity.
  - intros Hdec Hloads Hne.
    cbn [stream_socket_loop stop_is_set ready stream_socket_turn].
    rewrite Hdata, Hdec, Hloads.
    destruct e as [| errno |]; [congruence | | reflexivity].
    cbn [caught]. destruct (errno =? 10035)%Z; [| reflexivity].
    destruct (stream_socket_loop self rest) as [acts end_]. reflexivity.
  - intros json_data Hdec Hloads Hadd.
    cbn [stream_socket_loop stop_is_set ready stream_socket_turn].
    rewrite Hdata, Hdec, Hloads, Hadd.
    destruct e as [| errno |]; [reflexivity | | reflexivity].
    cbn [caught]. destruct (errno =? 10035)%Z; [| reflexivity].
    destruct (stream_socket_loop self rest) as [acts end_]. reflexivity.
Qed.

(** X26: once the stop event is seen to be set, the loop ends as stopped
    and what the socket would have delivered afterwards is never read. *)
Theorem stream_socket_loop_stops (self : streamer) before r after after' :
  stream_socket_loop self (before ++ mkTurn true r :: after) =
  stream_socket_loop self (before ++ mkTurn true r :: after') /\
  snd (stream_socket_loop self (before ++ mkTurn true r :: after)) <> LoopRunning.
Proof.
  induction before as [|t rest [IHeq IHend]]; cbn [app stream_socket_loop stop_is_set].
  - split; [reflexivity | discriminate].
  - destruct (stop_is_set t); [split; [reflexivity | discriminate] |].
    destruct (stream_socket_turn self (ready t)) as [acts [|e]].
    + rewrite IHeq in IHend |- *.
      destruct (stream_socket_loop self (rest ++ mkTurn true r :: after'))
        as [acts' e'].
      split; [reflexivity | exact IHend].
    + split; [reflexivity | discriminate].
Qed.

(** X27: [set_callback] replaces the callback and leaves every other field
    of the streamer as it was; from then on the streaming socket calls the
    new callback only, and with [None] it calls nothing. *)
Theorem set_callback_takes_over (self : streamer) (cb : option Callback) bind_ok turns :
  let after := set_callback self cb in
  callback after = cb /\
  (host after = host self /\ callback_port after = callback_port self /\
   ws_port after = ws_port self /\ stream_interval after = stream_interval self /\
   use_socket after = use_socket self /\ use_websockets after = use_websockets self /\
   debug after = debug self /\ buffer_size after = buffer_size self /\
   stream_tasks after = stream_tasks self /\ stream_thread after = stream_thread self /\
   stream_socket after = stream_socket self /\
   stream_stop_event after = stream_stop_event self /\
   ws_server after = ws_server self /\
   connected_clients after = connected_clients self) /\
  Forall (fun a => match a with
                   | Called used _ => cb = Some used
                   | ConnClosed _ => True
                   | Delivered _ _ => False
                   end)
         (actions_of (_stream_socket after bind_ok turns)).
Proof.
  cbv zeta. split; [reflexivity |]. split; [repeat split |].
  exact (StreamerProps.stream_socket_actions (set_callback self cb) bind_ok turns).
Qed.

End TaskProps.

(** ** On the streamers of the default configuration *)

Lemma create_streaming_task_lookup_witness :
  let after :=
    create_streaming_task default_streamer "r1" ["EURUSD"; "GBPUSD"] (1, 1)%Z 3 [] in
  stream_tasks after !! "GBPUSD-r1" = Some ("GBPUSD", (1, 1)%Z, 3, []) /\
  stream_tasks after !! "XAUUSD-r1" = stream_tasks default_streamer !! "XAUUSD-r1".
Proof.
  cbv zeta.
  pose proof (create_streaming_task_lookup default_streamer "r1"
                ["EURUSD"; "GBPUSD"] (1, 1)%Z 3 [] "GBPUSD" "XAUUSD-r1") as Hlookup.
  cbv zeta in Hlookup. destruct Hlookup as [Hnew Hother]. split.
  - apply Hnew; [right; left | reflexivity].
  - apply Hother. apply (bool_decide_unpack _). vm_compute. exact I.
Defined.

Lemma stop_after_create_witness :
  stop_streaming_task
    (create_streaming_task default_streamer "r1" ["EURUSD"; "GBPUSD"] (1, 1)%Z 3 [])
    "r1" ["EURUSD"; "GBPUSD"] = default_streamer.
Proof.
  apply stop_after_create.
  constructor; [reflexivity |]. constructor; [reflexivity |]. constructor.
Defined.


Lemma stream_socket_loop_bad_frame_witness :
  let codec :=
    table_codec [("T", Value (JDict [("time", JString "noon")]));
                 ("B", Value (JDict [("time", JNumber 1000000000000000000%Z)]));
                 ("D", Fails OtherException)]
                (fun _ => "frame") in
  let later := [mkTurn false (Accepted "peer" "{")] in
  stream_socket_loop (Codec0 := codec) socket_only_streamer
    (mkTurn false (Accepted "peer" (String (ascii_of_nat 200) "")) :: later) =
    ([], LoopRaised RuntimeError) /\
  stream_socket_loop (Codec0 := codec) socket_only_streamer
    (mkTurn false (Accepted "peer" "{") :: later) =
    ([ConnClosed "peer"; ConnClosed "peer"], LoopRunning) /\
  stream_socket_loop (Codec0 := codec) socket_only_streamer
    (mkTurn false (Accepted "peer" "D") :: later) = ([], LoopRaised RuntimeError) /\
  stream_socket_loop (Codec0 := codec) socket_only_streamer
    (mkTurn false (Accepted "peer" "T") :: later) = ([], LoopRaised RuntimeError) /\
  stream_socket_loop (Codec0 := codec) socket_only_streamer
    (mkTurn false (Accepted "peer" "B") :: later) = ([], LoopRaised OSError).
Proof.
  cbv zeta.
  set (codec := table_codec _ _).
  set (later := [mkTurn false (Accepted "peer" "{")]).
  split; [| split; [| split; [| split]]].
  - destruct (stream_socket_loop_bad_frame (Codec0 := codec) socket_only_streamer
                "peer" (String (ascii_of_nat 200) "") later "" OtherException)
      as (Hutf8 & _); [discriminate |].
    apply Hutf8. reflexivity.
  - destruct (stream_socket_loop_bad_frame (Codec0 := codec) socket_only_streamer
                "peer" "{" later "{" OtherException) as (_ & Hjson & _);
      [discriminate |].
    apply Hjson; reflexivity.
  - destruct (stream_socket_loop_bad_frame (Codec0 := codec) socket_only_streamer
                "peer" "D" later "D" OtherException) as (_ & _ & Hloads & _);
      [discriminate |].
    apply Hloads; [reflexivity | reflexivity | discriminate].
  - destruct (stream_socket_loop_bad_frame (Codec0 := codec) socket_only_streamer
                "peer" "T" later "T" OtherException) as (_ & _ & _ & Htime);
      [discriminate |].
    apply (Htime (JDict [("time", JString "noon")])); reflexivity.
  - destruct (stream_socket_loop_bad_frame (Codec0 := codec) socket_only_streamer
                "peer" "B" later "B" (SocketError 75)) as (_ & _ & _ & Htime);
      [discriminate |].
    apply (Htime (JDict [("time", JNumber 1000000000000000000%Z)])); reflexivity.
Defined.

(** ** [_add_time_human] *)

Section TimeProps.

Context {Num : Type} (of_bool : bool -> Num) (strftime : Num -> tried string).

Abbreviation add_time := (_add_time_human of_bool strftime).

Lemma dict_get_set key value (entries : list (string * Json Num)) :
  dict_get key (dict_set key value entries) = Some value.
Proof.
  induction entries as [|[k v] rest IH]; cbn [dict_set dict_get].
  - now rewrite String.eqb_refl.
  - destruct (String.eqb k key) eqn:Hk; cbn [dict_get]; rewrite Hk;
      [reflexivity | exact IH].
Qed.

Lemma dict_get_set_ne key key' value (entries : list (string * Json Num)) :
  key <> key' ->
  dict_get key' (dict_set key value entries) = dict_get key' entries.
Proof.
  intros Hne. apply String.eqb_neq in Hne.
  induction entries as [|[k v] rest IH]; cbn [dict_set dict_get].
  - now rewrite Hne.
  - destruct (String.eqb k key) eqn:Hk; cbn [dict_get].
    + apply String.eqb_eq in Hk. subst k. now rewrite Hne.
    + destruct (String.eqb k key'); [reflexivity | exact IH].
Qed.

Lemma dict_set_same key value (entries : list (string * Json Num)) :
  dict_get key entries = Some value -> dict_set key value entries = entries.
Proof.
  induction entries as [|[k v] rest IH]; cbn [dict_set dict_get]; [discriminate |].
  destruct (String.eqb k key); intros Hget.
  - congruence.
  - f_equal. now apply IH.
Qed.

Lemma dict_set_keys key value (entries : list (string * Json Num)) :
  map fst (dict_set key value entries) =
  match dict_get key entries with
  | Some _ => map fst entries
  | None => map fst entries ++ [key]
  end.
Proof.
  induction entries as [|[k v] rest IH]; cbn [dict_set dict_get map fst app];
    [reflexivity |].
  destruct (String.eqb k key); [reflexivity |].
  cbn [map fst]. rewrite IH. now destruct (dict_get key rest).
Qed.

Lemma dict_get_value key (entries : list (string * Json Num)) value :
  dict_get key entries = Some value -> value ∈ map snd entries.
Proof.
  induction entries as [|[k v] rest IH]; cbn [dict_get map snd]; [discriminate |].
  destruct (String.eqb k key); intros Hget.
  - inversion Hget. now left.
  - right. now apply IH.
Qed.

Lemma dict_set_values (P : Json Num -> Prop) key value (entries : list (string * Json Num)) :
  P value ->
  Forall P (map snd entries) ->
  Forall P (map snd (dict_set key value entries)).
Proof.
  intros Hvalue. induction entries as [|[k v] rest IH]; cbn [dict_set map snd];
    intros Hall.
  - now constructor.
  - inversion Hall as [|? ? Hv Hrest]; subst.
    destruct (String.eqb k key); cbn [map snd]; constructor; auto.
Qed.

Lemma visit_values_cons visit k (v : Json Num) rest entries' :
  visit_values visit ((k, v) :: rest) = Returned entries' ->
  exists v1 rest1,
    visit v = Returned v1 /\ visit_values visit rest = Returned rest1 /\
    entries' = (k, v1) :: rest1.
Proof.
  cbn [visit_values]. destruct (visit v) as [v1 | e |]; try discriminate.
  destruct (visit_values visit rest) as [rest1 | e |]; try discriminate.
  intros Hv. inversion Hv. eauto.
Qed.

Lemma visit_items_cons visit (item : Json Num) rest items' :
  visit_items visit (item :: rest) = Returned items' ->
  exists item1 rest1,
    visit item = Returned item1 /\ visit_items visit rest = Returned rest1 /\
    items' = item1 :: rest1.
Proof.
  cbn [visit_items]. destruct (visit item) as [item1 | e |]; try discriminate.
  destruct (visit_items visit rest) as [rest1 | e |]; try discriminate.
  intros Hv. inversion Hv. eauto.
Qed.

Lemma visit_values_some visit (entries entries' : list (string * Json Num)) key v :
  visit_values visit entries = Returned entries' ->
  dict_get key entries = Some v ->
  exists v', visit v = Returned v' /\ dict_get key entries' = Some v'.
Proof.
  revert entries'. induction entries as [|[k v0] rest IH]; intros entries' Hv Hget.
  - discriminate.
  - apply visit_values_cons in Hv as (v1 & rest1 & Hv1 & Hrest & ->).
    cbn [dict_get] in *. destruct (String.eqb k key).
    + inversion Hget. subst. eauto.
    + now apply IH.
Qed.

Lemma visit_values_none visit (entries entries' : list (string * Json Num)) key :
  visit_values visit entries = Returned entries' ->
  dict_get key entries = None ->
  dict_get key entries' = None.
Proof.
  revert entries'. induction entries as [|[k v0] rest IH]; intros entries' Hv Hget.
  - inversion Hv. reflexivity.
  - apply visit_values_cons in Hv as (v1 & rest1 & Hv1 & Hrest & ->).
    cbn [dict_get] in *. destruct (String.eqb k key); [discriminate |].
    now apply IH.
Qed.

Lemma visit_values_keys visit (entries entries' : list (string * Json Num)) :
  visit_values visit entries = Returned entries' ->
  map fst entries' = map fst entries.
Proof.
  revert entries'. induction entries as [|[k v0] rest IH]; intros entries' Hv.
  - inversion Hv. reflexivity.
  - apply visit_values_cons in Hv as (v1 & rest1 & Hv1 & Hrest & ->).
    cbn [map fst]. f_equal. now apply IH.
Qed.

Lemma visit_values_imp (f g : Json Num -> run (Json Num)) entries entries' :
  (forall v v', f v = Returned v' -> g v = Returned v') ->
  visit_values f entries = Returned entries' ->
  visit_values g entries = Returned entries'.
Proof.
  intros Hfg. revert entries'.
  induction entries as [|[k v0] rest IH]; intros entries' Hv.
  - exact Hv.
  - apply visit_values_cons in Hv as (v1 & rest1 & Hv1 & Hrest & ->).
    cbn [visit_values]. rewrite (Hfg _ _ Hv1), (IH _ Hrest). reflexivity.
Qed.

Lemma visit_items_imp (f g : Json Num -> run (Json Num)) items items' :
  (forall v v', f v = Returned v' -> g v = Returned v') ->
  visit_items f items = Returned items' ->
  visit_items g items = Returned items'.
Proof.
  intros Hfg. revert items'.
  induction items as [|item rest IH]; intros items' Hv.
  - exact Hv.
  - apply visit_items_cons in Hv as (v1 & rest1 & Hv1 & Hrest & ->).
    cbn [visit_items]. rewrite (Hfg _ _ Hv1), (IH _ Hrest). reflexivity.
Qed.

Lemma visit_values_fix (f : Json Num -> run (Json Num)) entries entries' :
  (forall v v', f v = Returned v' -> f v' = Returned v') ->
  visit_values f entries = Returned entries' ->
  visit_values f entries' = Returned entries'.
Proof.
  intros Hf. revert entries'.
  induction entries as [|[k v0] rest IH]; intros entries' Hv.
  - inversion Hv. reflexivity.
  - apply visit_values_cons in Hv as (v1 & rest1 & Hv1 & Hrest & ->).
    cbn [visit_values]. rewrite (Hf _ _ Hv1), (IH _ Hrest). reflexivity.
Qed.

Lemma visit_items_fix (f : Json Num -> run (Json Num)) items items' :
  (forall v v', f v = Returned v' -> f v' = Returned v') ->
  visit_items f items = Returned items' ->
  visit_items f items' = Returned items'.
Proof.
  intros Hf. revert items'.
  induction items as [|item rest IH]; intros items' Hv.
  - inversion Hv. reflexivity.
  - apply visit_items_cons in Hv as (v1 & rest1 & Hv1 & Hrest & ->).
    cbn [visit_items]. rewrite (Hf _ _ Hv1), (IH _ Hrest). reflexivity.
Qed.

Lemma add_time_timestamp fuel (value value' : Json Num) x :
  timestamp of_bool value = Some x ->
  add_time fuel value = Returned value' -> value' = value.
Proof.
  intros Hx Hadd. destruct fuel; [discriminate |].
  destruct value; try discriminate; cbn in Hadd; congruence.
Qed.

Lemma add_time_text fuel text (value' : Json Num) :
  add_time fuel (JString text) = Returned value' -> value' = JString text.
Proof. destruct fuel; [discriminate |]. cbn. congruence. Qed.

Lemma add_time_dict fuel entries (obj' : Json Num) :
  add_time (S fuel) (JDict entries) = Returned obj' ->
  exists entries1 entries2,
    match dict_get "time" entries with
    | Some value =>
        exists x text,
          timestamp of_bool value = Some x /\ strftime x = Value text /\
          entries1 = dict_set "time_human" (JString text) entries
    | None => entries1 = entries
    end /\
    visit_values (add_time fuel) entries1 = Returned entries2 /\
    obj' = JDict entries2.
Proof.
  cbn [_add_time_human].
  destruct (dict_get "time" entries) as [value|].
  - destruct (timestamp of_bool value) as [x|]; [| discriminate].
    destruct (strftime x) as [text | e] eqn:Htext; [| discriminate].
    cbn [mbind run_bind].
    destruct (visit_values _ _) as [entries2 | e |] eqn:Hv; try discriminate.
    intros Hobj. inversion Hobj.
    exists (dict_set "time_human" (JString text) entries), entries2.
    split; [exists x, text; auto | split; [assumption | reflexivity]].
  - cbn [mbind run_bind].
    destruct (visit_values _ _) as [entries2 | e |] eqn:Hv; try discriminate.
    intros Hobj. inversion Hobj. exists entries, entries2. auto.
Qed.

(** X28: when [_add_time_human] returns on a dictionary that has the key
    "time", the value of "time" was a number that [strftime] accepts, the
    dictionary now holds its text under "time_human", "time" itself is as
    before, and the keys are those of before with "time_human" added at the
    end if it was not one of them. *)
Theorem add_time_human_stamps fuel entries value (obj' : Json Num) :
  add_time fuel (JDict entries) = Returned obj' ->
  dict_get "time" entries = Some value ->
  exists x text entries',
    obj' = JDict entries' /\
    timestamp of_bool value = Some x /\ strftime x = Value text /\
    dict_get "time_human" entries' = Some (JString text) /\
    dict_get "time" entries' = Some value /\
    map fst entries' =
      match dict_get "time_human" entries with
      | Some _ => map fst entries
      | None => map fst entries ++ ["time_human"]
      end.
Proof.
  intros Hadd Htime. destruct fuel as [|fuel]; [discriminate |].
  apply add_time_dict in Hadd as (entries1 & entries2 & Hstamp & Hv & ->).
  rewrite Htime in Hstamp. destruct Hstamp as (x & text & Hx & Htext & ->).
  exists x, text, entries2.
  split; [reflexivity |]. split; [assumption |]. split; [assumption |].
  split; [| split].
  - destruct (visit_values_some _ _ _ "time_human" _ Hv (dict_get_set _ _ _))
      as (v' & Hv' & Hget).
    apply add_time_text in Hv'. now subst.
  - assert (dict_get "time" (dict_set "time_human" (JString text) entries)
            = Some value) as Hget1.
    { rewrite dict_get_set_ne; [assumption | discriminate]. }
    destruct (visit_values_some _ _ _ "time" _ Hv Hget1) as (v' & Hv' & Hget).
    apply (add_time_timestamp _ _ _ _ Hx) in Hv'. now subst.
  - rewrite (visit_values_keys _ _ _ Hv). apply dict_set_keys.
Qed.

Lemma list_max_leb (xs : list nat) (d : nat) :
  (list_max xs <=? d)%nat = forallb (fun x => (x <=? d)%nat) xs.
Proof.
  induction xs as [|x xs IH]; [reflexivity |].
  cbn [list_max fold_right forallb]. fold (list_max xs). rewrite <- IH.
  destruct (Nat.leb_spec x d), (Nat.leb_spec (list_max xs) d),
    (Nat.leb_spec (Nat.max x (list_max xs)) d); cbn; try reflexivity; lia.
Qed.

Lemma visit_items_time_free (f : Json Num -> run (Json Num)) d items :
  (forall obj, time_free obj = true ->
     f obj = if (nesting obj <=? d)%nat then Returned obj else Unfinished) ->
  forallb time_free items = true ->
  visit_items f items =
  if forallb (fun x => (x <=? d)%nat) (map nesting items)
  then Returned items else Unfinished.
Proof.
  intros Hf. induction items as [|item rest IH]; intros Hfree; [reflexivity |].
  cbn [forallb] in Hfree. apply andb_true_iff in Hfree as [Hitem Hrest].
  cbn [visit_items map forallb]. rewrite (Hf _ Hitem), (IH Hrest).
  destruct (nesting item <=? d)%nat; [| reflexivity].
  cbn [mbind run_bind andb].
  destruct (forallb (fun x => (x <=? d)%nat) (map nesting rest)); reflexivity.
Qed.

Lemma visit_values_time_free (f : Json Num -> run (Json Num)) d entries :
  (forall obj, time_free obj = true ->
     f obj = if (nesting obj <=? d)%nat then Returned obj else Unfinished) ->
  forallb (fun entry => time_free (snd entry)) entries = true ->
  visit_values f entries =
  if forallb (fun x => (x <=? d)%nat) (map (fun entry => nesting (snd entry)) entries)
  then Returned entries else Unfinished.
Proof.
  intros Hf. induction entries as [|[k v] rest IH]; intros Hfree; [reflexivity |].
  cbn [forallb snd] in Hfree. apply andb_true_iff in Hfree as [Hitem Hrest].
  cbn [visit_values map forallb snd]. rewrite (Hf _ Hitem), (IH Hrest).
  destruct (nesting v <=? d)%nat; [| reflexivity].
  cbn [mbind run_bind andb].
  destruct (forallb (fun x => (x <=? d)%nat)
              (map (fun entry => nesting (snd entry)) rest)); reflexivity.
Qed.

Lemma add_time_time_free fuel : forall obj : Json Num,
  time_free obj = true ->
  add_time fuel obj = if (nesting obj <=? fuel)%nat then Returned obj else Unfinished.
Proof.
  induction fuel as [|d IH]; intros obj Hfree.
  - now destruct obj.
  - destruct obj as [| b | x | s | items | entries]; try reflexivity.
    + cbn [time_free] in Hfree. cbn [_add_time_human nesting].
      rewrite (visit_items_time_free _ d _ IH Hfree).
      change (S (list_max (map nesting items)) <=? S d)%nat
        with (list_max (map nesting items) <=? d)%nat.
      rewrite list_max_leb.
      destruct (forallb (fun x => (x <=? d)%nat) (map nesting items)); reflexivity.
    + cbn [time_free] in Hfree. apply andb_true_iff in Hfree as [Hkey Hfree].
      cbn [_add_time_human nesting].
      destruct (dict_get "time" entries) as [value|].
      { rewrite bool_decide_eq_true_2 in Hkey by eauto. discriminate. }
      cbn [mbind run_bind].
      rewrite (visit_values_time_free _ d _ IH Hfree).
      change (S (list_max (map (fun entry => nesting (snd entry)) entries)) <=? S d)%nat
        with (list_max (map (fun entry => nesting (snd entry)) entries) <=? d)%nat.
      rewrite list_max_leb.
      destruct (forallb (fun x => (x <=? d)%nat)
                  (map (fun entry => nesting (snd entry)) entries)); reflexivity.
Qed.

Lemma nesting_pos (obj : Json Num) : 1 <= nesting obj.
Proof. destruct obj; cbn [nesting]; lia. Qed.

Lemma visit_items_ends (f : Json Num -> run (Json Num)) items :
  Forall (fun item => f item <> Unfinished) items ->
  visit_items f items <> Unfinished.
Proof.
  induction items as [|item rest IH]; intros Hall; [discriminate |].
  inversion Hall as [|? ? Hitem Hrest]; subst. cbn [visit_items].
  destruct (f item) as [item1 | e |]; [| discriminate | congruence].
  cbn [mbind run_bind]. specialize (IH Hrest).
  destruct (visit_items f rest) as [rest1 | e |]; [discriminate | discriminate | congruence].
Qed.

Lemma visit_values_ends (f : Json Num -> run (Json Num)) entries :
  Forall (fun v => f v <> Unfinished) (map snd entries) ->
  visit_values f entries <> Unfinished.
Proof.
  induction entries as [|[k v] rest IH]; intros Hall; [discriminate |].
  cbn [map snd] in Hall. inversion Hall as [|? ? Hitem Hrest]; subst.
  cbn [visit_values].
  destruct (f v) as [v1 | e |]; [| discriminate | congruence].
  cbn [mbind run_bind]. specialize (IH Hrest).
  destruct (visit_values f rest) as [rest1 | e |]; [discriminate | discriminate | congruence].
Qed.

Lemma add_time_ends fuel : forall obj : Json Num,
  nesting obj <= fuel -> add_time fuel obj <> Unfinished.
Proof.
  induction fuel as [|d IH]; intros obj Hfuel.
  - pose proof (nesting_pos obj). lia.
  - destruct obj as [| b | x | s | items | entries]; try discriminate.
    + cbn [nesting] in Hfuel. cbn [_add_time_human].
      assert (visit_items (add_time d) items <> Unfinished) as Hitems.
      { apply visit_items_ends. apply Forall_forall. intros item Hin. apply IH.
        assert (list_max (map nesting items) <= d) as Hmax by lia.
        apply list_max_le in Hmax. rewrite List.Forall_forall in Hmax.
        apply Hmax. apply in_map. now apply list_elem_of_In. }
      destruct (visit_items (add_time d) items) as [items1 | e |];
        [discriminate | discriminate | congruence].
    + cbn [nesting] in Hfuel. cbn [_add_time_human].
      assert (Forall (fun v => nesting v <= d) (map snd entries)) as Hvalues.
      { assert (list_max (map (fun entry => nesting (snd entry)) entries) <= d)
          as Hmax by lia.
        apply list_max_le in Hmax. rewrite <- (map_map snd nesting) in Hmax.
        apply Forall_forall. intros v Hin. rewrite List.Forall_forall in Hmax.
        apply Hmax. apply in_map. now apply list_elem_of_In. }
      assert (forall entries1,
                Forall (fun v => nesting v <= d) (map snd entries1) ->
                (entries2 ← visit_values (add_time d) entries1; Returned (JDict entries2))
                <> (Unfinished : run (Json Num))) as Hvisit.
      { intros entries1 Hall.
        assert (visit_values (add_time d) entries1 <> Unfinished) as Hends.
        { apply visit_values_ends. eapply Forall_impl; [exact Hall |].
          intros v Hv. now apply IH. }
        destruct (visit_values (add_time d) entries1) as [entries2 | e |];
          [discriminate | discriminate | congruence]. }
      destruct (dict_get "time" entries) as [value|] eqn:Htime;
        [| now apply Hvisit].
      destruct (timestamp of_bool value) as [x|]; [| discriminate].
      destruct (strftime x) as [text | e]; [| discriminate].
      apply Hvisit. apply dict_set_values; [| exact Hvalues].
      apply dict_get_value in Htime. rewrite Forall_forall in Hvalues.
      specialize (Hvalues _ Htime). pose proof (nesting_pos value).
      cbn [nesting]. lia.
Qed.

(** X29: on an object none of whose dictionaries has the key "time",
    [_add_time_human] raises nothing and returns the object as it is: that
    is the result as soon as the nesting of the object is evaluated.  On
    every object the call ends, returning or raising, within the nesting of
    the object. *)
Theorem add_time_human_time_free fuel (obj : Json Num) :
  (time_free obj = true ->
   add_time fuel obj = if (nesting obj <=? fuel)%nat then Returned obj else Unfinished) /\
  (nesting obj <= fuel -> add_time fuel obj <> Unfinished).
Proof. split; [apply add_time_time_free | apply add_time_ends]. Qed.

Lemma add_time_mono d : forall d' (obj obj' : Json Num),
  d <= d' -> add_time d obj = Returned obj' -> add_time d' obj = Returned obj'.
Proof.
  induction d as [|d IH]; intros d' obj obj' Hle Hadd; [discriminate |].
  destruct d' as [|d']; [lia |].
  assert (forall v v', add_time d v = Returned v' -> add_time d' v = Returned v')
    as Hstep.
  { intros v v'. apply IH. lia. }
  destruct obj as [| b | x | s | items | entries]; try exact Hadd.
  - cbn [_add_time_human] in *.
    destruct (visit_items (add_time d) items) as [items1 | e |] eqn:Hv;
      try discriminate.
    now rewrite (visit_items_imp _ _ _ _ Hstep Hv).
  - cbn [_add_time_human] in *.
    destruct (match dict_get "time" entries with Some _ => _ | None => _ end)
      as [entries1 | e |]; try discriminate.
    cbn [mbind run_bind] in *.
    destruct (visit_values (add_time d) entries1) as [entries2 | e |] eqn:Hv;
      try discriminate.
    now rewrite (visit_values_imp _ _ _ _ Hstep Hv).
Qed.

Lemma add_time_twice d : forall obj obj' : Json Num,
  add_time d obj = Returned obj' -> add_time d obj' = Returned obj'.
Proof.
  induction d as [|d IH]; intros obj obj' Hadd; [discriminate |].
  destruct obj as [| b | x | s | items | entries];
    try (inversion Hadd; reflexivity).
  - cbn [_add_time_human] in Hadd.
    destruct (visit_items (add_time d) items) as [items1 | e |] eqn:Hv;
      try discriminate.
    inversion Hadd. cbn [_add_time_human].
    now rewrite (visit_items_fix _ _ _ IH Hv).
  - apply add_time_dict in Hadd as (entries1 & entries2 & Hstamp & Hv & ->).
    cbn [_add_time_human].
    destruct (dict_get "time" entries) as [value|] eqn:Htime.
    + destruct Hstamp as (x & text & Hx & Htext & ->).
      destruct (visit_values_some _ _ _ "time_human" _ Hv (dict_get_set _ _ _))
        as (v' & Hv' & Hhuman).
      apply add_time_text in Hv'. subst v'.
      assert (dict_get "time" (dict_set "time_human" (JString text) entries)
              = Some value) as Hget1.
      { rewrite dict_get_set_ne; [assumption | discriminate]. }
      destruct (visit_values_some _ _ _ "time" _ Hv Hget1) as (v' & Hv' & Hget).
      apply (add_time_timestamp _ _ _ _ Hx) in Hv'. subst v'.
      rewrite Hget, Hx, Htext. cbn [mbind run_bind].
      rewrite (dict_set_same _ _ _ Hhuman), (visit_values_fix _ _ _ IH Hv).
      reflexivity.
    + subst entries1. rewrite (visit_values_none _ _ _ _ Hv Htime).
      cbn [mbind run_bind]. now rewrite (visit_values_fix _ _ _ IH Hv).
Qed.

(** X30: a second pass of [_add_time_human] over its own result changes
    nothing, and the result of a call that returns does not depend on how
    much nesting beyond its need is evaluated. *)
Theorem add_time_human_stable d d' (obj obj' : Json Num) :
  add_time d obj = Returned obj' ->
  d <= d' ->
  add_time d' obj = Returned obj' /\ add_time d' obj' = Returned obj'.
Proof.
  intros Hadd Hle. split.
  - exact (add_time_mono d d' obj obj' Hle Hadd).
  - apply (add_time_mono d d' obj' obj' Hle).
    exact (add_time_twice d obj obj' Hadd).
Qed.

End TimeProps.

(** ** On whole seconds *)

Lemma add_time_human_stamps_witness :
  exists x text entries',
    JDict [("time", JNumber 1700000000%Z);
           ("bars", JList [JDict [("time", JBool true); ("time_human", JString "1")]]);
           ("time_human", JString "1700000000")] = JDict entries' /\
    timestamp (fun b : bool => if b then 1%Z else 0%Z) (JNumber 1700000000%Z) = Some x /\
    seconds_text x = Value text /\
    dict_get "time_human" entries' = Some (JString text) /\
    dict_get "time" entries' = Some (JNumber 1700000000%Z) /\
    map fst entries' = ["time"; "bars"; "time_human"].
Proof.
  apply (add_time_human_stamps _ seconds_text 5
           [("time", JNumber 1700000000%Z);
            ("bars", JList [JDict [("time", JBool true)]])]).
  - vm_compute. reflexivity.
  - reflexivity.
Defined.

Lemma add_time_human_time_free_witness :
  add_time_seconds 2 (JDict [("bid", JNumber 1%Z); ("ask", JNumber 2%Z)]) =
    Returned (JDict [("bid", JNumber 1%Z); ("ask", JNumber 2%Z)]) /\
  add_time_seconds 3 (JDict [("time", JString "noon")]) <> Unfinished.
Proof.
  split.
  - apply (proj1 (add_time_human_time_free _ seconds_text 2
                    (JDict [("bid", JNumber 1%Z); ("ask", JNumber 2%Z)]))).
    reflexivity.
  - apply (proj2 (add_time_human_time_free _ seconds_text 3
                    (JDict [("time", JString "noon")]))).
    vm_compute. lia.
Defined.

Lemma add_time_human_stable_witness :
  let obj' :=
    JDict [("time", JNumber 60%Z); ("bars", JList [JDict [("time", JBool true);
                                                          ("time_human", JString "1")]]);
           ("time_human", JString "60")] in
  add_time_seconds 9
    (JDict [("time", JNumber 60%Z); ("bars", JList [JDict [("time", JBool true)]])])
    = Returned obj' /\
  add_time_seconds 9 obj' = Returned obj'.
Proof.
  cbv zeta.
  apply (add_time_human_stable _ seconds_text 4 9).
  - vm_compute. reflexivity.
  - lia.
Defined.

End StreamerExtraProps.
